(** * v0-mcp: tool handlers, upstream client and request guard

    A shallow embedding of the two variants of the MCP server found in the
    repository:

    - [Legacy]: [src/index.ts] with its own [createV0Client] (ten tools, the
      API key taken from the worker configuration);
    - [V2]: the variant built on the v0 SDK (thirty-nine tools, the API key
      taken from the [key] query parameter).

    JavaScript values are an inductive type, exceptions and the log of
    upstream calls are threaded through a small monad, and the primitives of
    the JavaScript engine whose exact output the handlers do not depend on
    (number formatting, [JSON.stringify], [URLSearchParams], the wording of
    a [TypeError]) are the fields of the class [Host].  The lookup, decoding
    and dispatch that the MCP server library performs around the handlers
    are modelled from the specification.  The definitions come first, the
    properties after them, and the scenarios on a concrete host last. *)

From Stdlib Require Import String Ascii List ZArith Bool Lia DecimalString.
Import ListNotations.
Open Scope list_scope.
Open Scope string_scope.

Set Implicit Arguments.
#[local] Set Warnings "-register-all".

(** ** JavaScript values *)

(** The values that flow through the handlers: decoded tool arguments, the
    parameter objects handed to the upstream client and the parsed JSON it
    answers with.  An object is its list of own properties in insertion
    order; the first binding of a key is the one that is read. *)
Inductive value (number : Type) : Type :=
| VUndefined
| VNull
| VBool (b : bool)
| VNum (n : number)
| VStr (s : string)
| VArr (items : list (value number))
| VObj (props : list (string * value number)).

Arguments VUndefined {number}.
Arguments VNull {number}.
Arguments VBool {number} b.
Arguments VStr {number} s.

(** The result of [ToIntegerOrInfinity]. *)
Inductive integer_or_infinity := NegInfinity | Finite (z : Z) | PosInfinity.

(** What the handlers use of the JavaScript engine without fixing it. *)
Class Host := {
  number : Type;
  (** a numeric literal or an array length, as a Number *)
  num_of_Z : Z -> number;
  (** [a + b] on Numbers *)
  num_add : number -> number -> number;
  (** [Number::toString] *)
  num_to_string : number -> string;
  (** [ToBoolean] on a Number: false for [0], [-0] and [NaN] *)
  num_truthy : number -> bool;
  (** whether [JSON.stringify] writes the Number (otherwise [null]) *)
  num_finite : number -> bool;
  (** [ToIntegerOrInfinity] *)
  to_integer : number -> integer_or_infinity;
  (** [s.length] *)
  str_length : string -> Z;
  (** [s.substring(start, end)] with integer literals *)
  str_substring : string -> Z -> Z -> string;
  (** [s.slice(start, end)] on the converted bounds *)
  str_slice : string -> integer_or_infinity -> integer_or_infinity -> string;
  (** [JSON.stringify(v, null, 2)] for a [v] other than [undefined] *)
  json_pretty : value number -> string;
  (** [new URLSearchParams(entries).toString()] *)
  url_search_params : list (string * string) -> string;
  (** message of the TypeError raised by reading property [k] of
      [undefined] ([false]) or [null] ([true]) *)
  msg_cannot_read : bool -> string -> string;
  (** message of the TypeError raised by calling a callee that is not a
      function; the argument is the callee as the source writes it *)
  msg_not_a_function : string -> string
}.

Definition nl : string := String (ascii_of_nat 10) EmptyString.

Section Javascript.
Context {host : Host}.

Abbreviation val := (value number).

(** [ToBoolean]. *)
Definition truthy (v : val) : bool :=
  match v with
  | VUndefined | VNull => false
  | VBool b => b
  | VNum n => num_truthy n
  | VStr s => negb (String.eqb s "")
  | VArr _ | VObj _ => true
  end.

Definition nullish (v : val) : bool :=
  match v with
  | VUndefined | VNull => true
  | _ => false
  end.

(** [a || b] *)
Definition js_or (a b : val) : val := if truthy a then a else b.

(** [a ?? b] *)
Definition js_coalesce (a b : val) : val := if nullish a then b else a.

(** [ToString], as a template literal and [String(v)] apply it.  An array
    joins its elements with a comma, [undefined] and [null] elements giving
    the empty string. *)
Fixpoint to_string (v : val) : string :=
  match v with
  | VUndefined => "undefined"
  | VNull => "null"
  | VBool true => "true"
  | VBool false => "false"
  | VNum n => num_to_string n
  | VStr s => s
  | VArr items =>
      String.concat ","
        (map (fun x => if nullish x then "" else to_string x) items)
  | VObj _ => "[object Object]"
  end.

(** The JSON tree that [JSON.stringify] writes for a value: a property
    whose value is [undefined] is dropped, an [undefined] array element and
    a Number that is not finite become [null]. *)
Fixpoint json_tree (v : val) : val :=
  match v with
  | VUndefined => VNull
  | VNum n => if num_finite n then VNum n else VNull
  | VArr items => VArr (map json_tree items)
  | VObj props =>
      VObj ((fix write (ps : list (string * val)) : list (string * val) :=
               match ps with
               | [] => []
               | (k, x) :: rest =>
                   match x with
                   | VUndefined => write rest
                   | _ => (k, json_tree x) :: write rest
                   end
               end) props)
  | other => other
  end.

(** Nothing is written at all for [JSON.stringify(undefined)]. *)
Definition to_json (v : val) : option val :=
  match v with
  | VUndefined => None
  | _ => Some (json_tree v)
  end.

(** [JSON.stringify(v, null, 2)]: a string, or [undefined] for [undefined]. *)
Definition json_stringify_2 (v : val) : val :=
  match v with
  | VUndefined => VUndefined
  | _ => VStr (json_pretty v)
  end.

(** Own property lookup in an object literal or a parsed object. *)
Fixpoint lookup (k : string) (props : list (string * val)) : val :=
  match props with
  | [] => VUndefined
  | (k', v) :: rest => if String.eqb k k' then v else lookup k rest
  end.

Definition has_key (k : string) (props : list (string * val)) : bool :=
  existsb (fun p => String.eqb k (fst p)) props.

(** ** Exceptions and the log of upstream calls *)

(** A thrown value: an [Error] instance (any subclass) with its message, or
    any other value. *)
Inductive thrown :=
| ErrorObject (message : string)
| ThrownValue (v : val).

(** [error instanceof Error ? error.message : String(error)] *)
Definition error_text (error : thrown) : string :=
  match error with
  | ErrorObject message => message
  | ThrownValue v => to_string v
  end.

Record http_request := {
  req_url : string;
  req_method : string;
  req_headers : list (string * string);
  (** the JSON tree written as the body, when there is one *)
  req_body : option val
}.

(** What a run leaves behind, oldest first. *)
Inductive event :=
| Lookup (name : string)                  (* the registry was searched *)
| Call (operation : string) (args : list val) (* a client method was entered *)
| Fetch (request : http_request).         (* a network request was issued *)

Inductive completion (A : Type) :=
| Normal (a : A)
| Abrupt (error : thrown).
Arguments Abrupt {A} error.

Definition M (A : Type) : Type := list event -> completion A * list event.

Definition ret {A} (a : A) : M A := fun log => (Normal a, log).

Definition throw {A} (error : thrown) : M A := fun log => (Abrupt error, log).

Definition bind {A B} (m : M A) (k : A -> M B) : M B :=
  fun log =>
    match m log with
    | (Normal a, log') => k a log'
    | (Abrupt error, log') => (Abrupt error, log')
    end.

Definition emit (e : event) : M unit := fun log => (Normal tt, log ++ [e])%list.

(** [try { m } catch (error) { handler error }] *)
Definition try_catch {A} (m : M A) (handler : thrown -> M A) : M A :=
  fun log =>
    match m log with
    | (Normal a, log') => (Normal a, log')
    | (Abrupt error, log') => handler error log'
    end.

(** Resuming after an [await] on something that settled as [c]. *)
Definition settle {A} (c : completion A) : M A := fun log => (c, log).

End Javascript.

Arguments Abrupt {host A} error.

Notation "x <- m ;; k" := (bind m (fun x => k))
  (at level 61, m at next level, right associativity).
Notation "m ;;; k" := (bind m (fun _ => k))
  (at level 61, right associativity).

Section Builtins.
Context {host : Host}.

Abbreviation val := (value number).

Fixpoint map_m {A B} (f : A -> M B) (l : list A) : M (list B) :=
  match l with
  | [] => ret []
  | x :: rest =>
      bind (f x) (fun y => bind (map_m f rest) (fun ys => ret (y :: ys)))
  end.

(** ** Property reads and the array and string methods the handlers call *)

Definition type_error {A} (message : string) : M A :=
  throw (ErrorObject message).

(** [v.k] for the property names the handlers read.  None of them is
    inherited from a prototype except [length]. *)
Definition get (v : val) (k : string) : M val :=
  match v with
  | VUndefined => type_error (msg_cannot_read false k)
  | VNull => type_error (msg_cannot_read true k)
  | VObj props => ret (lookup k props)
  | VArr items =>
      ret (if String.eqb k "length"
           then VNum (num_of_Z (Z.of_nat (length items)))
           else VUndefined)
  | VStr s =>
      ret (if String.eqb k "length"
           then VNum (num_of_Z (str_length s))
           else VUndefined)
  | VBool _ | VNum _ => ret VUndefined
  end.

(** [items.join(sep)] *)
Definition join_items (sep : string) (items : list val) : string :=
  String.concat sep (map (fun x => if nullish x then "" else to_string x) items).

(** [v.map(f)], the callback rendering one line per element.  [callee] is
    the text of [v.map] in the source, used in the message when [v] has no
    such method. *)
Definition js_map (callee : string) (v : val) (f : val -> M string)
  : M (list string) :=
  match v with
  | VArr items => map_m f items
  | VUndefined => type_error (msg_cannot_read false "map")
  | VNull => type_error (msg_cannot_read true "map")
  | _ => type_error (msg_not_a_function callee)
  end.

(** [v.join(sep)] *)
Definition js_join (callee : string) (v : val) (sep : string) : M val :=
  match v with
  | VArr items => ret (VStr (join_items sep items))
  | VUndefined => type_error (msg_cannot_read false "join")
  | VNull => type_error (msg_cannot_read true "join")
  | _ => type_error (msg_not_a_function callee)
  end.

(** The index arithmetic of [Array.prototype.slice]. *)
Definition clamp_index (len : Z) (i : integer_or_infinity) : Z :=
  match i with
  | NegInfinity => 0
  | PosInfinity => len
  | Finite z => if (z <? 0)%Z then Z.max (len + z) 0 else Z.min z len
  end.

Definition slice_list {A} (l : list A) (start stop : integer_or_infinity)
  : list A :=
  let len := Z.of_nat (length l) in
  let k := clamp_index len start in
  let final := clamp_index len stop in
  firstn (Z.to_nat (final - k)) (skipn (Z.to_nat k) l).

(** [v.slice(start, stop)] *)
Definition js_slice (callee : string) (v : val)
    (start stop : integer_or_infinity) : M val :=
  match v with
  | VArr items => ret (VArr (slice_list items start stop))
  | VStr s => ret (VStr (str_slice s start stop))
  | VUndefined => type_error (msg_cannot_read false "slice")
  | VNull => type_error (msg_cannot_read true "slice")
  | _ => type_error (msg_not_a_function callee)
  end.

(** [v?.substring(start, stop)] *)
Definition js_opt_substring (callee : string) (v : val) (start stop : Z)
  : M val :=
  match v with
  | VUndefined | VNull => ret VUndefined
  | VStr s => ret (VStr (str_substring s start stop))
  | _ => type_error (msg_not_a_function callee)
  end.

(** [v?.join(sep)] *)
Definition js_opt_join (callee : string) (v : val) (sep : string) : M val :=
  if nullish v then ret VUndefined else js_join callee v sep.

(** ** Result envelopes and tool registrations *)

Record content_block := {
  block_type : string;
  block_text : string
}.

Record envelope := {
  content : list content_block
}.

(** [{ content: [{ type: "text", text }] }] *)
Definition text_result (text : string) : envelope :=
  {| content := [ {| block_type := "text"; block_text := text |} ] |}.

(** The zod declarations of the parameter schemas.  [.describe(...)] only
    attaches documentation and is left out. *)
Inductive ztype :=
| ZString
| ZNumber
| ZBoolean
| ZEnum (options : list string)
| ZArray (item : ztype)
| ZObject (shape : list (string * ztype))
| ZOptional (inner : ztype).

Definition arguments := list (string * val).

(** One [this.server.tool(name, description, schema, handler)].

    Every handler in both variants is written as

      [async (args) => { try { ...; return { content: [{ type: "text", text: T }] }; }
                         catch (error) { return { content: [{ type: "text",
                           text: `P${error instanceof Error ? error.message : String(error)}` }] }; } }]

    The record keeps what differs from one registration to the next: the
    computation of [T] in the try block ([attempt]) and the literal [P] that
    opens the text of the catch block ([error_phrase]). *)
Record tool := {
  name : string;
  description : string;
  schema : list (string * ztype);
  attempt : arguments -> M string;
  error_phrase : string
}.

(** The handler as the source writes it. *)
Definition handler (t : tool) (args : arguments) : M envelope :=
  try_catch
    (bind (attempt t args) (fun text => ret (text_result text)))
    (fun error => ret (text_result (error_phrase t ++ error_text error))).

(** The text every listing tool builds from the upstream answer [x]:

      [`Found ${x.data ? x.data.length : 0} NOUN:\n\n${
          x.data ? LINES(x.data).join("\n") : EMPTY}`]

    where [LINES] is the tool's own [x.data....map(...)]. *)
Definition listing_text (noun empty : string) (lines : val -> M (list string))
    (x : val) : M string :=
  data <- get x "data" ;;
  list <-
    (if truthy data
     then ls <- lines data ;; ret (String.concat nl ls)
     else ret empty) ;;
  count <- (if truthy data then get data "length" else ret (VNum (num_of_Z 0))) ;;
  ret ("Found " ++ to_string count ++ " " ++ noun ++ ":" ++ nl ++ nl ++ list).

End Builtins.


(** Destructuring with a numeric default, [({ limit = 10 })]: the decoded
    argument is a Number or is absent. *)
Definition number_or {host : Host} (v : value number) (default : Z) : number :=
  match v with
  | VNum n => n
  | _ => num_of_Z default
  end.

(** ** The worker boundary *)

(** What [fetch] reads of the inbound request: the path of its URL and the
    [key] query parameter when there is one. *)
Record request := {
  pathname : string;
  key_param : option string
}.

(** What [fetch] returns: a [Response] of its own, or the answer of the
    agent mounted at a path, which receives [ctx.props.apiKey]. *)
Inductive fetch_result {host : Host} :=
| Respond (status : Z) (body : string)
| ServeSSE (mount : string) (apiKey : value number)
| Serve (mount : string) (apiKey : value number).

(** * The legacy variant: [src/index.ts] *)

Module Legacy.
Section Legacy.
Context {host : Host}.

Abbreviation val := (value number).

(** ** [createV0Client] *)

(** What the global [fetch] resolves to: the fields of the [Response] that
    [fetcher] reads.  [text] and [json] are the outcomes of [res.text()] and
    [res.json()]. *)
Record http_response := {
  status : Z;
  ok : bool;
  text : completion string;
  json : completion val
}.

(** The network: the outcome of [fetch(url, init)] for every request. *)
Definition network : Type := http_request -> completion http_response.

Record fetcher_params := {
  query : option (list (string * val));
  body : val
}.

Definition no_params : fetcher_params := {| query := None; body := VUndefined |}.
Definition with_body (b : val) : fetcher_params := {| query := None; body := b |}.

Definition BASE_URL : string := "https://api.v0.dev/v1".

(** [init()]: the client built from [this.props.apiKey], then the ten
    registrations that close over it. *)
Section Init.
Variable net : network.
Variable apiKey : val.

Definition fetcher (url method : string) (params : fetcher_params) : M val :=
  let queryString :=
    match query params with
    | Some q => "?" ++ url_search_params (map (fun p => (fst p, to_string (snd p))) q)
    | None => ""
    end in
  let finalUrl := BASE_URL ++ url ++ queryString in
  if negb (truthy apiKey) then throw (ErrorObject "V0_API_KEY is required")
  else
    let hasBody := negb (String.eqb method "GET") && truthy (body params) in
    let headers :=
      ("Authorization", "Bearer " ++ to_string apiKey)
      :: (if hasBody then [("Content-Type", "application/json")] else []) in
    let request :=
      {| req_url := finalUrl;
         req_method := method;
         req_headers := headers;
         req_body := if hasBody then to_json (body params) else None |} in
    emit (Fetch request) ;;;
    res <- settle (net request) ;;
    if negb (ok res) then
      text <- settle (text res) ;;
      throw (ErrorObject ("HTTP " ++ num_to_string (num_of_Z (status res)) ++ ": " ++ text))
    else settle (json res).

(** [Object.fromEntries(Object.entries(o).filter(([_, value]) => value !== undefined))] *)
Definition defined_entries (o : list (string * val)) : list (string * val) :=
  filter (fun p => match snd p with VUndefined => false | _ => true end) o.

(** [fetcher(url, "GET", { ...(hasQuery ? { query } : {}) })] *)
Definition query_params (q : list (string * val)) : fetcher_params :=
  let hasQuery := (0 <? Z.of_nat (length q))%Z in
  if hasQuery then {| query := Some q; body := VUndefined |} else no_params.

Definition chats_create (params : list (string * val)) : M val :=
  emit (Call "chats.create" [VObj params]) ;;;
  let body :=
    VObj [("message", lookup "message" params);
          ("attachments", lookup "attachments" params);
          ("system", lookup "system" params);
          ("chatPrivacy", lookup "chatPrivacy" params);
          ("projectId", lookup "projectId" params);
          ("modelConfiguration", lookup "modelConfiguration" params)] in
  fetcher "/chats" "POST" (with_body body).

Definition chats_getById (params : list (string * val)) : M val :=
  emit (Call "chats.getById" [VObj params]) ;;;
  fetcher ("/chats/" ++ to_string (lookup "chatId" params)) "GET" no_params.

Definition chats_createMessage (params : list (string * val)) : M val :=
  emit (Call "chats.createMessage" [VObj params]) ;;;
  let body :=
    VObj [("message", lookup "message" params);
          ("attachments", lookup "attachments" params);
          ("modelConfiguration", lookup "modelConfiguration" params)] in
  fetcher ("/chats/" ++ to_string (lookup "chatId" params) ++ "/messages") "POST"
    (with_body body).

Definition chats_find (params : option (list (string * val))) : M val :=
  emit (Call "chats.find" (match params with Some p => [VObj p] | None => [] end)) ;;;
  let query :=
    match params with
    | Some p =>
        defined_entries [("limit", lookup "limit" p);
                         ("offset", lookup "offset" p);
                         ("isFavorite", lookup "isFavorite" p)]
    | None => []
    end in
  fetcher "/chats" "GET" (query_params query).

Definition chats_delete (params : list (string * val)) : M val :=
  emit (Call "chats.delete" [VObj params]) ;;;
  fetcher ("/chats/" ++ to_string (lookup "chatId" params)) "DELETE" no_params.

Definition projects_create (params : list (string * val)) : M val :=
  emit (Call "projects.create" [VObj params]) ;;;
  let body :=
    VObj [("name", lookup "name" params);
          ("description", lookup "description" params);
          ("icon", lookup "icon" params);
          ("environmentVariables", lookup "environmentVariables" params);
          ("instructions", lookup "instructions" params)] in
  fetcher "/projects" "POST" (with_body body).

Definition projects_find : M val :=
  emit (Call "projects.find" []) ;;;
  fetcher "/projects" "GET" no_params.

Definition user_get : M val :=
  emit (Call "user.get" []) ;;;
  fetcher "/user" "GET" no_params.

Definition user_getPlan : M val :=
  emit (Call "user.getPlan" []) ;;;
  fetcher "/user/plan" "GET" no_params.

Definition rateLimits_find (params : option (list (string * val))) : M val :=
  emit (Call "rateLimits.find" (match params with Some p => [VObj p] | None => [] end)) ;;;
  let query :=
    match params with
    | Some p => defined_entries [("scope", lookup "scope" p)]
    | None => []
    end in
  fetcher "/rate-limits" "GET" (query_params query).


(** ** The tools *)

Definition create_chat (args : arguments) : M string :=
  let message := lookup "message" args in
  let system := lookup "system" args in
  let chatPrivacy := lookup "chatPrivacy" args in
  let modelId := lookup "modelId" args in
  let imageGenerations := lookup "imageGenerations" args in
  result <- chats_create
    [("message", message);
     ("system", system);
     ("chatPrivacy", chatPrivacy);
     ("modelConfiguration",
       if truthy modelId
       then VObj [("modelId", modelId);
                  ("imageGenerations", js_coalesce imageGenerations (VBool false))]
       else VUndefined)] ;;
  url <- get result "url" ;;
  id <- get result "id" ;;
  ret ("Chat created successfully!" ++ nl ++ nl ++ "Chat URL: " ++ to_string url
       ++ nl ++ "Chat ID: " ++ to_string id).

Definition get_chat (args : arguments) : M string :=
  let chatId := lookup "chatId" args in
  chat <- chats_getById [("chatId", chatId)] ;;
  id <- get chat "id" ;;
  url <- get chat "url" ;;
  ret ("Chat Details:" ++ nl ++ nl ++ "ID: " ++ to_string id ++ nl ++ "URL: "
       ++ to_string url).

Definition add_message (args : arguments) : M string :=
  let chatId := lookup "chatId" args in
  let message := lookup "message" args in
  response <- chats_createMessage [("chatId", chatId); ("message", message)] ;;
  ret ("Message added successfully!" ++ nl ++ nl ++ "Response: "
       ++ to_string (json_stringify_2 response)).

(** [chats.data.slice(0, limit).map((chat) => `- ${chat.id}`)]: the lines
    of the list before they are joined. *)
Definition chat_lines (data : val) (limit : number) : M (list string) :=
  sliced <- js_slice "chats.data.slice" data (Finite 0) (to_integer limit) ;;
  js_map "chats.data.slice(...).map" sliced
    (fun chat => id <- get chat "id" ;; ret ("- " ++ to_string id)).

Definition find_chats (args : arguments) : M string :=
  let limit := number_or (lookup "limit" args) 10 in
  let offset := number_or (lookup "offset" args) 0 in
  chats <- chats_find
    (Some [("limit", VStr (num_to_string limit));
           ("offset", VStr (num_to_string offset))]) ;;
  listing_text "chats" "No chats found" (fun data => chat_lines data limit) chats.

Definition create_project (args : arguments) : M string :=
  let name := lookup "name" args in
  let description := lookup "description" args in
  project <- projects_create [("name", name); ("description", description)] ;;
  id <- get project "id" ;;
  pname <- get project "name" ;;
  ret ("Project created successfully!" ++ nl ++ nl ++ "ID: " ++ to_string id
       ++ nl ++ "Name: " ++ to_string pname).

(** [projects.data.slice(offset, offset + limit).map((project) =>
    `- ${project.id}: ${project.name}`)] *)
Definition project_lines (data : val) (limit offset : number) : M (list string) :=
  sliced <- js_slice "projects.data.slice" data
              (to_integer offset) (to_integer (num_add offset limit)) ;;
  js_map "projects.data.slice(...).map" sliced
    (fun project =>
       id <- get project "id" ;;
       pname <- get project "name" ;;
       ret ("- " ++ to_string id ++ ": " ++ to_string pname)).

Definition find_projects (args : arguments) : M string :=
  let limit := number_or (lookup "limit" args) 10 in
  let offset := number_or (lookup "offset" args) 0 in
  projects <- projects_find ;;
  listing_text "projects" "No projects found" (fun data => project_lines data limit offset) projects.

Definition get_user_info (args : arguments) : M string :=
  user <- user_get ;;
  id <- get user "id" ;;
  email <- get user "email" ;;
  uname <- get user "name" ;;
  ret ("User Information:" ++ nl ++ nl ++ "ID: " ++ to_string id ++ nl ++ "Email: "
       ++ to_string email ++ nl ++ "Name: "
       ++ to_string (js_or uname (VStr "Not provided"))).

Definition get_user_plan (args : arguments) : M string :=
  plan <- user_getPlan ;;
  p <- get plan "plan" ;;
  ret ("User Plan:" ++ nl ++ nl ++ "Plan: " ++ to_string p ++ nl ++ "Details: "
       ++ to_string (json_stringify_2 plan)).

Definition check_rate_limits (args : arguments) : M string :=
  rateLimits <- rateLimits_find None ;;
  ret ("Rate Limits:" ++ nl ++ nl ++ to_string (json_stringify_2 rateLimits)).

Definition delete_chat (args : arguments) : M string :=
  let chatId := lookup "chatId" args in
  chats_delete [("chatId", chatId)] ;;;
  ret ("Chat " ++ to_string chatId ++ " deleted successfully!").

Definition model_ids : list string := ["v0-1.5-sm"; "v0-1.5-md"; "v0-1.5-lg"].

(** The registrations, in the order of [init()]. *)
Definition tools : list tool :=
  [ {| name := "create_chat";
       description := "Create a new AI-powered chat session. Use this to start a new conversation with the v0 platform, optionally providing a system prompt, privacy setting, and model configuration.";
       schema := [("message", ZString);
                  ("system", ZOptional ZString);
                  ("chatPrivacy", ZOptional (ZEnum ["private"; "public"]));
                  ("modelId", ZOptional (ZEnum model_ids));
                  ("imageGenerations", ZOptional ZBoolean)];
       attempt := create_chat;
       error_phrase := "Error creating chat: " |};
    {| name := "get_chat";
       description := "Retrieve details for a specific chat session by its ID. Use this to get information or the URL for an existing chat.";
       schema := [("chatId", ZString)];
       attempt := get_chat;
       error_phrase := "Error retrieving chat: " |};
    {| name := "add_message";
       description := "Add a new message to an existing chat session. Use this to continue a conversation or provide additional instructions to the AI.";
       schema := [("chatId", ZString); ("message", ZString)];
       attempt := add_message;
       error_phrase := "Error adding message: " |};
    {| name := "find_chats";
       description := "List existing chat sessions. Use this to browse your chat history, with optional pagination.";
       schema := [("limit", ZOptional ZNumber); ("offset", ZOptional ZNumber)];
       attempt := find_chats;
       error_phrase := "Error finding chats: " |};
    {| name := "create_project";
       description := "Create a new project on the v0 platform. Use this to organize related chats, files, and deployments under a single project.";
       schema := [("name", ZString); ("description", ZOptional ZString)];
       attempt := create_project;
       error_phrase := "Error creating project: " |};
    {| name := "find_projects";
       description := "List your v0 projects. Use this to browse and manage your projects, with optional pagination.";
       schema := [("limit", ZOptional ZNumber); ("offset", ZOptional ZNumber)];
       attempt := find_projects;
       error_phrase := "Error finding projects: " |};
    {| name := "get_user_info";
       description := "Retrieve information about the current user, such as user ID, email, and name.";
       schema := [];
       attempt := get_user_info;
       error_phrase := "Error getting user info: " |};
    {| name := "get_user_plan";
       description := "Get the current user's plan and billing details. Use this to check your subscription and usage limits.";
       schema := [];
       attempt := get_user_plan;
       error_phrase := "Error getting user plan: " |};
    {| name := "check_rate_limits";
       description := "Check your current API rate limits and usage. Use this to monitor your quota and avoid hitting rate limits.";
       schema := [];
       attempt := check_rate_limits;
       error_phrase := "Error checking rate limits: " |};
    {| name := "delete_chat";
       description := "Delete a chat session by its ID. Use this to remove a chat and its associated data from your account.";
       schema := [("chatId", ZString)];
       attempt := delete_chat;
       error_phrase := "Error deleting chat: " |} ].

End Init.

(** ** The worker's [fetch] *)

(** The key comes from the worker configuration, [env.V0_API_KEY]; the
    request is not searched for one and nothing is answered with 401. *)
Definition fetch (request : request) (env_V0_API_KEY : val) : fetch_result :=
  let apiKey := env_V0_API_KEY in
  if String.eqb (pathname request) "/sse"
     || String.eqb (pathname request) "/sse/message"
  then ServeSSE "/sse" apiKey
  else if String.eqb (pathname request) "/mcp"
  then Serve "/mcp" apiKey
  else Respond 404 "Not found".

End Legacy.
End Legacy.

(** * The SDK variant: thirty-nine tools over [createClient] of [v0-sdk] *)

Module V2.
Section V2.
Context {host : Host}.

Abbreviation val := (value number).

(** The SDK is not part of the repository: a client is what its methods
    settle to, for every method ([chats.create], [user.get], ...) and every
    argument list. *)
Definition sdk_client : Type := string -> list val -> completion val.

Section Init.
(** [createClient({ apiKey })] *)
Variable createClient : val -> sdk_client.
Variable apiKey : val.

(** [await v0.<operation>(...args)] *)
Definition v0 (operation : string) (args : list val) : M val :=
  emit (Call operation args) ;;;
  settle (createClient apiKey operation args).

Definition model_ids : list string := ["v0-1.5-sm"; "v0-1.5-md"; "v0-1.5-lg"].

Definition attachments_type : ztype := ZArray (ZObject [("url", ZString)]).

Definition hook_events : list string :=
  ["chat.created"; "chat.updated"; "chat.deleted";
   "message.created"; "message.updated"; "message.deleted";
   "project.created"; "project.updated"; "project.deleted"].

(** ** Chat tools *)

Definition create_chat (args : arguments) : M string :=
  let message := lookup "message" args in
  let system := lookup "system" args in
  let chatPrivacy := lookup "chatPrivacy" args in
  let projectId := lookup "projectId" args in
  let modelId := lookup "modelId" args in
  let imageGenerations := lookup "imageGenerations" args in
  let attachments := lookup "attachments" args in
  result <- v0 "chats.create"
    [VObj [("message", message);
           ("system", system);
           ("chatPrivacy", chatPrivacy);
           ("projectId", projectId);
           ("modelConfiguration",
             if truthy modelId
             then VObj [("modelId", modelId);
                        ("imageGenerations", js_coalesce imageGenerations (VBool false))]
             else VUndefined);
           ("attachments", attachments)]] ;;
  url <- get result "url" ;;
  id <- get result "id" ;;
  ret ("Chat created successfully!" ++ nl ++ nl ++ "Chat URL: " ++ to_string url
       ++ nl ++ "Chat ID: " ++ to_string id).

(** [chats.data.map((chat) => `- ${chat.id}: ${chat.name || "Untitled"} (${chat.url})`)] *)
Definition chat_lines (data : val) : M (list string) :=
  js_map "chats.data.map" data
    (fun chat =>
       id <- get chat "id" ;;
       cname <- get chat "name" ;;
       url <- get chat "url" ;;
       ret ("- " ++ to_string id ++ ": " ++ to_string (js_or cname (VStr "Untitled"))
            ++ " (" ++ to_string url ++ ")")).

Definition find_chats (args : arguments) : M string :=
  let limit := lookup "limit" args in
  let offset := lookup "offset" args in
  let isFavorite := lookup "isFavorite" args in
  chats <- v0 "chats.find"
    [VObj [("limit", limit); ("offset", offset); ("isFavorite", isFavorite)]] ;;
  listing_text "chats" "No chats found" chat_lines chats.

Definition initialize_chat (args : arguments) : M string :=
  let zipUrl := lookup "zipUrl" args in
  let name := lookup "name" args in
  let projectId := lookup "projectId" args in
  let lockAllFiles := lookup "lockAllFiles" args in
  result <- v0 "chats.init"
    [VObj [("type", VStr "zip");
           ("zip", VObj [("url", zipUrl)]);
           ("name", name);
           ("projectId", projectId);
           ("lockAllFiles", lockAllFiles)]] ;;
  url <- get result "url" ;;
  id <- get result "id" ;;
  ret ("Chat initialized successfully from zip!" ++ nl ++ nl ++ "Chat URL: "
       ++ to_string url ++ nl ++ "Chat ID: " ++ to_string id).

Definition get_chat (args : arguments) : M string :=
  let chatId := lookup "chatId" args in
  chat <- v0 "chats.getById" [VObj [("chatId", chatId)]] ;;
  id <- get chat "id" ;;
  cname <- get chat "name" ;;
  url <- get chat "url" ;;
  createdAt <- get chat "createdAt" ;;
  ret ("Chat Details:" ++ nl ++ nl ++ "ID: " ++ to_string id ++ nl ++ "Name: "
       ++ to_string (js_or cname (VStr "Untitled")) ++ nl ++ "URL: " ++ to_string url
       ++ nl ++ "Created: " ++ to_string (js_or createdAt (VStr "Unknown"))).

Definition update_chat (args : arguments) : M string :=
  let chatId := lookup "chatId" args in
  let name := lookup "name" args in
  result <- v0 "chats.update" [VObj [("chatId", chatId); ("name", name)]] ;;
  id <- get result "id" ;;
  ret ("Chat updated successfully!" ++ nl ++ nl ++ "Chat ID: " ++ to_string id
       ++ (if truthy name then nl ++ "New name: " ++ to_string name else "")).

Definition favorite_chat (args : arguments) : M string :=
  let chatId := lookup "chatId" args in
  let isFavorite := lookup "isFavorite" args in
  v0 "chats.favorite" [VObj [("chatId", chatId); ("isFavorite", isFavorite)]] ;;;
  ret ("Chat "
       ++ (if truthy isFavorite then "marked as favorite" else "removed from favorites")
       ++ " successfully!").

Definition fork_chat (args : arguments) : M string :=
  let chatId := lookup "chatId" args in
  let versionId := lookup "versionId" args in
  result <- v0 "chats.fork" [VObj [("chatId", chatId); ("versionId", versionId)]] ;;
  id <- get result "id" ;;
  url <- get result "url" ;;
  ret ("Chat forked successfully!" ++ nl ++ nl ++ "New Chat ID: " ++ to_string id
       ++ nl ++ "New Chat URL: " ++ to_string url).

Definition send_message (args : arguments) : M string :=
  let chatId := lookup "chatId" args in
  let message := lookup "message" args in
  let attachments := lookup "attachments" args in
  let modelConfiguration := lookup "modelConfiguration" args in
  response <- v0 "chats.sendMessage"
    [VObj [("chatId", chatId);
           ("message", message);
           ("attachments", attachments);
           ("modelConfiguration", modelConfiguration)]] ;;
  id <- get response "id" ;;
  ret ("Message sent successfully!" ++ nl ++ nl ++ "Message ID: " ++ to_string id
       ++ nl ++ "Response: " ++ to_string (json_stringify_2 response)).

(** [messages.data.map((msg) =>
    `- ${msg.id}: ${msg.role} - ${msg.content?.substring(0, 100)}...`)] *)
Definition message_lines (data : val) : M (list string) :=
  js_map "messages.data.map" data
    (fun msg =>
       id <- get msg "id" ;;
       role <- get msg "role" ;;
       content <- get msg "content" ;;
       excerpt <- js_opt_substring "msg.content?.substring" content 0 100 ;;
       ret ("- " ++ to_string id ++ ": " ++ to_string role ++ " - "
            ++ to_string excerpt ++ "...")).

Definition find_chat_messages (args : arguments) : M string :=
  let chatId := lookup "chatId" args in
  let limit := lookup "limit" args in
  let cursor := lookup "cursor" args in
  messages <- v0 "chats.findMessages"
    [VObj [("chatId", chatId); ("limit", limit); ("cursor", cursor)]] ;;
  listing_text "messages" "No messages found" message_lines messages.

Definition get_chat_message (args : arguments) : M string :=
  let chatId := lookup "chatId" args in
  let messageId := lookup "messageId" args in
  message <- v0 "chats.getMessage"
    [VObj [("chatId", chatId); ("messageId", messageId)]] ;;
  id <- get message "id" ;;
  role <- get message "role" ;;
  content <- get message "content" ;;
  createdAt <- get message "createdAt" ;;
  ret ("Message Details:" ++ nl ++ nl ++ "ID: " ++ to_string id ++ nl ++ "Role: "
       ++ to_string role ++ nl ++ "Content: " ++ to_string content ++ nl
       ++ "Created: " ++ to_string (js_or createdAt (VStr "Unknown"))).

(** [versions.data.map((version) =>
    `- ${version.id}: ${version.demoUrl || "No demo"}`)] *)
Definition version_lines (data : val) : M (list string) :=
  js_map "versions.data.map" data
    (fun version =>
       id <- get version "id" ;;
       demoUrl <- get version "demoUrl" ;;
       ret ("- " ++ to_string id ++ ": " ++ to_string (js_or demoUrl (VStr "No demo")))).

Definition find_chat_versions (args : arguments) : M string :=
  let chatId := lookup "chatId" args in
  let limit := lookup "limit" args in
  let cursor := lookup "cursor" args in
  versions <- v0 "chats.findVersions"
    [VObj [("chatId", chatId); ("limit", limit); ("cursor", cursor)]] ;;
  listing_text "versions" "No versions found" version_lines versions.

Definition get_chat_version (args : arguments) : M string :=
  let chatId := lookup "chatId" args in
  let versionId := lookup "versionId" args in
  version <- v0 "chats.getVersion"
    [VObj [("chatId", chatId); ("versionId", versionId)]] ;;
  id <- get version "id" ;;
  demoUrl <- get version "demoUrl" ;;
  files <- get version "files" ;;
  ret ("Version Details:" ++ nl ++ nl ++ "ID: " ++ to_string id ++ nl ++ "Demo URL: "
       ++ to_string (js_or demoUrl (VStr "None")) ++ nl ++ "Files: "
       ++ (if truthy files then to_string (json_stringify_2 files) else "None")).

Definition update_chat_version_files (args : arguments) : M string :=
  let chatId := lookup "chatId" args in
  let versionId := lookup "versionId" args in
  let files := lookup "files" args in
  v0 "chats.updateVersion"
    [VObj [("chatId", chatId); ("versionId", versionId); ("files", files)]] ;;;
  len <- get files "length" ;;
  ret ("Version files updated successfully!" ++ nl ++ nl ++ "Updated "
       ++ to_string len ++ " files.").

Definition resume_message (args : arguments) : M string :=
  let chatId := lookup "chatId" args in
  let messageId := lookup "messageId" args in
  result <- v0 "chats.resume"
    [VObj [("chatId", chatId); ("messageId", messageId)]] ;;
  id <- get result "id" ;;
  ret ("Message resumed successfully!" ++ nl ++ nl ++ "Message ID: " ++ to_string id).

Definition delete_chat (args : arguments) : M string :=
  let chatId := lookup "chatId" args in
  v0 "chats.delete" [VObj [("chatId", chatId)]] ;;;
  ret ("Chat " ++ to_string chatId ++ " deleted successfully!").

(** ** Project tools *)

Definition create_project (args : arguments) : M string :=
  let name := lookup "name" args in
  let description := lookup "description" args in
  let icon := lookup "icon" args in
  let instructions := lookup "instructions" args in
  project <- v0 "projects.create"
    [VObj [("name", name);
           ("description", description);
           ("icon", icon);
           ("instructions", instructions)]] ;;
  id <- get project "id" ;;
  pname <- get project "name" ;;
  pdescription <- get project "description" ;;
  ret ("Project created successfully!" ++ nl ++ nl ++ "ID: " ++ to_string id ++ nl
       ++ "Name: " ++ to_string pname ++ nl ++ "Description: "
       ++ to_string (js_or pdescription (VStr "None"))).

(** [projects.data.map((project) =>
    `- ${project.id}: ${project.name} - ${project.description || "No description"}`)] *)
Definition project_lines (data : val) : M (list string) :=
  js_map "projects.data.map" data
    (fun project =>
       id <- get project "id" ;;
       pname <- get project "name" ;;
       pdescription <- get project "description" ;;
       ret ("- " ++ to_string id ++ ": " ++ to_string pname ++ " - "
            ++ to_string (js_or pdescription (VStr "No description")))).

Definition find_projects (args : arguments) : M string :=
  projects <- v0 "projects.find" [] ;;
  listing_text "projects" "No projects found" project_lines projects.

Definition get_project_by_id (args : arguments) : M string :=
  let projectId := lookup "projectId" args in
  project <- v0 "projects.getById" [VObj [("projectId", projectId)]] ;;
  id <- get project "id" ;;
  pname <- get project "name" ;;
  pdescription <- get project "description" ;;
  instructions <- get project "instructions" ;;
  ret ("Project Details:" ++ nl ++ nl ++ "ID: " ++ to_string id ++ nl ++ "Name: "
       ++ to_string pname ++ nl ++ "Description: "
       ++ to_string (js_or pdescription (VStr "None")) ++ nl ++ "Instructions: "
       ++ to_string (js_or instructions (VStr "None"))).

Definition get_project_by_chat_id (args : arguments) : M string :=
  let chatId := lookup "chatId" args in
  project <- v0 "projects.getByChatId" [VObj [("chatId", chatId)]] ;;
  id <- get project "id" ;;
  pname <- get project "name" ;;
  pdescription <- get project "description" ;;
  ret ("Associated Project:" ++ nl ++ nl ++ "ID: " ++ to_string id ++ nl ++ "Name: "
       ++ to_string pname ++ nl ++ "Description: "
       ++ to_string (js_or pdescription (VStr "None"))).

Definition update_project (args : arguments) : M string :=
  let projectId := lookup "projectId" args in
  let name := lookup "name" args in
  let description := lookup "description" args in
  let instructions := lookup "instructions" args in
  result <- v0 "projects.update"
    [VObj [("projectId", projectId);
           ("name", name);
           ("description", description);
           ("instructions", instructions)]] ;;
  id <- get result "id" ;;
  ret ("Project updated successfully!" ++ nl ++ nl ++ "Project ID: " ++ to_string id
       ++ (if truthy name then nl ++ "New name: " ++ to_string name else "")).

Definition assign_project_to_chat (args : arguments) : M string :=
  let chatId := lookup "chatId" args in
  let projectId := lookup "projectId" args in
  v0 "projects.assign" [VObj [("chatId", chatId); ("projectId", projectId)]] ;;;
  ret ("Project " ++ to_string projectId ++ " assigned to chat " ++ to_string chatId
       ++ " successfully!").

(** ** Deployment tools *)

(** [deployments.data.map((deployment) =>
    `- ${deployment.id}: ${deployment.webUrl || "No URL"}`)] *)
Definition deployment_lines (data : val) : M (list string) :=
  js_map "deployments.data.map" data
    (fun deployment =>
       id <- get deployment "id" ;;
       webUrl <- get deployment "webUrl" ;;
       ret ("- " ++ to_string id ++ ": " ++ to_string (js_or webUrl (VStr "No URL")))).

Definition find_deployments (args : arguments) : M string :=
  let projectId := lookup "projectId" args in
  let chatId := lookup "chatId" args in
  let versionId := lookup "versionId" args in
  deployments <- v0 "deployments.find"
    [VObj [("projectId", projectId); ("chatId", chatId); ("versionId", versionId)]] ;;
  listing_text "deployments" "No deployments found" deployment_lines deployments.

Definition create_deployment (args : arguments) : M string :=
  let chatId := lookup "chatId" args in
  let versionId := lookup "versionId" args in
  let projectId := lookup "projectId" args in
  deployment <- v0 "deployments.create"
    [VObj [("chatId", chatId); ("versionId", versionId); ("projectId", projectId)]] ;;
  id <- get deployment "id" ;;
  webUrl <- get deployment "webUrl" ;;
  apiUrl <- get deployment "apiUrl" ;;
  ret ("Deployment created successfully!" ++ nl ++ nl ++ "Deployment ID: "
       ++ to_string id ++ nl ++ "Web URL: "
       ++ to_string (js_or webUrl (VStr "Deploying...")) ++ nl ++ "API URL: "
       ++ to_string (js_or apiUrl (VStr "Not available"))).

Definition get_deployment (args : arguments) : M string :=
  let deploymentId := lookup "deploymentId" args in
  deployment <- v0 "deployments.getById" [VObj [("deploymentId", deploymentId)]] ;;
  id <- get deployment "id" ;;
  webUrl <- get deployment "webUrl" ;;
  apiUrl <- get deployment "apiUrl" ;;
  inspectorUrl <- get deployment "inspectorUrl" ;;
  chatId <- get deployment "chatId" ;;
  projectId <- get deployment "projectId" ;;
  versionId <- get deployment "versionId" ;;
  let na := VStr "Not available" in
  ret ("Deployment Details:" ++ nl ++ nl ++ "ID: " ++ to_string id ++ nl ++ "Web URL: "
       ++ to_string (js_or webUrl na) ++ nl ++ "API URL: "
       ++ to_string (js_or apiUrl na) ++ nl ++ "Inspector URL: "
       ++ to_string (js_or inspectorUrl na) ++ nl ++ "Chat ID: "
       ++ to_string (js_or chatId na) ++ nl ++ "Project ID: "
       ++ to_string (js_or projectId na) ++ nl ++ "Version ID: "
       ++ to_string (js_or versionId na)).

Definition delete_deployment (args : arguments) : M string :=
  let deploymentId := lookup "deploymentId" args in
  v0 "deployments.delete" [VObj [("deploymentId", deploymentId)]] ;;;
  ret ("Deployment " ++ to_string deploymentId ++ " deleted successfully!").

Definition find_deployment_logs (args : arguments) : M string :=
  let deploymentId := lookup "deploymentId" args in
  let since := lookup "since" args in
  logs <- v0 "deployments.findLogs"
    [VObj [("deploymentId", deploymentId); ("since", since)]] ;;
  ret ("Deployment Logs:" ++ nl ++ nl ++ to_string (json_stringify_2 logs)).

Definition find_deployment_errors (args : arguments) : M string :=
  let deploymentId := lookup "deploymentId" args in
  errors <- v0 "deployments.findErrors" [VObj [("deploymentId", deploymentId)]] ;;
  ret ("Deployment Errors:" ++ nl ++ nl ++ to_string (json_stringify_2 errors)).

(** ** Integration tools *)

Definition create_vercel_project (args : arguments) : M string :=
  let name := lookup "name" args in
  let projectId := lookup "projectId" args in
  project <- v0 "integrations.vercel.projects.create"
    [VObj [("name", name); ("projectId", projectId)]] ;;
  id <- get project "id" ;;
  pname <- get project "name" ;;
  ret ("Vercel project created successfully!" ++ nl ++ nl ++ "Project ID: "
       ++ to_string id ++ nl ++ "Name: " ++ to_string pname).

(** [projects.data.map((project) => `- ${project.id}: ${project.name}`)] *)
Definition vercel_project_lines (data : val) : M (list string) :=
  js_map "projects.data.map" data
    (fun project =>
       id <- get project "id" ;;
       pname <- get project "name" ;;
       ret ("- " ++ to_string id ++ ": " ++ to_string pname)).

Definition find_vercel_projects (args : arguments) : M string :=
  projects <- v0 "integrations.vercel.projects.find" [] ;;
  listing_text "Vercel projects" "No Vercel projects found" vercel_project_lines projects.

(** ** Hook tools *)

(** [hooks.data.map((hook) => `- ${hook.id}: ${hook.name || "Unnamed"} -> ${hook.url}
    (Events: ${hook.events?.join(", ") || "None"})`)] *)
Definition hook_lines (data : val) : M (list string) :=
  js_map "hooks.data.map" data
    (fun hook =>
       id <- get hook "id" ;;
       hname <- get hook "name" ;;
       url <- get hook "url" ;;
       events <- get hook "events" ;;
       joined <- js_opt_join "hook.events?.join" events ", " ;;
       ret ("- " ++ to_string id ++ ": " ++ to_string (js_or hname (VStr "Unnamed"))
            ++ " -> " ++ to_string url ++ " (Events: "
            ++ to_string (js_or joined (VStr "None")) ++ ")")).

Definition find_hooks (args : arguments) : M string :=
  hooks <- v0 "hooks.find" [] ;;
  listing_text "hooks" "No hooks found" hook_lines hooks.

Definition create_hook (args : arguments) : M string :=
  let name := lookup "name" args in
  let url := lookup "url" args in
  let events := lookup "events" args in
  let chatId := lookup "chatId" args in
  let projectId := lookup "projectId" args in
  hook <- v0 "hooks.create"
    [VObj [("name", name);
           ("url", url);
           ("events", events);
           ("chatId", chatId);
           ("projectId", projectId)]] ;;
  id <- get hook "id" ;;
  hname <- get hook "name" ;;
  hurl <- get hook "url" ;;
  joined <- js_join "events.join" events ", " ;;
  ret ("Hook created successfully!" ++ nl ++ nl ++ "Hook ID: " ++ to_string id ++ nl
       ++ "Name: " ++ to_string hname ++ nl ++ "URL: " ++ to_string hurl ++ nl
       ++ "Events: " ++ to_string joined).

Definition get_hook (args : arguments) : M string :=
  let hookId := lookup "hookId" args in
  hook <- v0 "hooks.getById" [VObj [("hookId", hookId)]] ;;
  id <- get hook "id" ;;
  hname <- get hook "name" ;;
  url <- get hook "url" ;;
  events <- get hook "events" ;;
  joined <- js_opt_join "hook.events?.join" events ", " ;;
  chatId <- get hook "chatId" ;;
  projectId <- get hook "projectId" ;;
  ret ("Hook Details:" ++ nl ++ nl ++ "ID: " ++ to_string id ++ nl ++ "Name: "
       ++ to_string (js_or hname (VStr "Unnamed")) ++ nl ++ "URL: " ++ to_string url
       ++ nl ++ "Events: " ++ to_string (js_or joined (VStr "None")) ++ nl
       ++ "Chat ID: " ++ to_string (js_or chatId (VStr "None")) ++ nl
       ++ "Project ID: " ++ to_string (js_or projectId (VStr "None"))).

Definition update_hook (args : arguments) : M string :=
  let hookId := lookup "hookId" args in
  let name := lookup "name" args in
  let url := lookup "url" args in
  let events := lookup "events" args in
  hook <- v0 "hooks.update"
    [VObj [("hookId", hookId); ("name", name); ("url", url); ("events", events)]] ;;
  id <- get hook "id" ;;
  hname <- get hook "name" ;;
  hurl <- get hook "url" ;;
  ret ("Hook updated successfully!" ++ nl ++ nl ++ "Hook ID: " ++ to_string id ++ nl
       ++ "Name: " ++ to_string (js_or hname (VStr "Unnamed")) ++ nl ++ "URL: "
       ++ to_string hurl).

Definition delete_hook (args : arguments) : M string :=
  let hookId := lookup "hookId" args in
  v0 "hooks.delete" [VObj [("hookId", hookId)]] ;;;
  ret ("Hook " ++ to_string hookId ++ " deleted successfully!").

(** ** User and rate limit tools *)

Definition get_user_info (args : arguments) : M string :=
  user <- v0 "user.get" [] ;;
  id <- get user "id" ;;
  email <- get user "email" ;;
  uname <- get user "name" ;;
  ret ("User Information:" ++ nl ++ nl ++ "ID: " ++ to_string id ++ nl ++ "Email: "
       ++ to_string email ++ nl ++ "Name: "
       ++ to_string (js_or uname (VStr "Not provided"))).

Definition get_user_billing (args : arguments) : M string :=
  let scope := lookup "scope" args in
  billing <- v0 "user.getBilling" [VObj [("scope", scope)]] ;;
  ret ("Billing Information:" ++ nl ++ nl ++ to_string (json_stringify_2 billing)).

Definition get_user_plan (args : arguments) : M string :=
  plan <- v0 "user.getPlan" [] ;;
  p <- get plan "plan" ;;
  ret ("User Plan:" ++ nl ++ nl ++ "Plan: " ++ to_string (js_or p (VStr "Unknown"))
       ++ nl ++ "Details: " ++ to_string (json_stringify_2 plan)).

Definition get_user_scopes (args : arguments) : M string :=
  scopes <- v0 "user.getScopes" [] ;;
  ret ("User Scopes:" ++ nl ++ nl ++ to_string (json_stringify_2 scopes)).

Definition check_rate_limits (args : arguments) : M string :=
  let scope := lookup "scope" args in
  rateLimits <- v0 "rateLimits.find" [VObj [("scope", scope)]] ;;
  ret ("Rate Limits:" ++ nl ++ nl ++ to_string (json_stringify_2 rateLimits)).

(** The registrations, in the order of [init()]. *)
Definition tools : list tool :=
  [
    {| name := "create_chat";
       description := "Create a new AI-powered chat session. Use this to start a new conversation with the v0 platform, optionally providing a system prompt, privacy setting, and model configuration.";
       schema := [("message", ZString); ("system", ZOptional ZString); ("chatPrivacy", ZOptional (ZEnum ["private"; "public"])); ("projectId", ZOptional ZString); ("modelId", ZOptional (ZEnum model_ids)); ("imageGenerations", ZOptional ZBoolean); ("attachments", ZOptional attachments_type)];
       attempt := create_chat;
       error_phrase := "Error creating chat: " |};
    {| name := "find_chats";
       description := "List existing chat sessions. Use this to browse your chat history, with optional pagination and filtering.";
       schema := [("limit", ZOptional ZString); ("offset", ZOptional ZString); ("isFavorite", ZOptional ZString)];
       attempt := find_chats;
       error_phrase := "Error finding chats: " |};
    {| name := "initialize_chat";
       description := "Initialize a new chat from a zip source. Enables context-rich conversations based on code or assets.";
       schema := [("zipUrl", ZString); ("name", ZOptional ZString); ("projectId", ZOptional ZString); ("lockAllFiles", ZOptional ZBoolean)];
       attempt := initialize_chat;
       error_phrase := "Error initializing chat: " |};
    {| name := "get_chat";
       description := "Retrieve details for a specific chat session by its ID. Use this to get information or the URL for an existing chat.";
       schema := [("chatId", ZString)];
       attempt := get_chat;
       error_phrase := "Error retrieving chat: " |};
    {| name := "update_chat";
       description := "Update the metadata of an existing chat using its chatId. Supports changes to the chat name and privacy setting.";
       schema := [("chatId", ZString); ("name", ZOptional ZString)];
       attempt := update_chat;
       error_phrase := "Error updating chat: " |};
    {| name := "favorite_chat";
       description := "Mark or unmark a chat as a favorite using its chatId. This helps with organizing and quickly accessing important chats.";
       schema := [("chatId", ZString); ("isFavorite", ZBoolean)];
       attempt := favorite_chat;
       error_phrase := "Error updating favorite status: " |};
    {| name := "fork_chat";
       description := "Create a new chat fork from a specific version within an existing chat. Useful for branching off alternate directions without modifying the original conversation.";
       schema := [("chatId", ZString); ("versionId", ZString)];
       attempt := fork_chat;
       error_phrase := "Error forking chat: " |};
    {| name := "send_message";
       description := "Create a new message in an existing chat. Triggers a model response using the provided prompt, with optional attachments and configuration settings.";
       schema := [("chatId", ZString); ("message", ZString); ("attachments", ZOptional attachments_type); ("modelConfiguration", ZOptional (ZObject [("modelId", ZEnum model_ids); ("imageGenerations", ZOptional ZBoolean)]))];
       attempt := send_message;
       error_phrase := "Error sending message: " |};
    {| name := "find_chat_messages";
       description := "Retrieve a list of all messages for a specific chat, ordered by creation date (newest first). Supports cursor-based pagination.";
       schema := [("chatId", ZString); ("limit", ZOptional ZString); ("cursor", ZOptional ZString)];
       attempt := find_chat_messages;
       error_phrase := "Error finding messages: " |};
    {| name := "get_chat_message";
       description := "Retrieve detailed information about a specific message within a chat, including content, files, model configuration, and demo URLs.";
       schema := [("chatId", ZString); ("messageId", ZString)];
       attempt := get_chat_message;
       error_phrase := "Error getting message: " |};
    {| name := "find_chat_versions";
       description := "Retrieve a list of all versions (iterations) for a specific chat, ordered by creation date (newest first). Supports cursor-based pagination.";
       schema := [("chatId", ZString); ("limit", ZOptional ZString); ("cursor", ZOptional ZString)];
       attempt := find_chat_versions;
       error_phrase := "Error finding versions: " |};
    {| name := "get_chat_version";
       description := "Retrieve detailed information about a specific version of a chat, including all files with their content and lock status.";
       schema := [("chatId", ZString); ("versionId", ZString)];
       attempt := get_chat_version;
       error_phrase := "Error getting version: " |};
    {| name := "update_chat_version_files";
       description := "Update the source files of a specific chat version (block) manually. This allows editing generated files directly through the API.";
       schema := [("chatId", ZString); ("versionId", ZString); ("files", ZArray (ZObject [("name", ZString); ("content", ZString); ("locked", ZOptional ZBoolean)]))];
       attempt := update_chat_version_files;
       error_phrase := "Error updating version files: " |};
    {| name := "resume_message";
       description := "Resume processing of a previously interrupted or incomplete message in a chat. Useful for continuing generation when a message was paused or stopped.";
       schema := [("chatId", ZString); ("messageId", ZString)];
       attempt := resume_message;
       error_phrase := "Error resuming message: " |};
    {| name := "delete_chat";
       description := "Delete a chat session by its ID. Use this to remove a chat and its associated data from your account. This operation is irreversible.";
       schema := [("chatId", ZString)];
       attempt := delete_chat;
       error_phrase := "Error deleting chat: " |};
    {| name := "create_project";
       description := "Create a new project on the v0 platform. Use this to organize related chats, files, and deployments under a single project.";
       schema := [("name", ZString); ("description", ZOptional ZString); ("icon", ZOptional ZString); ("instructions", ZOptional ZString)];
       attempt := create_project;
       error_phrase := "Error creating project: " |};
    {| name := "find_projects";
       description := "List your v0 projects. Use this to browse and manage your projects, with optional pagination.";
       schema := [];
       attempt := find_projects;
       error_phrase := "Error finding projects: " |};
    {| name := "get_project_by_id";
       description := "Retrieve the details of a specific v0 project by its ID.";
       schema := [("projectId", ZString)];
       attempt := get_project_by_id;
       error_phrase := "Error getting project: " |};
    {| name := "get_project_by_chat_id";
       description := "Retrieve the v0 project associated with a given chat. Useful for determining the context or scope of a chat session.";
       schema := [("chatId", ZString)];
       attempt := get_project_by_chat_id;
       error_phrase := "Error getting project by chat ID: " |};
    {| name := "update_project";
       description := "Update the metadata of an existing project using its projectId. Supports changes to the project name and privacy setting.";
       schema := [("projectId", ZString); ("name", ZOptional ZString); ("description", ZOptional ZString); ("instructions", ZOptional ZString)];
       attempt := update_project;
       error_phrase := "Error updating project: " |};
    {| name := "assign_project_to_chat";
       description := "Link an existing v0 project to a specific chat. Helps group conversations under a shared project context.";
       schema := [("chatId", ZString); ("projectId", ZString)];
       attempt := assign_project_to_chat;
       error_phrase := "Error assigning project to chat: " |};
    {| name := "find_deployments";
       description := "Find deployments by project and chat IDs. This will return a list of deployments for the given project and chat IDs.";
       schema := [("projectId", ZString); ("chatId", ZString); ("versionId", ZString)];
       attempt := find_deployments;
       error_phrase := "Error finding deployments: " |};
    {| name := "create_deployment";
       description := "Create a new deployment for a specific chat and version. This will trigger a deployment to Vercel.";
       schema := [("chatId", ZString); ("versionId", ZString); ("projectId", ZString)];
       attempt := create_deployment;
       error_phrase := "Error creating deployment: " |};
    {| name := "get_deployment";
       description := "Get a deployment by ID. This will return the details of the deployment, including the inspector URL, chat ID, project ID, version ID, API URL, and web URL.";
       schema := [("deploymentId", ZString)];
       attempt := get_deployment;
       error_phrase := "Error getting deployment: " |};
    {| name := "delete_deployment";
       description := "Delete a deployment by ID. This will delete the deployment from Vercel.";
       schema := [("deploymentId", ZString)];
       attempt := delete_deployment;
       error_phrase := "Error deleting deployment: " |};
    {| name := "find_deployment_logs";
       description := "Retrieve logs for a specific deployment. Supports filtering by timestamp to fetch only recent logs.";
       schema := [("deploymentId", ZString); ("since", ZOptional ZString)];
       attempt := find_deployment_logs;
       error_phrase := "Error finding deployment logs: " |};
    {| name := "find_deployment_errors";
       description := "Retrieve a list of errors that occurred during a specific deployment. Useful for diagnosing and debugging deployment issues.";
       schema := [("deploymentId", ZString)];
       attempt := find_deployment_errors;
       error_phrase := "Error finding deployment errors: " |};
    {| name := "create_vercel_project";
       description := "Create a new Vercel project integration for deployments.";
       schema := [("name", ZString); ("projectId", ZString)];
       attempt := create_vercel_project;
       error_phrase := "Error creating Vercel project: " |};
    {| name := "find_vercel_projects";
       description := "List existing Vercel project integrations.";
       schema := [];
       attempt := find_vercel_projects;
       error_phrase := "Error finding Vercel projects: " |};
    {| name := "find_hooks";
       description := "Retrieve a list of existing hooks in your workspace. Useful for managing active webhooks tied to chat events or deployments.";
       schema := [];
       attempt := find_hooks;
       error_phrase := "Error finding hooks: " |};
    {| name := "create_hook";
       description := "Create a new webhook that listens for specific events. Supports optional association with a chat or project.";
       schema := [("name", ZString); ("url", ZString); ("events", ZArray (ZEnum hook_events)); ("chatId", ZOptional ZString); ("projectId", ZOptional ZString)];
       attempt := create_hook;
       error_phrase := "Error creating hook: " |};
    {| name := "get_hook";
       description := "Retrieve the details of a specific webhook using its ID.";
       schema := [("hookId", ZString)];
       attempt := get_hook;
       error_phrase := "Error getting hook: " |};
    {| name := "update_hook";
       description := "Update the configuration of an existing webhook, including its name, event subscriptions, or target URL.";
       schema := [("hookId", ZString); ("name", ZOptional ZString); ("url", ZOptional ZString); ("events", ZOptional (ZArray (ZEnum hook_events)))];
       attempt := update_hook;
       error_phrase := "Error updating hook: " |};
    {| name := "delete_hook";
       description := "Delete a webhook based on its ID. This action is irreversible.";
       schema := [("hookId", ZString)];
       attempt := delete_hook;
       error_phrase := "Error deleting hook: " |};
    {| name := "get_user_info";
       description := "Retrieve information about the authenticated user, including their ID, name, email, and account metadata.";
       schema := [];
       attempt := get_user_info;
       error_phrase := "Error getting user info: " |};
    {| name := "get_user_billing";
       description := "Fetch billing usage and quota information for the authenticated user. Can be scoped to a specific context (e.g. project or namespace).";
       schema := [("scope", ZOptional ZString)];
       attempt := get_user_billing;
       error_phrase := "Error getting billing info: " |};
    {| name := "get_user_plan";
       description := "Return the current subscription plan for the authenticated user, including tier details and feature limits.";
       schema := [];
       attempt := get_user_plan;
       error_phrase := "Error getting user plan: " |};
    {| name := "get_user_scopes";
       description := "Retrieve all accessible scopes for the authenticated user, such as personal workspaces or shared teams.";
       schema := [];
       attempt := get_user_scopes;
       error_phrase := "Error getting user scopes: " |};
    {| name := "check_rate_limits";
       description := "Retrieve rate limit information for a given scope. Useful for monitoring usage limits and avoiding throttling.";
       schema := [("scope", ZOptional ZString)];
       attempt := check_rate_limits;
       error_phrase := "Error checking rate limits: " |} ].

End Init.

(** ** The worker's [fetch] *)

(** [url.searchParams.get("key")] is [null] or a string; an absent or empty
    key is answered before the path is looked at. *)
Definition fetch (request : request) : fetch_result :=
  let apiKey :=
    match key_param request with
    | Some k => VStr k
    | None => VNull
    end in
  if negb (truthy apiKey)
  then Respond 401 "Missing key query parameter"
  else if String.eqb (pathname request) "/sse"
          || String.eqb (pathname request) "/sse/message"
  then ServeSSE "/sse" apiKey
  else if String.eqb (pathname request) "/mcp"
  then Serve "/mcp" apiKey
  else Respond 404 "Not found".

End V2.
End V2.

(** * Lookup, decoding and dispatch

    Searching the registry, decoding the raw arguments against the schema
    and calling the handler are done behind [this.server.tool] and
    [MyMCP.serve], by the MCP server library; the repository has no source
    for them. *)

Section Dispatch.
Context {host : Host}.

Abbreviation val := (value number).

(** Whether a declared field must be present: every zod type is required
    unless it is wrapped in [.optional()]. *)
Definition required (t : ztype) : bool :=
  match t with
  | ZOptional _ => false
  | _ => true
  end.

(** Modelled from the spec: the check of a present value against its
    declared type, missing from the sources with the rest of the decoder
    (section 4.2: an enum value must be one of the declared options, a
    nested object or array must match its declared sub-shape). *)
Fixpoint conforms (t : ztype) (v : val) {struct t} : bool :=
  match t, v with
  | ZString, VStr _ => true
  | ZNumber, VNum _ => true
  | ZBoolean, VBool _ => true
  | ZEnum options, VStr s => existsb (String.eqb s) options
  | ZArray item, VArr items => forallb (conforms item) items
  | ZObject shape, VObj props =>
      (fix fields (sh : list (string * ztype)) : bool :=
         match sh with
         | [] => true
         | (k, ft) :: rest => conforms ft (lookup k props) && fields rest
         end) shape
  | ZOptional inner, VUndefined => true
  | ZOptional inner, _ => conforms inner v
  | _, _ => false
  end.

(** Modelled from the spec: the entries of a ValidationFailure (section
    4.2), missing from the sources with the decoder: a required field that
    is absent, or a present field that does not match its type. *)
Inductive issue :=
| Missing (field : string)
| Invalid (field : string).

(** Modelled from the spec: the single pass of the decoder over the schema,
    missing from the sources (section 4.2: a required field that is absent
    is listed as missing, a present field that does not match its type is
    listed as invalid, and all offending fields are collected). *)
Fixpoint check (raw : arguments) (sch : list (string * ztype)) : list issue :=
  match sch with
  | [] => []
  | (k, t) :: rest =>
      (match lookup k raw with
       | VUndefined => if required t then [Missing k] else []
       | v => if conforms t v then [] else [Invalid k]
       end ++ check raw rest)%list
  end.

(** Modelled from the spec: the decoded record, missing from the sources
    (section 4.2: fields the schema does not declare are ignored, an
    optional field that was omitted stays absent). *)
Fixpoint validated (raw : arguments) (sch : list (string * ztype)) : arguments :=
  match sch with
  | [] => []
  | (k, t) :: rest =>
      match lookup k raw with
      | VUndefined => validated raw rest
      | v => (k, v) :: validated raw rest
      end
  end.

(** Modelled from the spec: [decode(rawArguments, parameterSchema)] of
    section 4.2, missing from the sources. *)
Definition decode (raw : arguments) (sch : list (string * ztype))
  : arguments + list issue :=
  match check raw sch with
  | [] => inl (validated raw sch)
  | issues => inr issues
  end.

(** Modelled from the spec: [lookup(name)] of the Schema Registry (section
    4.1), missing from the sources. *)
Definition lookup_tool (registry : list tool) (n : string) : option tool :=
  find (fun t => String.eqb n (name t)) registry.

Section Wording.
(** The spec leaves the wording of these two texts open. *)
Variable not_found_text : string -> string.
Variable failure_text : list issue -> string.

(** Modelled from the spec: [dispatch(name, rawArguments, credential)] of
    section 4.5 with the formatting of section 4.4, missing from the
    sources.  The credential is the one the registrations were built with.
    An unregistered name and a validation failure are formatted as text
    envelopes, the latter prefixed with the description of the operation;
    otherwise the envelope is the one the handler returns. *)
Definition dispatch (registry : list tool) (n : string) (raw : arguments)
  : M envelope :=
  emit (Lookup n) ;;;
  match lookup_tool registry n with
  | None => ret (text_result (not_found_text n))
  | Some t =>
      match decode raw (schema t) with
      | inr issues => ret (text_result (error_phrase t ++ failure_text issues))
      | inl args => handler t args
      end
  end.

(** Modelled from the spec: the tool call an inbound request carries
    (section 6), missing from the sources with the transport. *)
Record tool_call := {
  call_name : string;
  call_arguments : arguments
}.

(** Modelled from the spec: what the transport delivers for a request
    (section 6), missing from the sources: the pre-dispatch rejection of
    [fetch], or exactly one Result Envelope. *)
Inductive reply :=
| HttpResponse (status : Z) (body : string)
| ToolResult (result : envelope).

(** Modelled from the spec: the transport boundary of section 6, missing
    from the sources.  A request that [fetch] hands to the agent reaches the
    dispatcher with the key put in [ctx.props]; a response of [fetch] itself
    is returned as it is. *)
Definition serve (registry : val -> list tool) (r : fetch_result) (c : tool_call)
  : M reply :=
  match r with
  | Respond status body => ret (HttpResponse status body)
  | ServeSSE _ apiKey | Serve _ apiKey =>
      result <- dispatch (registry apiKey) (call_name c) (call_arguments c) ;;
      ret (ToolResult result)
  end.

(** One inbound tool call through the legacy worker: [fetch] of the source,
    then the transport above over the registrations of [init()]. *)
Definition legacy_worker (net : Legacy.network) (env_V0_API_KEY : val)
    (request : request) (c : tool_call) : M reply :=
  serve (Legacy.tools net) (Legacy.fetch request env_V0_API_KEY) c.

(** One inbound tool call through the worker of the SDK variant. *)
Definition v2_worker (createClient : val -> V2.sdk_client)
    (request : request) (c : tool_call) : M reply :=
  serve (V2.tools createClient) (V2.fetch request) c.

End Wording.
End Dispatch.

(** * A host to run the handlers on

    An engine whose Numbers are the integers, with the wording V8 gives its
    TypeErrors.  The theorems below hold for every [Host]; this one serves
    to evaluate the handlers on concrete calls. *)

Module IntegerHost.

Definition decimal (z : Z) : string := NilZero.string_of_int (Z.to_int z).

Definition hex_digit (n : nat) (upper : bool) : ascii :=
  if Nat.ltb n 10 then ascii_of_nat (48 + n)
  else ascii_of_nat ((if upper then 55 else 87) + n).

(** [QuoteJSONString] on one code unit. *)
Definition json_escape (c : ascii) : string :=
  let n := nat_of_ascii c in
  if Nat.eqb n 34 then "\" ++ String c ""
  else if Nat.eqb n 92 then "\\"
  else if Nat.eqb n 8 then "\b"
  else if Nat.eqb n 12 then "\f"
  else if Nat.eqb n 10 then "\n"
  else if Nat.eqb n 13 then "\r"
  else if Nat.eqb n 9 then "\t"
  else if Nat.ltb n 32
       then "\u00" ++ String (hex_digit (n / 16) false)
                        (String (hex_digit (n mod 16) false) "")
  else String c "".

Fixpoint json_escape_all (s : string) : string :=
  match s with
  | EmptyString => ""
  | String c rest => json_escape c ++ json_escape_all rest
  end.

Definition json_quote (s : string) : string :=
  String (ascii_of_nat 34) (json_escape_all s ++ String (ascii_of_nat 34) "").

(** [JSON.stringify(v, null, 2)] below the current indentation. *)
Fixpoint pretty (indent : string) (v : value Z) : string :=
  let inner := indent ++ "  " in
  match v with
  | VUndefined | VNull => "null"
  | VBool true => "true"
  | VBool false => "false"
  | VNum n => decimal n
  | VStr s => json_quote s
  | VArr [] => "[]"
  | VArr items =>
      "[" ++ nl ++ inner
      ++ String.concat ("," ++ nl ++ inner) (map (pretty inner) items)
      ++ nl ++ indent ++ "]"
  | VObj props =>
      let members :=
        (fix members (ps : list (string * value Z)) : list string :=
           match ps with
           | [] => []
           | (k, x) :: rest =>
               match x with
               | VUndefined => members rest
               | _ => (json_quote k ++ ": " ++ pretty inner x) :: members rest
               end
           end) props in
      match members with
      | [] => "{}"
      | _ => "{" ++ nl ++ inner ++ String.concat ("," ++ nl ++ inner) members
             ++ nl ++ indent ++ "}"
      end
  end.

(** The [application/x-www-form-urlencoded] serialisation of one byte. *)
Definition form_encode (c : ascii) : string :=
  let n := nat_of_ascii c in
  let plain :=
    (Nat.leb 48 n && Nat.leb n 57) || (Nat.leb 65 n && Nat.leb n 90)
    || (Nat.leb 97 n && Nat.leb n 122)
    || Nat.eqb n 42 || Nat.eqb n 45 || Nat.eqb n 46 || Nat.eqb n 95 in
  if plain then String c ""
  else if Nat.eqb n 32 then "+"
  else "%" ++ String (hex_digit (n / 16) true) (String (hex_digit (n mod 16) true) "").

Fixpoint form_encode_all (s : string) : string :=
  match s with
  | EmptyString => ""
  | String c rest => form_encode c ++ form_encode_all rest
  end.

Definition search_params (entries : list (string * string)) : string :=
  String.concat "&"
    (map (fun p => form_encode_all (fst p) ++ "=" ++ form_encode_all (snd p)) entries).

Definition clamp (len z : Z) : Z := Z.max 0 (Z.min z len).

Definition substring (s : string) (start stop : Z) : string :=
  let len := Z.of_nat (String.length s) in
  let a := clamp len start in
  let b := clamp len stop in
  String.substring (Z.to_nat (Z.min a b)) (Z.to_nat (Z.max a b - Z.min a b)) s.

Definition slice (s : string) (start stop : integer_or_infinity) : string :=
  let len := Z.of_nat (String.length s) in
  let index i :=
    match i with
    | NegInfinity => 0%Z
    | PosInfinity => len
    | Finite z => if (z <? 0)%Z then Z.max (len + z) 0 else Z.min z len
    end in
  String.substring (Z.to_nat (index start)) (Z.to_nat (index stop - index start)) s.

#[export] Instance host : Host := {|
  number := Z;
  num_of_Z := fun z => z;
  num_add := Z.add;
  num_to_string := decimal;
  num_truthy := fun z => negb (z =? 0)%Z;
  num_finite := fun _ => true;
  to_integer := Finite;
  str_length := fun s => Z.of_nat (String.length s);
  str_substring := substring;
  str_slice := slice;
  json_pretty := pretty "";
  url_search_params := search_params;
  msg_cannot_read := fun is_null k =>
    "Cannot read properties of " ++ (if is_null then "null" else "undefined")
    ++ " (reading '" ++ k ++ "')";
  msg_not_a_function := fun callee => callee ++ " is not a function"
|}.

End IntegerHost.

Unset Implicit Arguments.

(** * The vocabulary of the properties *)

Section Vocabulary.
Context {host : Host}.

Abbreviation val := (value number).

(** A silent computation adds nothing to the log and its completion does
    not depend on the log it starts from. *)
Definition silent {A} (m : M A) : Prop :=
  forall log, m log = (fst (m []), log).

(** The request [fetcher] issues when it has a key. *)
Definition fetcher_request (apiKey : val) (url method : string)
    (params : Legacy.fetcher_params) : http_request :=
  let hasBody := negb (String.eqb method "GET") && truthy (Legacy.body params) in
  {| req_url :=
       Legacy.BASE_URL ++ url ++
       match Legacy.query params with
       | Some q => "?" ++ url_search_params (map (fun p => (fst p, to_string (snd p))) q)
       | None => ""
       end;
     req_method := method;
     req_headers :=
       ("Authorization", "Bearer " ++ to_string apiKey)
       :: (if hasBody then [("Content-Type", "application/json")] else []);
     req_body := if hasBody then to_json (Legacy.body params) else None |}.

(** The events that are network requests. *)
Definition is_fetch (e : event) : Prop :=
  match e with
  | Fetch _ => True
  | _ => False
  end.

(** A registry is what [init()] of one of the two variants registers. *)
Definition registered (registry : list tool) : Prop :=
  (exists net apiKey, registry = Legacy.tools net apiKey) \/
  (exists createClient apiKey, registry = V2.tools createClient apiKey).

(** The envelope a handler returns for a completion of its try block. *)
Definition outcome_envelope (t : tool) (c : completion string) : envelope :=
  match c with
  | Normal text => text_result text
  | Abrupt error => text_result (error_phrase t ++ error_text error)
  end.

(** The names and error phrases of the legacy registry. *)
Definition legacy_phrases : list (string * string) :=
  [("create_chat", "Error creating chat: ");
   ("get_chat", "Error retrieving chat: ");
   ("add_message", "Error adding message: ");
   ("find_chats", "Error finding chats: ");
   ("create_project", "Error creating project: ");
   ("find_projects", "Error finding projects: ");
   ("get_user_info", "Error getting user info: ");
   ("get_user_plan", "Error getting user plan: ");
   ("check_rate_limits", "Error checking rate limits: ");
   ("delete_chat", "Error deleting chat: ")].

(** The same for the SDK variant. *)
Definition v2_phrases : list (string * string) :=
  [("create_chat", "Error creating chat: ");
   ("find_chats", "Error finding chats: ");
   ("initialize_chat", "Error initializing chat: ");
   ("get_chat", "Error retrieving chat: ");
   ("update_chat", "Error updating chat: ");
   ("favorite_chat", "Error updating favorite status: ");
   ("fork_chat", "Error forking chat: ");
   ("send_message", "Error sending message: ");
   ("find_chat_messages", "Error finding messages: ");
   ("get_chat_message", "Error getting message: ");
   ("find_chat_versions", "Error finding versions: ");
   ("get_chat_version", "Error getting version: ");
   ("update_chat_version_files", "Error updating version files: ");
   ("resume_message", "Error resuming message: ");
   ("delete_chat", "Error deleting chat: ");
   ("create_project", "Error creating project: ");
   ("find_projects", "Error finding projects: ");
   ("get_project_by_id", "Error getting project: ");
   ("get_project_by_chat_id", "Error getting project by chat ID: ");
   ("update_project", "Error updating project: ");
   ("assign_project_to_chat", "Error assigning project to chat: ");
   ("find_deployments", "Error finding deployments: ");
   ("create_deployment", "Error creating deployment: ");
   ("get_deployment", "Error getting deployment: ");
   ("delete_deployment", "Error deleting deployment: ");
   ("find_deployment_logs", "Error finding deployment logs: ");
   ("find_deployment_errors", "Error finding deployment errors: ");
   ("create_vercel_project", "Error creating Vercel project: ");
   ("find_vercel_projects", "Error finding Vercel projects: ");
   ("find_hooks", "Error finding hooks: ");
   ("create_hook", "Error creating hook: ");
   ("get_hook", "Error getting hook: ");
   ("update_hook", "Error updating hook: ");
   ("delete_hook", "Error deleting hook: ");
   ("get_user_info", "Error getting user info: ");
   ("get_user_billing", "Error getting billing info: ");
   ("get_user_plan", "Error getting user plan: ");
   ("get_user_scopes", "Error getting user scopes: ");
   ("check_rate_limits", "Error checking rate limits: ")].

(** Two phrases clash when one begins with the other: only then can two
    texts that open with them coincide. *)
Definition clash (p q : string) : bool :=
  String.prefix p q || String.prefix q p.

(** No two entries with different names have clashing phrases. *)
Definition apart (table : list (string * string)) : bool :=
  forallb
    (fun a =>
       forallb (fun b => String.eqb (fst a) (fst b) || negb (clash (snd a) (snd b)))
         table)
    table.

(** No string occurs twice. *)
Fixpoint distinct (l : list string) : bool :=
  match l with
  | [] => true
  | x :: rest => negb (existsb (String.eqb x) rest) && distinct rest
  end.

(** [v !== undefined] *)
Definition defined (v : val) : bool :=
  match v with
  | VUndefined => false
  | _ => true
  end.

(** The first binding of [k] whose value is not [undefined]. *)
Fixpoint lookup_defined (k : string) (props : list (string * val)) : val :=
  match props with
  | [] => VUndefined
  | (k', v) :: rest =>
      if String.eqb k k' && defined v then v else lookup_defined k rest
  end.

(** The members [JSON.stringify] writes for an object. *)
Definition json_members (props : list (string * val)) : list (string * val) :=
  match json_tree (VObj props) with
  | VObj fields => fields
  | _ => []
  end.

(** A decoded optional boolean. *)
Definition optional_bool (b : option bool) : val :=
  match b with
  | Some x => VBool x
  | None => VUndefined
  end.

(** [b ?? false] on a decoded optional boolean. *)
Definition bool_or_false (b : option bool) : bool :=
  match b with
  | Some x => x
  | None => false
  end.

(** What C2 says of the parameter object [params] passed to
    [chats.create] for the decoded arguments [args]. *)
Definition configuration_as_claimed (args : arguments) (params : list (string * val))
  : Prop :=
  (forall m b,
     In m V2.model_ids ->
     lookup "modelId" args = VStr m ->
     lookup "imageGenerations" args = optional_bool b ->
     lookup "modelConfiguration" params =
     VObj [("modelId", VStr m); ("imageGenerations", VBool (bool_or_false b))]) /\
  (lookup "modelId" args = VUndefined ->
   lookup "modelConfiguration" params = VUndefined /\
   has_key "modelConfiguration" (json_members params) = false).

(** The paths [fetch] hands to the agent. *)
Definition served_path (p : string) : Prop :=
  p = "/mcp" \/ p = "/sse" \/ p = "/sse/message".

(** The text of a listing that reports [n] items and shows the lines [ls]. *)
Definition listing (n : nat) (noun : string) (ls : list string) : string :=
  "Found " ++ num_to_string (num_of_Z (Z.of_nat n)) ++ " " ++ noun ++ ":" ++ nl ++ nl
  ++ String.concat nl ls.

(** The text of a listing when the answer has no [data]. *)
Definition nothing_found (noun empty : string) : string :=
  "Found " ++ num_to_string (num_of_Z 0) ++ " " ++ noun ++ ":" ++ nl ++ nl ++ empty.

(** What a successful listing says of the [data] of the upstream answer,
    when the tool shows the items [shown items] of an array [items]: either
    [data] is an array, the text reports its length and has one line for
    each item shown; or [data] is falsy and the text reports zero items and
    has the tool's text for an empty list in place of lines. *)
Definition listing_outcome (noun empty : string) (shown : list val -> list val)
    (data : val) (text : string) : Prop :=
  (exists items ls,
     data = VArr items /\
     length ls = length (shown items) /\
     text = listing (length items) noun ls) \/
  (truthy data = false /\ text = nothing_found noun empty).

(** The listing tools of the SDK variant, with the noun of their header and
    their text for an empty list. *)
Definition v2_listings : list (string * (string * string)) :=
  [("find_chats", ("chats", "No chats found"));
   ("find_chat_messages", ("messages", "No messages found"));
   ("find_chat_versions", ("versions", "No versions found"));
   ("find_projects", ("projects", "No projects found"));
   ("find_deployments", ("deployments", "No deployments found"));
   ("find_vercel_projects", ("Vercel projects", "No Vercel projects found"));
   ("find_hooks", ("hooks", "No hooks found"))].

(** [(chat) => `- ${chat.id}`] *)
Definition legacy_chat_line (chat : val) : M string :=
  id <- get chat "id" ;; ret ("- " ++ to_string id).

(** [(project) => `- ${project.id}: ${project.name}`] *)
Definition legacy_project_line (project : val) : M string :=
  id <- get project "id" ;;
  pname <- get project "name" ;;
  ret ("- " ++ to_string id ++ ": " ++ to_string pname).

End Vocabulary.

(** * Stubs for the scenarios

    Upstream stubs, registries and calls on the integer host, used to
    evaluate the handlers and to instantiate the theorems. *)

Module Stubs.
Import IntegerHost.

(** A network that answers every request with status 200 and the body [v]. *)
Definition answers (v : value Z) : Legacy.network :=
  fun _ =>
    Normal {| Legacy.status := 200;
              Legacy.ok := true;
              Legacy.text := Normal (json_pretty v);
              Legacy.json := Normal v |}.

(** A network that answers every request with an error status. *)
Definition refuses (status : Z) (body : string) : Legacy.network :=
  fun _ =>
    Normal {| Legacy.status := status;
              Legacy.ok := false;
              Legacy.text := Normal body;
              Legacy.json := Abrupt (ErrorObject "Unexpected token") |}.

(** An SDK whose methods all resolve to [v], and one whose methods all
    reject with [error]. *)
Definition sdk_answers (v : value Z) : value Z -> V2.sdk_client :=
  fun _ _ _ => Normal v.

Definition sdk_rejects (error : thrown) : value Z -> V2.sdk_client :=
  fun _ _ _ => Abrupt error.

Definition key : value Z := VStr "key123".

(** A wording for the two texts the transport library is free to choose. *)
Definition unknown_tool (n : string) : string := "Unknown tool: " ++ n.

Definition describe (issues : list issue) : string :=
  String.concat ", "
    (map (fun i => match i with
                   | Missing field => field ++ " is required"
                   | Invalid field => field ++ " is invalid"
                   end) issues).

(** The registration of a name in a registry. *)
Definition pick (registry : list tool) (n : string) : tool :=
  match lookup_tool registry n with
  | Some t => t
  | None => {| name := n; description := ""; schema := [];
               attempt := fun _ => ret ""; error_phrase := "" |}
  end.

Definition two_chats : value Z :=
  VObj [("data", VArr [VObj [("id", VStr "a")]; VObj [("id", VStr "b")]])].

Definition three_projects : value Z :=
  VObj [("data", VArr [VObj [("id", VStr "p1"); ("name", VStr "Alpha")];
                       VObj [("id", VStr "p2"); ("name", VStr "Beta")];
                       VObj [("id", VStr "p3"); ("name", VStr "Gamma")]])].

Definition refusing_registry : list tool :=
  Legacy.tools (refuses 404 "Chat not found") key.

Definition rejecting_registry : list tool :=
  V2.tools (sdk_rejects (ErrorObject "HTTP 404: Not Found")) key.

Definition chats_registry : list tool := V2.tools (sdk_answers two_chats) key.

Definition round_trip_arguments : arguments :=
  [("message", VStr "Build a todo app");
   ("modelId", VStr "v0-1.5-md");
   ("imageGenerations", VBool true)].

Definition bare_request : request := {| pathname := "/mcp"; key_param := None |}.

Definition user_info_call : tool_call :=
  {| call_name := "get_user_info"; call_arguments := [] |}.

Definition one_chat_page : arguments := [("limit", VNum 1%Z)].

Definition second_project : arguments := [("limit", VNum 1%Z); ("offset", VNum 1%Z)].

End Stubs.

(** * The vocabulary of the further properties *)

Section Coverage.
Context {host : Host}.

Abbreviation val := (value number).

(** What [fetcher] makes of the settled [fetch(finalUrl, init)]: the parsed
    body of a response with a success status, and otherwise an exception. *)
Definition response_outcome (settled : completion Legacy.http_response)
  : completion val :=
  match settled with
  | Abrupt error => Abrupt error
  | Normal res =>
      if Legacy.ok res then Legacy.json res
      else
        match Legacy.text res with
        | Normal body =>
            Abrupt (ErrorObject
                      ("HTTP " ++ num_to_string (num_of_Z (Legacy.status res))
                       ++ ": " ++ body))
        | Abrupt error => Abrupt error
        end
  end.

(** The two headers [fetcher] writes. *)
Definition authorization (apiKey : val) : string * string :=
  ("Authorization", "Bearer " ++ to_string apiKey).

Definition json_content_type : string * string :=
  ("Content-Type", "application/json").

(** An argument object as the JSON parser builds it: no key occurs twice
    (of repeated members the parser keeps one, so the object holds each key
    once). *)
Definition argument_object (args : arguments) : Prop := NoDup (map fst args).

(** Two argument objects that agree on the fields [keys]. *)
Definition agree_on (keys : list string) (args args' : arguments) : Prop :=
  forall k, In k keys -> lookup k args = lookup k args'.

(** The values [filter(([_, value]) => value !== undefined)] keeps. *)
Definition kept (o : list (string * val)) (k : string) : bool :=
  has_key k o && defined (lookup k o).

(** The tools of the SDK variant whose try block awaits the client and then
    builds its text from the arguments alone. *)
Definition answer_ignoring : list string :=
  ["favorite_chat"; "delete_chat"; "assign_project_to_chat";
   "delete_deployment"; "delete_hook"].

(** The listing tools of the SDK variant whose line callback only reads
    properties of the item. *)
Definition plain_listings : list string :=
  ["find_chats"; "find_chat_versions"; "find_projects"; "find_deployments";
   "find_vercel_projects"].



(** The tools of the SDK variant that do not read a property of the
    answer: those that ignore it and those that only print it. *)
Definition prints_or_ignores : list string :=
  answer_ignoring
  ++ ["find_deployment_logs"; "find_deployment_errors"; "get_user_billing";
      "get_user_scopes"; "check_rate_limits"].

(** The same for the legacy variant. *)
Definition legacy_prints_or_ignores : list string :=
  ["add_message"; "check_rate_limits"; "delete_chat"].

(** [s.endsWith(suffix)] *)
Definition ends_with (s suffix : string) : bool :=
  let n := String.length s in
  let m := String.length suffix in
  Nat.leb m n && String.eqb (String.substring (n - m) m s) suffix.

(** What a registration must satisfy for the registry to be usable: a
    description, parameter names that do not repeat, and an error phrase of
    the form [Error ...: ]. *)
Definition well_formed (t : tool) : bool :=
  negb (String.eqb (description t) "")
  && distinct (map fst (schema t))
  && String.prefix "Error " (error_phrase t)
  && ends_with (error_phrase t) ": ".

(** [items.slice(offset, offset + limit)] for non-negative integers. *)
Definition window {A} (offset limit : Z) (items : list A) : list A :=
  firstn (Z.to_nat limit) (skipn (Z.to_nat offset) items).

(** A line callback that only reads properties of the item: it returns a
    line for every item but [null] and [undefined], on which its first
    read, of [id], throws. *)
Definition reads_properties (f : val -> M string) : Prop :=
  (forall x, nullish x = false -> exists y, forall log, f x log = (Normal y, log)) /\
  (forall x, nullish x = true ->
     exists b, forall log,
       f x log = (Abrupt (ErrorObject (msg_cannot_read b "id")), log)).

(** The argument list of a client call that hands the decoded arguments on
    as they are: one object with the declared parameters under their own
    names, or no argument at all for a tool without parameters. *)
Definition forwarded (fields : list (string * ztype)) (args : arguments) : list val :=
  match fields with
  | [] => []
  | _ => [VObj (map (fun p => (fst p, lookup (fst p) args)) fields)]
  end.

(** The tools whose client call takes parameters that the handler computes:
    a nested object, a constant or a default. *)
Definition computes_parameters : list string := ["create_chat"; "initialize_chat"].

Definition legacy_computes_parameters : list string :=
  ["create_chat"; "find_chats"; "find_projects"].

(** A computation whose text, when it returns one, begins with [c]. *)
Definition opens_with (c : ascii) (m : M string) : Prop :=
  forall log text l, m log = (Normal text, l) -> exists rest, text = String c rest.

End Coverage.

(** * Fixtures for the further scenarios *)

Module Fixtures.
Import IntegerHost.
Import Stubs.

(** The response every request gets from [refuses 404 "Chat not found"]. *)
Definition not_found_response : Legacy.http_response :=
  {| Legacy.status := 404;
     Legacy.ok := false;
     Legacy.text := Normal "Chat not found";
     Legacy.json := Abrupt (ErrorObject "Unexpected token") |}.

(** A success status with an empty body, as after a deletion. *)
Definition no_content_response : Legacy.http_response :=
  {| Legacy.status := 204;
     Legacy.ok := true;
     Legacy.text := Normal "";
     Legacy.json := Abrupt (ErrorObject "Unexpected end of JSON input") |}.

Definition no_content : Legacy.network := fun _ => Normal no_content_response.

(** The response every request gets from [answers v]. *)
Definition ok_response (v : value Z) : Legacy.http_response :=
  {| Legacy.status := 200;
     Legacy.ok := true;
     Legacy.text := Normal (json_pretty v);
     Legacy.json := Normal v |}.

Definition no_content_registry : list tool := Legacy.tools no_content key.

Definition answering_registry (v : value Z) : list tool :=
  Legacy.tools (answers v) key.

Definition sdk_registry (v : value Z) : list tool := V2.tools (sdk_answers v) key.


(** Answers of several shapes. *)
Definition no_items : list (string * value Z) := [("data", VArr [])].

Definition no_data : list (string * value Z) := [("total", VNum 0%Z)].

Definition holed_items : list (value Z) :=
  [VObj [("id", VStr "a")]; VNull; VObj [("id", VStr "c")]].


Definition misshapen : list (string * value Z) := [("data", VStr "none")].

Definition bare_user : list (string * value Z) := [("id", VStr "u1")].

(** Argument objects. *)
Definition first_message : arguments :=
  [("chatId", VStr "c1"); ("message", VStr "Add a footer")].

Definition other_message : arguments :=
  [("message", VStr "Remove the header"); ("chatId", VStr "c1")].

Definition padded_chat_id : arguments :=
  [("verbose", VBool true); ("chatId", VStr "c1"); ("reason", VStr "cleanup")].

Definition plain_chat_id : arguments := [("chatId", VStr "c1")].

Definition favorites_only : list (string * value Z) :=
  [("limit", VUndefined); ("isFavorite", VBool true)].

Definition sse_request : request :=
  {| pathname := "/sse/message"; key_param := Some "key123" |}.

End Fixtures.

(** * Properties *)

(** ** How a computation uses the log *)

Section Laws.
Context {host : Host}.

Abbreviation val := (value number).

Lemma silent_ret {A} (a : A) : silent (ret a).
Proof. intro log. reflexivity. Qed.

Lemma silent_throw {A} (e : thrown) : silent (@throw _ A e).
Proof. intro log. reflexivity. Qed.

Lemma silent_type_error {A} (message : string) : silent (@type_error _ A message).
Proof. intro log. reflexivity. Qed.

Lemma silent_settle {A} (c : completion A) : silent (settle c).
Proof. intro log. reflexivity. Qed.

Lemma silent_bind {A B} (m : M A) (k : A -> M B) :
  silent m -> (forall a, silent (k a)) -> silent (bind m k).
Proof.
  intros Hm Hk log. unfold bind.
  pose proof (Hm log) as Hl. pose proof (Hm []) as H0.
  destruct (m []) as [c l0]. simpl in Hl, H0.
  injection H0 as ->. rewrite Hl.
  destruct c as [a | e]; [| reflexivity].
  rewrite (Hk a log), (Hk a []). reflexivity.
Qed.

Lemma silent_try_catch {A} (m : M A) (h : thrown -> M A) :
  silent m -> (forall e, silent (h e)) -> silent (try_catch m h).
Proof.
  intros Hm Hh log. unfold try_catch.
  pose proof (Hm log) as Hl. pose proof (Hm []) as H0.
  destruct (m []) as [c l0]. simpl in Hl, H0.
  injection H0 as ->. rewrite Hl.
  destruct c as [a | e]; [reflexivity |].
  rewrite (Hh e log), (Hh e []). reflexivity.
Qed.

Lemma silent_map_m {A B} (f : A -> M B) (l : list A) :
  (forall x, silent (f x)) -> silent (map_m f l).
Proof.
  intro Hf. induction l as [| x rest IH]; simpl.
  - apply silent_ret.
  - apply silent_bind; [apply Hf |].
    intro y. apply silent_bind; [exact IH |].
    intro ys. apply silent_ret.
Qed.

Lemma silent_get (v : val) (k : string) : silent (get v k).
Proof. destruct v; intro log; reflexivity. Qed.

Lemma silent_js_map (callee : string) (v : val) (f : val -> M string) :
  (forall x, silent (f x)) -> silent (js_map callee v f).
Proof.
  intro Hf. destruct v; simpl; try apply silent_type_error.
  now apply silent_map_m.
Qed.

Lemma silent_js_join (callee : string) (v : val) (sep : string) :
  silent (js_join callee v sep).
Proof. destruct v; intro log; reflexivity. Qed.

Lemma silent_js_slice (callee : string) (v : val) (a b : integer_or_infinity) :
  silent (js_slice callee v a b).
Proof. destruct v; intro log; reflexivity. Qed.

Lemma silent_js_opt_substring (callee : string) (v : val) (a b : Z) :
  silent (js_opt_substring callee v a b).
Proof. destruct v; intro log; reflexivity. Qed.

Lemma silent_js_opt_join (callee : string) (v : val) (sep : string) :
  silent (js_opt_join callee v sep).
Proof.
  unfold js_opt_join. destruct (nullish v).
  - apply silent_ret.
  - apply silent_js_join.
Qed.

Lemma silent_listing_text (noun empty : string) (lines : val -> M (list string))
    (x : val) :
  (forall data, silent (lines data)) -> silent (listing_text noun empty lines x).
Proof.
  intro Hl. unfold listing_text.
  apply silent_bind; [apply silent_get |]. intro data.
  apply silent_bind.
  - destruct (truthy data); [| apply silent_ret].
    apply silent_bind; [apply Hl |]. intro ls. apply silent_ret.
  - intro list. apply silent_bind.
    + destruct (truthy data); [apply silent_get | apply silent_ret].
    + intro count. apply silent_ret.
Qed.

End Laws.

(** Discharging [silent] goals over the text computations of the handlers. *)
Ltac silence :=
  repeat first
    [ progress intros
    | apply silent_ret
    | apply silent_throw
    | apply silent_settle
    | apply silent_get
    | apply silent_js_join
    | apply silent_js_slice
    | apply silent_js_opt_substring
    | apply silent_js_opt_join
    | apply silent_js_map
    | apply silent_listing_text
    | apply silent_bind
    | match goal with
      | |- silent (if ?b then _ else _) => destruct b
      | |- silent (let _ := _ in _) => cbv zeta
      end ].

(** ** The shape of the handlers *)

Section Shapes.
Context {host : Host}.

Abbreviation val := (value number).

(** Every try block of the SDK variant awaits one client method and then
    computes its text from the answer without touching the log. *)
Lemma v2_attempt_shape (createClient : val -> V2.sdk_client) (apiKey : val)
    (t : tool) (args : arguments) :
  In t (V2.tools createClient apiKey) ->
  exists operation a (text : val -> M string),
    (forall r, silent (text r)) /\
    attempt t args = bind (V2.v0 createClient apiKey operation a) text.
Proof.
  intro Hin. unfold V2.tools in Hin.
  repeat (destruct Hin as [<- | Hin];
          [ eexists; eexists; eexists; split; [| reflexivity];
            unfold V2.chat_lines, V2.message_lines, V2.version_lines,
              V2.project_lines, V2.deployment_lines, V2.vercel_project_lines,
              V2.hook_lines;
            silence |]).
  destruct Hin.
Qed.

(** Every try block of the legacy variant enters one client method, which
    calls [fetcher] once, and then computes its text from the answer without
    touching the log. *)
Lemma legacy_attempt_shape (net : Legacy.network) (apiKey : val)
    (t : tool) (args : arguments) :
  In t (Legacy.tools net apiKey) ->
  exists operation a url method params (text : val -> M string),
    (forall r, silent (text r)) /\
    attempt t args =
      bind (bind (emit (Call operation a))
                 (fun _ => Legacy.fetcher net apiKey url method params)) text.
Proof.
  intro Hin. unfold Legacy.tools in Hin.
  repeat (destruct Hin as [<- | Hin];
          [ do 6 eexists; split; [| reflexivity];
            unfold Legacy.chat_lines, Legacy.project_lines;
            silence |]).
  destruct Hin.
Qed.

(** [fetcher] issues at most one network request, and none without a key. *)
Lemma fetcher_run (net : Legacy.network) (apiKey : val) (url method : string)
    (params : Legacy.fetcher_params) :
  exists c fetched,
    (forall log,
       Legacy.fetcher net apiKey url method params log = (c, (log ++ fetched)%list)) /\
    (fetched = [] \/ exists request, fetched = [Fetch request]) /\
    (truthy apiKey = false ->
       c = Abrupt (ErrorObject "V0_API_KEY is required") /\ fetched = []).
Proof.
  unfold Legacy.fetcher.
  destruct (truthy apiKey) eqn:Hkey; simpl.
  - match goal with
    | |- context [emit (Fetch ?r)] => set (request := r)
    end.
    unfold bind, emit, settle.
    destruct (net request) as [res | e] eqn:Hnet.
    + destruct (Legacy.ok res) eqn:Hok; simpl.
      * exists (Legacy.json res), [Fetch request].
        split; [| split]; [| right; now exists request | discriminate].
        intro log. reflexivity.
      * destruct (Legacy.text res) as [body | e] eqn:Htext.
        -- eexists; exists [Fetch request].
           split; [| split]; [| right; now exists request | discriminate].
           intro log. unfold throw. reflexivity.
        -- exists (Abrupt e), [Fetch request].
           split; [| split]; [| right; now exists request | discriminate].
           intro log. reflexivity.
    + exists (Abrupt e), [Fetch request].
      split; [| split]; [| right; now exists request | discriminate].
      intro log. reflexivity.
  - exists (Abrupt (ErrorObject "V0_API_KEY is required")), [].
    split; [| split]; [| now left | intros _; now split].
    intro log. unfold throw. now rewrite app_nil_r.
Qed.

Lemma fetcher_with_key (net : Legacy.network) (apiKey : val) (url method : string)
    (params : Legacy.fetcher_params) :
  truthy apiKey = true ->
  exists c,
    forall log,
      Legacy.fetcher net apiKey url method params log =
      (c, (log ++ [Fetch (fetcher_request apiKey url method params)])%list).
Proof.
  intro Hkey. unfold Legacy.fetcher. rewrite Hkey. cbv zeta.
  fold (fetcher_request apiKey url method params).
  change (negb true) with false. cbv iota.
  unfold bind, emit, settle.
  destruct (net (fetcher_request apiKey url method params)) as [res | e].
  - destruct (negb (Legacy.ok res)).
    + destruct (Legacy.text res); eexists; intro log; reflexivity.
    + eexists; intro log; reflexivity.
  - eexists; intro log; reflexivity.
Qed.

(** A client method of the legacy variant followed by a silent
    continuation. *)
Lemma client_bind_run {B} (net : Legacy.network) (apiKey : val)
    (operation : string) (a : list val) (url method : string)
    (params : Legacy.fetcher_params) (text : val -> M B) :
  (forall r, silent (text r)) ->
  exists c fetched,
    (forall log,
       bind (bind (emit (Call operation a))
                  (fun _ => Legacy.fetcher net apiKey url method params)) text log
       = (match c with Normal r => fst (text r []) | Abrupt e => Abrupt e end,
          (log ++ Call operation a :: fetched)%list)) /\
    (forall log,
       Legacy.fetcher net apiKey url method params log = (c, (log ++ fetched)%list)) /\
    (fetched = [] \/ exists request, fetched = [Fetch request]) /\
    (truthy apiKey = false ->
       c = Abrupt (ErrorObject "V0_API_KEY is required") /\ fetched = []).
Proof.
  intro Htext.
  destruct (fetcher_run net apiKey url method params)
    as (c & fetched & Hrun & Hfetched & Hkey).
  exists c, fetched.
  split; [| split; [exact Hrun | split; [exact Hfetched | exact Hkey]]].
  intro log. unfold bind at 1 2, emit.
  rewrite (Hrun (log ++ [Call operation a])%list).
  rewrite <- app_assoc. simpl.
  destruct c as [r | e]; [| reflexivity].
  apply (Htext r).
Qed.

(** A client method of the SDK followed by a silent continuation. *)
Lemma v0_bind_run {B} (createClient : val -> V2.sdk_client) (apiKey : val)
    (operation : string) (a : list val) (text : val -> M B) :
  (forall r, silent (text r)) ->
  forall log,
    bind (V2.v0 createClient apiKey operation a) text log
    = (match createClient apiKey operation a with
       | Normal r => fst (text r [])
       | Abrupt e => Abrupt e
       end,
       (log ++ [Call operation a])%list).
Proof.
  intros Htext log. unfold bind at 1, V2.v0, bind, emit, settle.
  destruct (createClient apiKey operation a) as [r | e]; [| reflexivity].
  apply (Htext r).
Qed.

(** The run of a try block, legacy variant: one [Call], then at most one
    [Fetch], and a completion that does not depend on the log. *)
Lemma legacy_attempt_run (net : Legacy.network) (apiKey : val)
    (t : tool) (args : arguments) :
  In t (Legacy.tools net apiKey) ->
  exists operation a c fetched,
    (forall log, attempt t args log = (c, (log ++ Call operation a :: fetched)%list)) /\
    (fetched = [] \/ exists request, fetched = [Fetch request]) /\
    (truthy apiKey = false ->
       c = Abrupt (ErrorObject "V0_API_KEY is required") /\ fetched = []).
Proof.
  intro Hin.
  destruct (legacy_attempt_shape net apiKey t args Hin)
    as (operation & a & url & method & params & text & Htext & ->).
  destruct (client_bind_run net apiKey operation a url method params text Htext)
    as (c & fetched & Hrun & _ & Hfetched & Hkey).
  exists operation, a.
  exists (match c with Normal r => fst (text r []) | Abrupt e => Abrupt e end).
  exists fetched.
  split; [exact Hrun | split; [exact Hfetched |]].
  intro H. destruct (Hkey H) as [-> ->]. now split.
Qed.

(** The run of a try block, SDK variant: one [Call] and a completion that
    does not depend on the log. *)
Lemma v2_attempt_run (createClient : val -> V2.sdk_client) (apiKey : val)
    (t : tool) (args : arguments) :
  In t (V2.tools createClient apiKey) ->
  exists operation a c,
    forall log, attempt t args log = (c, (log ++ [Call operation a])%list).
Proof.
  intro Hin.
  destruct (v2_attempt_shape createClient apiKey t args Hin)
    as (operation & a & text & Htext & ->).
  exists operation, a. eexists.
  apply v0_bind_run, Htext.
Qed.

End Shapes.

(** ** Registries *)

Section Registries.
Context {host : Host}.

Abbreviation val := (value number).

Lemma handler_run (t : tool) (args : arguments) (log : list event) :
  handler t args log =
  (Normal (outcome_envelope t (fst (attempt t args log))), snd (attempt t args log)).
Proof.
  unfold handler, try_catch, bind, ret.
  destruct (attempt t args log) as [[text | error] log']; reflexivity.
Qed.

(** One upstream call per try block, in both variants. *)
Lemma attempt_run (registry : list tool) (t : tool) (args : arguments) :
  registered registry -> In t registry ->
  exists operation a c fetched,
    (forall log, attempt t args log = (c, (log ++ Call operation a :: fetched)%list)) /\
    Forall is_fetch fetched.
Proof.
  intros [(net & apiKey & ->) | (createClient & apiKey & ->)] Hin.
  - destruct (legacy_attempt_run net apiKey t args Hin)
      as (operation & a & c & fetched & Hrun & Hfetched & _).
    exists operation, a, c, fetched. split; [exact Hrun |].
    destruct Hfetched as [-> | [request ->]]; repeat constructor.
  - destruct (v2_attempt_run createClient apiKey t args Hin)
      as (operation & a & c & Hrun).
    exists operation, a, c, []. split; [exact Hrun | constructor].
Qed.

Lemma legacy_phrases_ok (net : Legacy.network) (apiKey : val) :
  map (fun t => (name t, error_phrase t)) (Legacy.tools net apiKey) = legacy_phrases.
Proof. reflexivity. Qed.

Lemma v2_phrases_ok (createClient : val -> V2.sdk_client) (apiKey : val) :
  map (fun t => (name t, error_phrase t)) (V2.tools createClient apiKey) = v2_phrases.
Proof. reflexivity. Qed.



Lemma distinct_NoDup (l : list string) : distinct l = true -> NoDup l.
Proof.
  induction l as [| x rest IH]; simpl; intro H.
  - constructor.
  - apply andb_prop in H. destruct H as [Hx Hrest].
    constructor; [| now apply IH].
    intro Hin. apply negb_true_iff in Hx.
    assert (existsb (String.eqb x) rest = true) as Hex.
    { apply existsb_exists. exists x. split; [exact Hin | apply String.eqb_refl]. }
    congruence.
Qed.

(** The table of names and phrases of a registry. *)
Lemma registered_table (registry : list tool) :
  registered registry ->
  exists table,
    map (fun t => (name t, error_phrase t)) registry = table /\
    apart table = true /\ distinct (map fst table) = true.
Proof.
  intros [(net & apiKey & ->) | (createClient & apiKey & ->)].
  - exists legacy_phrases. split; [apply legacy_phrases_ok |].
    split; vm_compute; reflexivity.
  - exists v2_phrases. split; [apply v2_phrases_ok |].
    split; vm_compute; reflexivity.
Qed.

Lemma registered_names_NoDup (registry : list tool) :
  registered registry -> NoDup (map name registry).
Proof.
  intro H. destruct (registered_table registry H) as (table & Hmap & _ & Hdistinct).
  apply distinct_NoDup in Hdistinct.
  rewrite <- Hmap, map_map in Hdistinct. exact Hdistinct.
Qed.

Lemma lookup_tool_found (registry : list tool) (t : tool) :
  NoDup (map name registry) -> In t registry ->
  lookup_tool registry (name t) = Some t.
Proof.
  unfold lookup_tool.
  induction registry as [| t0 rest IH]; simpl; intros Hnd Hin; [contradiction |].
  inversion Hnd as [| ? ? Hnotin Hnd']; subst.
  destruct Hin as [-> | Hin].
  - now rewrite String.eqb_refl.
  - destruct (String.eqb (name t) (name t0)) eqn:E.
    + apply String.eqb_eq in E. exfalso. apply Hnotin.
      rewrite <- E. now apply in_map.
    + now apply IH.
Qed.

End Registries.

(** ** C1, C9, C7: what a handler returns *)

Section Envelopes.
Context {host : Host}.

Abbreviation val := (value number).

(** C1.  Whatever a registered tool's try block does (the upstream call
    answers and the text is built, the upstream call fails, or anything
    else throws), its handler completes normally with an envelope, after one
    upstream call: the text of the try block on success, and otherwise the
    tool's phrase followed by the text of the caught error.  Nothing
    propagates out of the handler. *)
Theorem handler_returns_envelope
    (registry : list tool) (t : tool) (args : arguments) (log : list event) :
  registered registry -> In t registry ->
  exists result operation a fetched,
    handler t args log = (Normal result, (log ++ Call operation a :: fetched)%list) /\
    Forall is_fetch fetched /\
    match fst (attempt t args log) with
    | Normal text =>
        result = {| content := [ {| block_type := "text"; block_text := text |} ] |}
    | Abrupt error =>
        result =
        {| content :=
             [ {| block_type := "text";
                  block_text := error_phrase t ++ error_text error |} ] |}
    end.
Proof.
  intros Hreg Hin.
  destruct (attempt_run registry t args Hreg Hin)
    as (operation & a & c & fetched & Hrun & Hfetched).
  exists (outcome_envelope t c), operation, a, fetched.
  rewrite handler_run, (Hrun log). simpl.
  split; [reflexivity | split; [exact Hfetched |]].
  destruct c; reflexivity.
Qed.

(** C9.  The handler of every registered tool returns, on every call, an
    envelope that holds exactly one content block, of type "text". *)
Theorem envelope_single_text_block
    (registry : list tool) (t : tool) (args : arguments) (log : list event) :
  registered registry -> In t registry ->
  exists text log',
    handler t args log =
    (Normal {| content := [ {| block_type := "text"; block_text := text |} ] |}, log').
Proof.
  intros _ _. rewrite handler_run.
  destruct (fst (attempt t args log)) as [text | error]; simpl;
    eexists; eexists; reflexivity.
Qed.



End Envelopes.

(** ** C7, C3, C8: the dispatch path *)

Section Dispatching.
Context {host : Host}.

Abbreviation val := (value number).

Variable not_found_text : string -> string.
Variable failure_text : list issue -> string.

Lemma check_lists_missing (raw : arguments) (sch : list (string * ztype))
    (k : string) (ty : ztype) :
  In (k, ty) sch -> required ty = true -> lookup k raw = VUndefined ->
  In (Missing k) (check raw sch).
Proof.
  intros Hin Hreq Habsent.
  induction sch as [| [k0 t0] rest IH]; simpl; [contradiction |].
  apply in_or_app.
  destruct Hin as [Heq | Hin].
  - injection Heq as -> ->. left. rewrite Habsent, Hreq. now left.
  - right. now apply IH.
Qed.

Lemma decode_failure (raw : arguments) (sch : list (string * ztype))
    (issues : list issue) :
  decode raw sch = inr issues -> issues = check raw sch /\ issues <> [].
Proof.
  unfold decode. destruct (check raw sch) as [| i rest]; intro H.
  - discriminate H.
  - injection H as <-. split; [reflexivity | discriminate].
Qed.

(** A validation failure ends the dispatch after the lookup. *)
Lemma dispatch_rejects (registry : list tool) (t : tool) (raw : arguments)
    (issues : list issue) (log : list event) :
  registered registry -> In t registry ->
  decode raw (schema t) = inr issues ->
  dispatch not_found_text failure_text registry (name t) raw log =
  (Normal (text_result (error_phrase t ++ failure_text issues)),
   (log ++ [Lookup (name t)])%list).
Proof.
  intros Hreg Hin Hdecode.
  unfold dispatch, bind, emit.
  rewrite (lookup_tool_found registry t (registered_names_NoDup registry Hreg) Hin).
  rewrite Hdecode. reflexivity.
Qed.

(** Decoded arguments go to the handler after the lookup. *)
Lemma dispatch_accepts (registry : list tool) (t : tool) (raw args : arguments)
    (log : list event) :
  registered registry -> In t registry ->
  decode raw (schema t) = inl args ->
  dispatch not_found_text failure_text registry (name t) raw log =
  handler t args (log ++ [Lookup (name t)])%list.
Proof.
  intros Hreg Hin Hdecode.
  unfold dispatch, bind, emit.
  rewrite (lookup_tool_found registry t (registered_names_NoDup registry Hreg) Hin).
  rewrite Hdecode. reflexivity.
Qed.

(** Every dispatch completes normally; its envelope and the events it adds
    do not depend on the log it starts from. *)
Lemma dispatch_run (registry : list tool) (n : string) (raw : arguments) :
  registered registry ->
  exists result added,
    forall log,
      dispatch not_found_text failure_text registry n raw log =
      (Normal result, (log ++ Lookup n :: added)%list).
Proof.
  intro Hreg. unfold dispatch, bind, emit.
  destruct (lookup_tool registry n) as [t |] eqn:Hfind.
  - destruct (decode raw (schema t)) as [args | issues].
    + apply find_some in Hfind. destruct Hfind as [Hin _].
      destruct (attempt_run registry t args Hreg Hin)
        as (operation & a & c & fetched & Hrun & _).
      exists (outcome_envelope t c), (Call operation a :: fetched).
      intro log. rewrite handler_run, Hrun. simpl.
      now rewrite <- app_assoc.
    + eexists; exists []. intro log. reflexivity.
  - eexists; exists []. intro log. reflexivity.
Qed.


(** C3.  When the raw arguments of a call to a registered tool lack a
    field that the tool's schema requires, decoding fails with a validation
    failure that lists the field as missing, and the dispatch ends with the
    formatted failure having added nothing to the log but the lookup: the
    handler is not run and no upstream call is made. *)
Theorem missing_required_field_rejected
    (registry : list tool) (t : tool) (k : string) (ty : ztype)
    (raw : arguments) (log : list event) :
  registered registry -> In t registry ->
  In (k, ty) (schema t) -> required ty = true -> lookup k raw = VUndefined ->
  exists issues,
    decode raw (schema t) = inr issues /\
    In (Missing k) issues /\
    dispatch not_found_text failure_text registry (name t) raw log =
    (Normal (text_result (error_phrase t ++ failure_text issues)),
     (log ++ [Lookup (name t)])%list).
Proof.
  intros Hreg Hin Hfield Hreq Habsent.
  pose proof (check_lists_missing raw (schema t) k ty Hfield Hreq Habsent) as Hmissing.
  assert (decode raw (schema t) = inr (check raw (schema t))) as Hdecode.
  { unfold decode. destruct (check raw (schema t)); [contradiction | reflexivity]. }
  exists (check raw (schema t)).
  split; [exact Hdecode | split; [exact Hmissing |]].
  now apply dispatch_rejects.
Qed.

(** C8.  Nothing left by earlier calls influences a dispatch: the envelope
    of a registered handler, and of a dispatch, is the same whatever log it
    starts from.  In particular [get_user_info] is registered, takes no
    parameter, and two consecutive dispatches of it with empty arguments on
    the same registry (same credential, same upstream) complete with the
    same envelope, the one its handler builds. *)
Theorem dispatch_deterministic (registry : list tool) :
  registered registry ->
  (forall t args log1 log2,
     In t registry ->
     fst (handler t args log1) = fst (handler t args log2)) /\
  (forall n raw log1 log2,
     fst (dispatch not_found_text failure_text registry n raw log1) =
     fst (dispatch not_found_text failure_text registry n raw log2)) /\
  (exists t,
     lookup_tool registry "get_user_info" = Some t /\
     schema t = [] /\
     forall log,
       exists result mid final,
         dispatch not_found_text failure_text registry "get_user_info" [] log =
         (Normal result, mid) /\
         dispatch not_found_text failure_text registry "get_user_info" [] mid =
         (Normal result, final) /\
         result = outcome_envelope t (fst (attempt t [] []))).
Proof.
  intro Hreg. split; [| split].
  - intros t args log1 log2 Hin.
    destruct (attempt_run registry t args Hreg Hin)
      as (operation & a & c & fetched & Hrun & _).
    now rewrite !handler_run, !Hrun.
  - intros n raw log1 log2.
    destruct (dispatch_run registry n raw Hreg) as (result & added & Hrun).
    now rewrite (Hrun log1), (Hrun log2).
  - assert (exists t, lookup_tool registry "get_user_info" = Some t /\
                      name t = "get_user_info" /\ schema t = []) as (t & Hfind & Hname & Hschema).
    { destruct Hreg as [(net & apiKey & ->) | (createClient & apiKey & ->)];
        eexists; (split; [reflexivity | split; reflexivity]). }
    exists t. split; [exact Hfind | split; [exact Hschema |]].
    intro log.
    pose proof (proj1 (find_some _ _ Hfind)) as Hin.
    destruct (attempt_run registry t [] Hreg Hin)
      as (operation & a & c & fetched & Hrun & _).
    assert (decode [] (schema t) = inl []) as Hdecode by now rewrite Hschema.
    exists (outcome_envelope t c). eexists. eexists.
    rewrite <- Hname.
    rewrite !(dispatch_accepts registry t [] [] _ Hreg Hin Hdecode).
    rewrite !handler_run, !Hrun. simpl.
    split; [reflexivity | split; reflexivity].
Qed.

End Dispatching.

(** ** C2: the model configuration of [create_chat] *)

Section ModelConfiguration.
Context {host : Host}.

Abbreviation val := (value number).

Lemma json_tree_obj (props : list (string * val)) :
  json_tree (VObj props) = VObj (json_members props).
Proof. reflexivity. Qed.

#[local] Arguments json_tree : simpl never.
#[local] Arguments json_members : simpl never.

Lemma json_members_cons (k : string) (v : val) (rest : list (string * val)) :
  json_members ((k, v) :: rest) =
  if defined v then (k, json_tree v) :: json_members rest else json_members rest.
Proof. destruct v; reflexivity. Qed.

(** A key is written exactly when it is bound to a value other than
    [undefined]. *)
Lemma json_members_has_key (k : string) (props : list (string * val)) :
  has_key k (json_members props) =
  existsb (fun p => String.eqb k (fst p) && defined (snd p)) props.
Proof.
  induction props as [| [k' v] rest IH]; [reflexivity |].
  rewrite json_members_cons. simpl.
  destruct (defined v); simpl.
  - now rewrite IH, andb_true_r.
  - now rewrite IH, andb_false_r.
Qed.

Lemma json_members_lookup (k : string) (props : list (string * val)) :
  lookup k (json_members props) =
  match lookup_defined k props with
  | VUndefined => VUndefined
  | v => json_tree v
  end.
Proof.
  induction props as [| [k' v] rest IH]; [reflexivity |].
  rewrite json_members_cons. simpl.
  destruct (defined v) eqn:Hv; simpl.
  - destruct (String.eqb k k'); simpl.
    + destruct v; try reflexivity. discriminate Hv.
    + exact IH.
  - rewrite andb_false_r. exact IH.
Qed.

(** The body of a POST request whose parameters carry an object. *)
Lemma post_request_body (apiKey : val) (url : string) (props : list (string * val)) :
  req_body (fetcher_request apiKey url "POST" (Legacy.with_body (VObj props)))
  = Some (VObj (json_members props)).
Proof. reflexivity. Qed.

Lemma model_id_truthy (m : string) : In m V2.model_ids -> truthy (VStr m) = true.
Proof.
  intro H. repeat (destruct H as [<- | H]; [reflexivity |]). destruct H.
Qed.

(** C2.  In both variants the handler of [create_chat] makes one call of
    [chats.create] whose parameter object holds, under
    [modelConfiguration], exactly [modelId] and [imageGenerations] (false
    when omitted) if a model id was supplied, and [undefined] if it was not,
    whatever [imageGenerations] is; a property that is [undefined] is not
    written into the request.  In the legacy variant, where the client
    builds the request itself, the body sent over the network has the same
    nested object in the first case and no [modelConfiguration] member in
    the second. *)
Theorem create_chat_model_configuration (args : arguments) (log : list event) :
  (forall createClient apiKey,
     exists params c,
       V2.create_chat createClient apiKey args log =
       (c, (log ++ [Call "chats.create" [VObj params]])%list) /\
       configuration_as_claimed args params) /\
  (forall net apiKey,
     exists params c fetched,
       Legacy.create_chat net apiKey args log =
       (c, (log ++ Call "chats.create" [VObj params] :: fetched)%list) /\
       configuration_as_claimed args params /\
       (truthy apiKey = true ->
        exists request body,
          fetched = [Fetch request] /\
          req_url request = "https://api.v0.dev/v1/chats" /\
          req_method request = "POST" /\
          req_body request = Some (VObj body) /\
          (forall m b,
             In m V2.model_ids ->
             lookup "modelId" args = VStr m ->
             lookup "imageGenerations" args = optional_bool b ->
             lookup "modelConfiguration" body =
             VObj [("modelId", VStr m); ("imageGenerations", VBool (bool_or_false b))]) /\
          (lookup "modelId" args = VUndefined ->
           has_key "modelConfiguration" body = false))).
Proof.
  split.
  - intros createClient apiKey.
    unfold V2.create_chat. cbv zeta.
    eexists. eexists. split.
    + apply v0_bind_run. silence.
    + split.
      * intros m b Hm Hid Himg. simpl.
        rewrite Hid, (model_id_truthy m Hm), Himg. now destruct b.
      * intro Hid. rewrite json_members_has_key. simpl.
        rewrite Hid. simpl. split; [reflexivity |].
        now rewrite ?andb_false_r.
  - intros net apiKey.
    unfold Legacy.create_chat, Legacy.chats_create. cbv zeta.
    match goal with
    | |- context [bind (bind (emit (Call ?op ?a)) (fun _ => Legacy.fetcher _ _ ?u ?m ?p)) ?k] =>
        destruct (client_bind_run net apiKey op a u m p k) as (c & fetched & Hrun & Hfetch & _)
    end.
    { silence. }
    eexists. eexists. exists fetched. split; [apply Hrun |]. split.
    + split.
      * intros m b Hm Hid Himg. simpl.
        rewrite Hid, (model_id_truthy m Hm), Himg. now destruct b.
      * intro Hid. rewrite json_members_has_key. simpl.
        rewrite Hid. simpl. split; [reflexivity |].
        now rewrite ?andb_false_r.
    + intro Hkey.
      match type of Hfetch with
      | forall log, Legacy.fetcher _ _ ?u ?m ?p log = _ =>
          destruct (fetcher_with_key net apiKey u m p Hkey) as [c' Hwith];
          pose proof (Hfetch []) as H0; rewrite (Hwith []) in H0;
          set (request := fetcher_request apiKey u m p) in *
      end.
      injection H0 as _ <-.
      match goal with
      | request := fetcher_request _ _ _ (Legacy.with_body (VObj ?props)) |- _ =>
          exists request, (json_members props)
      end.
      split; [reflexivity |]. split; [reflexivity |]. split; [reflexivity |].
      split; [apply post_request_body |]. split.
      * intros m b Hm Hid Himg.
        rewrite json_members_lookup. simpl.
        rewrite Hid, (model_id_truthy m Hm), Himg.
        rewrite ?andb_false_r. now destruct b.
      * intro Hid. rewrite json_members_has_key. simpl.
        rewrite Hid. simpl. now rewrite ?andb_false_r.
Qed.

End ModelConfiguration.

(** ** C4, C10: the credential at the edge *)

Section Guard.
Context {host : Host}.

Abbreviation val := (value number).

Variable not_found_text : string -> string.
Variable failure_text : list issue -> string.

Lemma legacy_fetch_serves (request : request) (key : val) :
  served_path (pathname request) ->
  Legacy.fetch request key = Serve "/mcp" key \/
  Legacy.fetch request key = ServeSSE "/sse" key.
Proof.
  unfold Legacy.fetch. intros [-> | [-> | ->]]; simpl; auto.
Qed.

Lemma legacy_fetch_never_401 (request : request) (key : val) (body : string) :
  Legacy.fetch request key <> Respond 401 body.
Proof.
  unfold Legacy.fetch.
  destruct (String.eqb (pathname request) "/sse" || String.eqb (pathname request) "/sse/message");
    [discriminate |].
  destruct (String.eqb (pathname request) "/mcp"); discriminate.
Qed.

(** A served request of the legacy worker is dispatched, key or no key. *)
Lemma legacy_worker_dispatches (net : Legacy.network) (key : val)
    (request : request) (c : tool_call) :
  served_path (pathname request) ->
  exists result added,
    forall log,
      legacy_worker not_found_text failure_text net key request c log =
      (Normal (ToolResult result), (log ++ Lookup (call_name c) :: added)%list).
Proof.
  intro Hpath. unfold legacy_worker, serve.
  assert (registered (Legacy.tools net key)) as Hreg by (left; eauto).
  destruct (dispatch_run not_found_text failure_text (Legacy.tools net key)
              (call_name c) (call_arguments c) Hreg) as (result & added & Hrun).
  exists result, added. intro log.
  destruct (legacy_fetch_serves request key Hpath) as [-> | ->];
    unfold bind; rewrite Hrun; reflexivity.
Qed.

(** C4, as the code has it.  In the SDK variant a request whose [key]
    query parameter is absent or empty is answered by [fetch] with a 401
    response, whatever its path, and the worker adds nothing to the log: no
    lookup, no handler, no envelope; a request with a non-empty key is never
    answered with 401.  In the legacy variant [fetch] never answers 401: the
    key comes from the worker configuration, and a request to a served path
    reaches the dispatcher and gets an envelope whatever the configured key
    is. *)
Theorem credential_guard :
  (forall createClient request c log,
     key_param request = None \/ key_param request = Some "" ->
     V2.fetch request = Respond 401 "Missing key query parameter" /\
     v2_worker not_found_text failure_text createClient request c log =
     (Normal (HttpResponse 401 "Missing key query parameter"), log)) /\
  (forall request k body,
     key_param request = Some k -> k <> "" ->
     V2.fetch request <> Respond 401 body) /\
  (forall request key body, Legacy.fetch request key <> Respond 401 body) /\
  (forall net key request c,
     served_path (pathname request) ->
     exists result added,
       forall log,
         legacy_worker not_found_text failure_text net key request c log =
         (Normal (ToolResult result), (log ++ Lookup (call_name c) :: added)%list)).
Proof.
  split; [| split; [| split]].
  - intros createClient request c log Hkey.
    assert (V2.fetch request = Respond 401 "Missing key query parameter") as Hfetch.
    { unfold V2.fetch. destruct Hkey as [-> | ->]; reflexivity. }
    split; [exact Hfetch |].
    unfold v2_worker, serve. rewrite Hfetch. reflexivity.
  - intros request k body Hkey Hne. unfold V2.fetch. rewrite Hkey. simpl.
    destruct (String.eqb k "") eqn:E.
    + apply String.eqb_eq in E. contradiction.
    + simpl.
      destruct (String.eqb (pathname request) "/sse" || String.eqb (pathname request) "/sse/message");
        [discriminate |].
      destruct (String.eqb (pathname request) "/mcp"); discriminate.
  - apply legacy_fetch_never_401.
  - apply legacy_worker_dispatches.
Qed.

(** C10.  In the legacy variant, with no key or an empty key configured,
    [fetch] answers no request with 401; every tool handler enters its
    client method, which fails with "V0_API_KEY is required" without issuing
    a network request, and returns the text envelope made of the tool's
    phrase and that message; and a call of a registered tool that arrives on
    a served path with arguments that decode gets that envelope from the
    worker as its tool result. *)
Theorem legacy_missing_key (net : Legacy.network) (apiKey : val) :
  truthy apiKey = false ->
  (forall request body, Legacy.fetch request apiKey <> Respond 401 body) /\
  (forall t args log,
     In t (Legacy.tools net apiKey) ->
     exists operation a,
       handler t args log =
       (Normal
         {| content :=
              [ {| block_type := "text";
                   block_text := error_phrase t ++ "V0_API_KEY is required" |} ] |},
        (log ++ [Call operation a])%list)) /\
  (forall request c t args log,
     served_path (pathname request) ->
     In t (Legacy.tools net apiKey) ->
     call_name c = name t ->
     decode (call_arguments c) (schema t) = inl args ->
     exists operation a,
       legacy_worker not_found_text failure_text net apiKey request c log =
       (Normal (ToolResult
         {| content :=
              [ {| block_type := "text";
                   block_text := error_phrase t ++ "V0_API_KEY is required" |} ] |}),
        (log ++ [Lookup (name t); Call operation a])%list)).
Proof.
  intro Hkey.
  assert (forall t args log,
            In t (Legacy.tools net apiKey) ->
            exists operation a,
              handler t args log =
              (Normal (text_result (error_phrase t ++ "V0_API_KEY is required")),
               (log ++ [Call operation a])%list)) as Hhandler.
  { intros t args log Hin.
    destruct (legacy_attempt_run net apiKey t args Hin)
      as (operation & a & c & fetched & Hrun & _ & Hnokey).
    destruct (Hnokey Hkey) as [-> ->].
    exists operation, a. rewrite handler_run, Hrun. reflexivity. }
  split; [| split].
  - intros request body. apply legacy_fetch_never_401.
  - exact Hhandler.
  - intros request c t args log Hpath Hin Hname Hdecode.
    assert (registered (Legacy.tools net apiKey)) as Hreg by (left; eauto).
    destruct (Hhandler t args (log ++ [Lookup (name t)])%list Hin)
      as (operation & a & Hrun).
    exists operation, a.
    unfold legacy_worker, serve.
    destruct (legacy_fetch_serves request apiKey Hpath) as [-> | ->];
      unfold bind; rewrite Hname;
      rewrite (dispatch_accepts not_found_text failure_text _ t _ args log Hreg Hin Hdecode);
      rewrite Hrun, <- app_assoc; reflexivity.
Qed.

End Guard.

(** ** C5, C6: the listing tools *)

Section Listings.
Context {host : Host}.

Abbreviation val := (value number).

Lemma map_m_length {A B} (f : A -> M B) (l : list A) (log log' : list event)
    (ys : list B) :
  map_m f l log = (Normal ys, log') -> length ys = length l.
Proof.
  revert log log' ys.
  induction l as [| x rest IH]; simpl; intros log log' ys H.
  - injection H as <- _. reflexivity.
  - unfold bind in H.
    destruct (f x log) as [[y | e] l1]; [| discriminate H].
    destruct (map_m f rest l1) as [[ys' | e] l2] eqn:E; [| discriminate H].
    injection H as <- _. simpl. f_equal. exact (IH _ _ _ E).
Qed.

(** [v.map(f)] completes normally only on an array, with one result per
    element. *)
Lemma js_map_normal (callee : string) (v : val) (f : val -> M string)
    (log log' : list event) (ls : list string) :
  js_map callee v f log = (Normal ls, log') ->
  exists items, v = VArr items /\ length ls = length items.
Proof.
  destruct v; simpl; intro H; try discriminate H.
  exists items. split; [reflexivity |]. exact (map_m_length _ _ _ _ _ H).
Qed.

(** The text of a successful listing, for an answer that is an object. *)
Lemma listing_text_outcome (noun empty : string) (lines : val -> M (list string))
    (shown : list val -> list val) (props : list (string * val))
    (log l : list event) (text : string) :
  (forall d log0 ls l',
     lines d log0 = (Normal ls, l') ->
     exists items, d = VArr items /\ length ls = length (shown items)) ->
  listing_text noun empty lines (VObj props) log = (Normal text, l) ->
  listing_outcome noun empty shown (lookup "data" props) text.
Proof.
  intros Hlines H. unfold listing_text in H.
  unfold bind at 1 in H. simpl in H.
  destruct (truthy (lookup "data" props)) eqn:Htruthy.
  - unfold bind at 1 2 in H.
    destruct (lines (lookup "data" props) log) as [[ls | e] l'] eqn:E;
      [| discriminate H].
    destruct (Hlines _ _ _ _ E) as (items & Hdata & Hlen).
    left. exists items, ls. split; [exact Hdata | split; [exact Hlen |]].
    rewrite Hdata in H. unfold ret, bind in H. simpl in H.
    injection H as <- _. reflexivity.
  - right. split; [exact Htruthy |].
    unfold ret, bind in H. simpl in H.
    injection H as <- _. reflexivity.
Qed.

Lemma slice_list_length_le {A} (l : list A) (start stop : integer_or_infinity) :
  length (slice_list l start stop) <= length l.
Proof.
  unfold slice_list.
  rewrite length_firstn, length_skipn. lia.
Qed.

(** [items.slice(0, n)] for an integer [n >= 0] keeps [min n (length items)]
    elements. *)
Lemma slice_list_prefix_length {A} (l : list A) (n : Z) :
  (0 <= n)%Z ->
  length (slice_list l (Finite 0) (Finite n)) = Nat.min (Z.to_nat n) (length l).
Proof.
  intro Hn. unfold slice_list, clamp_index.
  change (0 <? 0)%Z with false. cbv iota.
  destruct (n <? 0)%Z eqn:E; [apply Z.ltb_lt in E; lia |].
  rewrite length_firstn, length_skipn. lia.
Qed.

(** The legacy line renderers complete normally only on an array, with one
    line per element of the slice. *)
Lemma legacy_chat_lines_normal (d : val) (limit : number)
    (log log' : list event) (ls : list string) :
  Legacy.chat_lines d limit log = (Normal ls, log') ->
  exists items,
    d = VArr items /\
    length ls = length (slice_list items (Finite 0) (to_integer limit)).
Proof.
  unfold Legacy.chat_lines. unfold bind at 1.
  destruct d; simpl; intro H; try discriminate H.
  exists items. split; [reflexivity |]. exact (map_m_length _ _ _ _ _ H).
Qed.

Lemma legacy_project_lines_normal (d : val) (limit offset : number)
    (log log' : list event) (ls : list string) :
  Legacy.project_lines d limit offset log = (Normal ls, log') ->
  exists items,
    d = VArr items /\
    length ls =
    length (slice_list items (to_integer offset) (to_integer (num_add offset limit))).
Proof.
  unfold Legacy.project_lines. unfold bind at 1.
  destruct d; simpl; intro H; try discriminate H.
  exists items. split; [reflexivity |]. exact (map_m_length _ _ _ _ _ H).
Qed.

(** A client method of the legacy variant whose request is answered with a
    success status, followed by a silent continuation. *)
Lemma client_bind_ok {B} (net : Legacy.network) (apiKey : val)
    (operation : string) (a : list val) (url method : string)
    (params : Legacy.fetcher_params) (text : val -> M B)
    (res : Legacy.http_response) :
  truthy apiKey = true ->
  net (fetcher_request apiKey url method params) = Normal res ->
  Legacy.ok res = true ->
  (forall r, silent (text r)) ->
  forall log,
    bind (bind (emit (Call operation a))
               (fun _ => Legacy.fetcher net apiKey url method params)) text log
    = (match Legacy.json res with
       | Normal r => fst (text r [])
       | Abrupt e => Abrupt e
       end,
       (log ++ [Call operation a; Fetch (fetcher_request apiKey url method params)])%list).
Proof.
  intros Hkey Hnet Hok Htext log.
  unfold bind at 1 2, emit, Legacy.fetcher. rewrite Hkey. cbv zeta.
  fold (fetcher_request apiKey url method params).
  change (negb true) with false. cbv iota.
  unfold bind, emit, settle. rewrite Hnet, Hok. simpl.
  rewrite <- app_assoc. simpl.
  destruct (Legacy.json res) as [r | e]; [| reflexivity].
  apply (Htext r).
Qed.

(** The text of a try block that is a client call followed by a listing. *)
Lemma v2_listing_run (createClient : val -> V2.sdk_client) (apiKey : val)
    (operation : string) (a : list val) (noun empty : string)
    (lines : val -> M (list string)) (props : list (string * val))
    (log l : list event) (text : string) :
  (forall data, silent (lines data)) ->
  (forall d log0 ls l',
     lines d log0 = (Normal ls, l') ->
     exists items, d = VArr items /\ length ls = length items) ->
  createClient apiKey operation a = Normal (VObj props) ->
  bind (V2.v0 createClient apiKey operation a) (listing_text noun empty lines) log
  = (Normal text, l) ->
  listing_outcome noun empty (fun items => items) (lookup "data" props) text.
Proof.
  intros Hsilent Hlines Hcc Hrun.
  rewrite v0_bind_run in Hrun by (intro r; now apply silent_listing_text).
  rewrite Hcc in Hrun. injection Hrun as Hfst _.
  destruct (listing_text noun empty lines (VObj props) []) as [c l0] eqn:E.
  simpl in Hfst. subst c.
  exact (listing_text_outcome noun empty lines (fun items => items) props [] l0 text
           Hlines E).
Qed.

(** C6, as the code has it.  When the upstream answer is an object and the
    listing succeeds, either its [data] is an array, and the text reports
    the number of items of [data] followed by one line per item shown, or
    [data] is falsy, and the text reports zero items and says that none were
    found.  In the SDK variant every item is shown, so the number of lines
    is the reported count.  In the legacy variant only a slice is shown
    ([slice(0, limit)] for [find_chats], [slice(offset, offset + limit)]
    for [find_projects]): the number of lines is the length of that slice,
    which is at most the reported count; for an integer [limit >= 0] the
    slice of [find_chats] has [min limit count] items. *)
Theorem listing_count_and_lines :
  (forall createClient apiKey props t noun empty args log text l,
     (forall operation a, createClient apiKey operation a = Normal (VObj props)) ->
     In t (V2.tools createClient apiKey) ->
     In (name t, (noun, empty)) v2_listings ->
     attempt t args log = (Normal text, l) ->
     listing_outcome noun empty (fun items => items) (lookup "data" props) text) /\
  (forall net apiKey res props args log text l,
     truthy apiKey = true ->
     (forall request, net request = Normal res) ->
     Legacy.ok res = true ->
     Legacy.json res = Normal (VObj props) ->
     let limit := number_or (lookup "limit" args) 10 in
     let offset := number_or (lookup "offset" args) 0 in
     (Legacy.find_chats net apiKey args log = (Normal text, l) ->
      listing_outcome "chats" "No chats found"
        (fun items => slice_list items (Finite 0) (to_integer limit))
        (lookup "data" props) text) /\
     (Legacy.find_projects net apiKey args log = (Normal text, l) ->
      listing_outcome "projects" "No projects found"
        (fun items =>
           slice_list items (to_integer offset) (to_integer (num_add offset limit)))
        (lookup "data" props) text)) /\
  (forall (items : list val) start stop,
     length (slice_list items start stop) <= length items) /\
  (forall (items : list val) n,
     (0 <= n)%Z ->
     length (slice_list items (Finite 0) (Finite n)) = Nat.min (Z.to_nat n) (length items)).
Proof.
  split; [| split; [| split]]; [| | | intros items n; apply slice_list_prefix_length].
  - intros createClient apiKey props t noun empty args log text l
      Hcc Hin Htable Hrun.
    unfold V2.tools in Hin.
    repeat
      (destruct Hin as [<- | Hin];
       [ simpl in Htable;
         repeat
           (destruct Htable as [Htable | Htable];
            [ apply pair_equal_spec in Htable; destruct Htable as [Hn Hwords];
              first
                [ discriminate Hn
                | apply pair_equal_spec in Hwords; destruct Hwords as [<- <-];
                  apply (v2_listing_run createClient apiKey _ _ _ _ _ props
                           log l text) in Hrun;
                  [ exact Hrun
                  | unfold V2.chat_lines, V2.message_lines, V2.version_lines,
                      V2.project_lines, V2.deployment_lines,
                      V2.vercel_project_lines, V2.hook_lines; silence
                  | intros d log0 ls l'; apply js_map_normal
                  | apply Hcc ] ]
            | ]);
         contradiction
       | ]).
    destruct Hin.
  - intros net apiKey res props args log text l Hkey Hnet Hok Hjson limit offset.
    split; intro Hrun.
    + unfold Legacy.find_chats, Legacy.chats_find in Hrun. cbv zeta in Hrun.
      rewrite (client_bind_ok net apiKey _ _ _ _ _ _ res Hkey (Hnet _) Hok) in Hrun
        by (intro r; apply silent_listing_text; intro data;
            unfold Legacy.chat_lines; silence).
      rewrite Hjson in Hrun. injection Hrun as Hfst _.
      match type of Hfst with
      | fst (?m []) = _ => destruct (m []) as [c l0] eqn:E
      end.
      simpl in Hfst. subst c.
      apply (listing_text_outcome _ _ _
               (fun items => slice_list items (Finite 0) (to_integer limit))
               props [] l0 text) in E; [exact E |].
      intros d log0 ls l'. apply legacy_chat_lines_normal.
    + unfold Legacy.find_projects, Legacy.projects_find in Hrun. cbv zeta in Hrun.
      rewrite (client_bind_ok net apiKey _ _ _ _ _ _ res Hkey (Hnet _) Hok) in Hrun
        by (intro r; apply silent_listing_text; intro data;
            unfold Legacy.project_lines; silence).
      rewrite Hjson in Hrun. injection Hrun as Hfst _.
      match type of Hfst with
      | fst (?m []) = _ => destruct (m []) as [c l0] eqn:E
      end.
      simpl in Hfst. subst c.
      apply (listing_text_outcome _ _ _
               (fun items =>
                  slice_list items (to_integer offset) (to_integer (num_add offset limit)))
               props [] l0 text) in E; [exact E |].
      intros d log0 ls l'. apply legacy_project_lines_normal.
  - intros items start stop. apply slice_list_length_le.
Qed.

(** C5, as the code has it.  Each of the four handlers makes exactly one
    call of its client method.  [find_chats] passes the pagination on: the
    SDK variant hands [limit], [offset] and [isFavorite] over as decoded;
    the legacy variant hands over [String(limit)] and [String(offset)]
    (10 and 0 when omitted), which the client puts into the query string,
    and then still renders only [slice(0, limit)] of the answer.
    [find_projects] passes nothing on: the SDK variant has no pagination
    parameters, and the legacy variant calls [projects.find()] without
    arguments, requests [/projects] with no query, and applies the
    pagination itself by rendering [slice(offset, offset + limit)] of the
    answer. *)
Theorem find_tools_upstream_calls (args : arguments) (log : list event) :
  (forall createClient apiKey,
     exists c,
       V2.find_chats createClient apiKey args log =
       (c, (log ++ [Call "chats.find"
                      [VObj [("limit", lookup "limit" args);
                             ("offset", lookup "offset" args);
                             ("isFavorite", lookup "isFavorite" args)]]])%list)) /\
  (forall createClient apiKey,
     exists c,
       V2.find_projects createClient apiKey args log =
       (c, (log ++ [Call "projects.find" []])%list)) /\
  (forall net apiKey,
     let limit := number_or (lookup "limit" args) 10 in
     let offset := number_or (lookup "offset" args) 0 in
     exists c fetched,
       Legacy.find_chats net apiKey args log =
       (c, (log ++ Call "chats.find"
                     [VObj [("limit", VStr (num_to_string limit));
                            ("offset", VStr (num_to_string offset))]]
                :: fetched)%list) /\
       (fetched = [] \/ exists request, fetched = [Fetch request]) /\
       (truthy apiKey = true ->
        exists request,
          fetched = [Fetch request] /\
          req_method request = "GET" /\
          req_url request =
          "https://api.v0.dev/v1/chats?"
          ++ url_search_params [("limit", num_to_string limit);
                                ("offset", num_to_string offset)])) /\
  (forall net apiKey,
     exists c fetched,
       Legacy.find_projects net apiKey args log =
       (c, (log ++ Call "projects.find" [] :: fetched)%list) /\
       (fetched = [] \/ exists request, fetched = [Fetch request]) /\
       (truthy apiKey = true ->
        exists request,
          fetched = [Fetch request] /\
          req_method request = "GET" /\
          req_url request = "https://api.v0.dev/v1/projects" /\
          req_body request = None)) /\
  (forall items limit l,
     Legacy.chat_lines (VArr items) limit l =
     map_m legacy_chat_line (slice_list items (Finite 0) (to_integer limit)) l) /\
  (forall items limit offset l,
     Legacy.project_lines (VArr items) limit offset l =
     map_m legacy_project_line
       (slice_list items (to_integer offset) (to_integer (num_add offset limit))) l).
Proof.
  split; [| split; [| split; [| split; [| split]]]].
  - intros createClient apiKey. unfold V2.find_chats. cbv zeta.
    eexists. apply v0_bind_run.
    intro r. apply silent_listing_text. unfold V2.chat_lines. silence.
  - intros createClient apiKey. unfold V2.find_projects.
    eexists. apply v0_bind_run.
    intro r. apply silent_listing_text. unfold V2.project_lines. silence.
  - intros net apiKey limit offset.
    unfold Legacy.find_chats, Legacy.chats_find. cbv zeta.
    fold limit. fold offset.
    match goal with
    | |- context [bind (bind (emit (Call ?op ?a)) (fun _ => Legacy.fetcher _ _ ?u ?m ?p)) ?k] =>
        destruct (client_bind_run net apiKey op a u m p k)
          as (c & fetched & Hrun & Hfetch & Hfetched & _);
        [ intro r; apply silent_listing_text; unfold Legacy.chat_lines; silence |];
        eexists; exists fetched;
        split; [apply Hrun | split; [exact Hfetched |]];
        intro Hkey;
        destruct (fetcher_with_key net apiKey u m p Hkey) as [c' Hwith];
        pose proof (Hfetch []) as H0; rewrite (Hwith []) in H0;
        injection H0 as _ <-;
        exists (fetcher_request apiKey u m p)
    end.
    split; [reflexivity | split; reflexivity].
  - intros net apiKey.
    unfold Legacy.find_projects, Legacy.projects_find. cbv zeta.
    match goal with
    | |- context [bind (bind (emit (Call ?op ?a)) (fun _ => Legacy.fetcher _ _ ?u ?m ?p)) ?k] =>
        destruct (client_bind_run net apiKey op a u m p k)
          as (c & fetched & Hrun & Hfetch & Hfetched & _);
        [ intro r; apply silent_listing_text; unfold Legacy.project_lines; silence |];
        eexists; exists fetched;
        split; [apply Hrun | split; [exact Hfetched |]];
        intro Hkey;
        destruct (fetcher_with_key net apiKey u m p Hkey) as [c' Hwith];
        pose proof (Hfetch []) as H0; rewrite (Hwith []) in H0;
        injection H0 as _ <-;
        exists (fetcher_request apiKey u m p)
    end.
    split; [reflexivity | split; [reflexivity | split; reflexivity]].
  - intros items limit l. reflexivity.
  - intros items limit offset l. reflexivity.
Qed.

End Listings.

(** * Scenarios on the integer host *)

Module Scenarios.
Import IntegerHost.
Import Stubs.

Lemma pick_In (registry : list tool) (n : string) (t : tool) :
  lookup_tool registry n = Some t -> In (pick registry n) registry.
Proof.
  intro H. unfold pick. rewrite H.
  exact (proj1 (find_some _ _ H)).
Qed.

(** [create_chat] with a stubbed answer: the text shows the id and the URL. *)
Example create_chat_scenario :
  fst (handler (pick (Legacy.tools
                        (answers (VObj [("id", VStr "c1");
                                        ("url", VStr "https://v0.dev/chat/c1")]))
                        key) "create_chat")
         [("message", VStr "Build a todo app")] [])
  = Normal (text_result ("Chat created successfully!" ++ nl ++ nl
                         ++ "Chat URL: https://v0.dev/chat/c1" ++ nl
                         ++ "Chat ID: c1")).
Proof. reflexivity. Qed.

(** [delete_chat] when the platform answers 404: an envelope, not a throw. *)
Example delete_chat_scenario :
  fst (handler (pick (Legacy.tools (refuses 404 "Chat not found") key) "delete_chat")
         [("chatId", VStr "c1")] [])
  = Normal (text_result "Error deleting chat: HTTP 404: Chat not found").
Proof. reflexivity. Qed.

(** An answer of the wrong shape is caught as well. *)
Example find_chats_bad_shape :
  fst (handler (pick (V2.tools (sdk_answers VNull) key) "find_chats") [] [])
  = Normal (text_result
              "Error finding chats: Cannot read properties of null (reading 'data')").
Proof. reflexivity. Qed.

(** ** Instances of the theorems *)

Lemma refusing_registry_registered : registered refusing_registry.
Proof. left. exists (refuses 404 "Chat not found"), key. reflexivity. Qed.

Lemma rejecting_registry_registered : registered rejecting_registry.
Proof. right. exists (sdk_rejects (ErrorObject "HTTP 404: Not Found")), key. reflexivity. Qed.

Lemma chats_registry_registered : registered chats_registry.
Proof. right. exists (sdk_answers two_chats), key. reflexivity. Qed.

Lemma handler_returns_envelope_witness :
  registered refusing_registry /\
  In (pick refusing_registry "delete_chat") refusing_registry /\
  exists result operation a fetched,
    handler (pick refusing_registry "delete_chat") [("chatId", VStr "c1")] [] =
    (Normal result, ([] ++ Call operation a :: fetched)%list) /\
    Forall is_fetch fetched /\
    match fst (attempt (pick refusing_registry "delete_chat") [("chatId", VStr "c1")] [])
    with
    | Normal text =>
        result = {| content := [ {| block_type := "text"; block_text := text |} ] |}
    | Abrupt error =>
        result =
          {| content :=
               [ {| block_type := "text";
                    block_text :=
                      error_phrase (pick refusing_registry "delete_chat")
                      ++ error_text error |} ] |}
    end.
Proof.
  split; [exact refusing_registry_registered |].
  split; [eapply pick_In; reflexivity |].
  apply (handler_returns_envelope refusing_registry).
  - exact refusing_registry_registered.
  - eapply pick_In; reflexivity.
Defined.

Lemma envelope_single_text_block_witness :
  registered rejecting_registry /\
  In (pick rejecting_registry "get_user_plan") rejecting_registry /\
  exists text log',
    handler (pick rejecting_registry "get_user_plan") [] [] =
    (Normal {| content := [ {| block_type := "text"; block_text := text |} ] |}, log').
Proof.
  split; [exact rejecting_registry_registered |].
  split; [eapply pick_In; reflexivity |].
  apply (envelope_single_text_block rejecting_registry).
  - exact rejecting_registry_registered.
  - eapply pick_In; reflexivity.
Defined.

Lemma create_chat_model_configuration_witness :
  In "v0-1.5-md" V2.model_ids /\
  lookup "modelId" round_trip_arguments = VStr "v0-1.5-md" /\
  lookup "imageGenerations" round_trip_arguments = optional_bool (Some true) /\
  exists params,
    (exists c,
       V2.create_chat (sdk_answers VNull) key round_trip_arguments [] =
       (c, ([] ++ [Call "chats.create" [VObj params]])%list)) /\
    lookup "modelConfiguration" params =
    VObj [("modelId", VStr "v0-1.5-md"); ("imageGenerations", VBool true)].
Proof.
  split; [simpl; auto |]. split; [reflexivity |]. split; [reflexivity |].
  destruct (proj1 (create_chat_model_configuration round_trip_arguments [])
              (sdk_answers VNull) key) as (params & c & Hrun & Hsupplied & _).
  exists params. split; [exists c; exact Hrun |].
  apply (Hsupplied "v0-1.5-md" (Some true)); [simpl; auto | reflexivity | reflexivity].
Defined.

Lemma missing_required_field_rejected_witness :
  registered chats_registry /\
  In (pick chats_registry "get_chat") chats_registry /\
  In ("chatId", ZString) (schema (pick chats_registry "get_chat")) /\
  required ZString = true /\
  lookup "chatId" (@nil (string * value Z)) = VUndefined /\
  exists issues,
    decode [] (schema (pick chats_registry "get_chat")) = inr issues /\
    In (Missing "chatId") issues /\
    dispatch unknown_tool describe chats_registry
      (name (pick chats_registry "get_chat")) [] [] =
    (Normal (text_result (error_phrase (pick chats_registry "get_chat")
                          ++ describe issues)),
     ([] ++ [Lookup (name (pick chats_registry "get_chat"))])%list).
Proof.
  split; [exact chats_registry_registered |].
  split; [eapply pick_In; reflexivity |].
  split; [simpl; auto |]. split; [reflexivity |]. split; [reflexivity |].
  apply (missing_required_field_rejected (host := host) unknown_tool describe chats_registry
           (pick chats_registry "get_chat") "chatId" ZString [] []).
  - exact chats_registry_registered.
  - eapply pick_In; reflexivity.
  - simpl; auto.
  - reflexivity.
  - reflexivity.
Defined.

(** The scenario of the spec: [get_chat] without [chatId]. *)
Example get_chat_without_id :
  dispatch unknown_tool describe chats_registry "get_chat" [] [] =
  (Normal (text_result "Error retrieving chat: chatId is required"),
   [Lookup "get_chat"]).
Proof. reflexivity. Qed.

Lemma credential_guard_witness :
  (key_param bare_request = None \/ key_param bare_request = Some "") /\
  V2.fetch bare_request = Respond 401 "Missing key query parameter" /\
  v2_worker unknown_tool describe (sdk_answers VNull) bare_request user_info_call [] =
  (Normal (HttpResponse 401 "Missing key query parameter"), []).
Proof.
  split; [left; reflexivity |].
  apply (proj1 (credential_guard (host := host) unknown_tool describe)
           (sdk_answers VNull) bare_request user_info_call []).
  left; reflexivity.
Defined.

Lemma legacy_missing_key_witness :
  truthy (VStr "" : value Z) = false /\
  In (pick (Legacy.tools (answers VNull) (VStr "")) "get_user_info")
     (Legacy.tools (answers VNull) (VStr "")) /\
  exists operation a,
    handler (pick (Legacy.tools (answers VNull) (VStr "")) "get_user_info") [] [] =
    (Normal
      {| content :=
           [ {| block_type := "text";
                block_text := "Error getting user info: V0_API_KEY is required" |} ] |},
     ([] ++ [Call operation a])%list).
Proof.
  split; [reflexivity |].
  split; [eapply pick_In; reflexivity |].
  refine (proj1 (proj2 (legacy_missing_key (host := host) unknown_tool describe
                          (answers VNull) (VStr "") eq_refl)) _ [] [] _).
  eapply pick_In; reflexivity.
Defined.



(** The same call, evaluated. *)
Example find_deployments_failure :
  fst (handler (pick rejecting_registry "find_deployments")
         [("projectId", VStr "p1"); ("chatId", VStr "c1"); ("versionId", VStr "v1")] [])
  = Normal (text_result "Error finding deployments: HTTP 404: Not Found").
Proof. reflexivity. Qed.

Lemma dispatch_deterministic_witness :
  registered chats_registry /\
  In (pick chats_registry "get_user_info") chats_registry /\
  fst (handler (pick chats_registry "get_user_info") [] []) =
  fst (handler (pick chats_registry "get_user_info") []
         [Lookup "get_user_info"; Call "user.get" []]).
Proof.
  split; [exact chats_registry_registered |].
  split; [eapply pick_In; reflexivity |].
  apply (proj1 (dispatch_deterministic (host := host) unknown_tool describe
                  chats_registry chats_registry_registered)).
  eapply pick_In; reflexivity.
Defined.

(** Two consecutive dispatches of [get_user_info], evaluated. *)
Example get_user_info_twice :
  let registry :=
    V2.tools (sdk_answers (VObj [("id", VStr "u1"); ("email", VStr "u@example.com")])) key in
  let first := dispatch unknown_tool describe registry "get_user_info" [] [] in
  let second := dispatch unknown_tool describe registry "get_user_info" [] (snd first) in
  fst first = fst second /\
  fst first = Normal (text_result ("User Information:" ++ nl ++ nl ++ "ID: u1" ++ nl
                                   ++ "Email: u@example.com" ++ nl
                                   ++ "Name: Not provided")).
Proof. split; reflexivity. Qed.

Lemma find_tools_upstream_calls_witness :
  truthy key = true /\
  exists c fetched request,
    Legacy.find_chats (answers two_chats) key one_chat_page [] =
    (c, ([] ++ Call "chats.find" [VObj [("limit", VStr "1"); ("offset", VStr "0")]]
            :: fetched)%list) /\
    fetched = [Fetch request] /\
    req_method request = "GET" /\
    req_url request = "https://api.v0.dev/v1/chats?limit=1&offset=0".
Proof.
  split; [reflexivity |].
  destruct (proj1 (proj2 (proj2 (find_tools_upstream_calls one_chat_page [])))
              (answers two_chats) key) as (c & fetched & Hrun & _ & Hkey).
  destruct (Hkey eq_refl) as (request & Hfetched & Hmethod & Hurl).
  exists c, fetched, request.
  split; [exact Hrun | split; [exact Hfetched | split; [exact Hmethod | exact Hurl]]].
Defined.

Lemma listing_count_and_lines_witness :
  (forall operation a,
     sdk_answers two_chats key operation a = Normal two_chats) /\
  In (pick chats_registry "find_chats") chats_registry /\
  In (name (pick chats_registry "find_chats"), ("chats", "No chats found"))
     v2_listings /\
  attempt (pick chats_registry "find_chats") [] [] =
  (Normal ("Found 2 chats:" ++ nl ++ nl ++ "- a: Untitled (undefined)" ++ nl
           ++ "- b: Untitled (undefined)"),
   [Call "chats.find" [VObj [("limit", VUndefined); ("offset", VUndefined);
                             ("isFavorite", VUndefined)]]]) /\
  listing_outcome "chats" "No chats found" (fun items => items)
    (VArr [VObj [("id", VStr "a")]; VObj [("id", VStr "b")]])
    ("Found 2 chats:" ++ nl ++ nl ++ "- a: Untitled (undefined)" ++ nl
     ++ "- b: Untitled (undefined)").
Proof.
  split; [intros operation a; reflexivity |].
  split; [eapply pick_In; reflexivity |].
  split; [simpl; auto |].
  split; [reflexivity |].
  apply (proj1 (listing_count_and_lines (host := host))
           (sdk_answers two_chats) key
           [("data", VArr [VObj [("id", VStr "a")]; VObj [("id", VStr "b")]])]
           (pick chats_registry "find_chats") "chats" "No chats found" [] []
           ("Found 2 chats:" ++ nl ++ nl ++ "- a: Untitled (undefined)" ++ nl
            ++ "- b: Untitled (undefined)")
           [Call "chats.find" [VObj [("limit", VUndefined); ("offset", VUndefined);
                                     ("isFavorite", VUndefined)]]]).
  - intros operation a. reflexivity.
  - eapply pick_In; reflexivity.
  - simpl; auto.
  - reflexivity.
Defined.

(** ** Where the code departs from the spec *)

(** C4 fails on the legacy worker: a request that carries no credential,
    with no key configured either, is not answered with 401; it reaches the
    dispatcher, the registry is searched and an envelope comes back. *)
Lemma legacy_request_without_credential_dispatched :
  Legacy.fetch bare_request (VUndefined : value Z) = Serve "/mcp" VUndefined /\
  legacy_worker unknown_tool describe (answers VNull) VUndefined bare_request
    user_info_call [] =
  (Normal (ToolResult (text_result "Error getting user info: V0_API_KEY is required")),
   [Lookup "get_user_info"; Call "user.get" []]) /\
  ~ (exists body,
       legacy_worker unknown_tool describe (answers VNull) VUndefined bare_request
         user_info_call [] =
       (Normal (HttpResponse 401 body), [])).
Proof.
  assert (legacy_worker unknown_tool describe (answers VNull) VUndefined bare_request
            user_info_call [] =
          (Normal (ToolResult
                     (text_result "Error getting user info: V0_API_KEY is required")),
           [Lookup "get_user_info"; Call "user.get" []])) as Hrun by reflexivity.
  split; [reflexivity |]. split; [exact Hrun |].
  intros [body H]. rewrite Hrun in H. discriminate H.
Qed.

(** C5 fails on the legacy [find_projects]: called with [limit = 1] and
    [offset = 1], its one upstream call carries no argument and requests
    [/projects] without a query; the pagination is applied afterwards, to
    the three projects of the answer, of which only the second is shown. *)
Lemma legacy_find_projects_paginates_locally :
  handler (pick (Legacy.tools (answers three_projects) key) "find_projects")
    second_project [] =
  (Normal (text_result ("Found 3 projects:" ++ nl ++ nl ++ "- p2: Beta")),
   [Call "projects.find" [];
    Fetch {| req_url := "https://api.v0.dev/v1/projects";
             req_method := "GET";
             req_headers := [("Authorization", "Bearer key123")];
             req_body := None |}]) /\
  ~ (exists params rest,
       snd (handler (pick (Legacy.tools (answers three_projects) key) "find_projects")
              second_project [])
       = Call "projects.find" [VObj params] :: rest).
Proof.
  match goal with
  | |- ?run = ?outcome /\ _ => assert (run = outcome) as Hrun by reflexivity
  end.
  split; [exact Hrun |].
  intros (params & rest & H). rewrite Hrun in H. discriminate H.
Qed.

(** C6 fails on the legacy [find_chats]: with [limit = 1] and an answer of
    two chats one line is rendered, and the text reports two chats above
    that one line. *)
Lemma legacy_find_chats_count_exceeds_lines :
  Legacy.chat_lines (VArr [VObj [("id", VStr "a")]; VObj [("id", VStr "b")]]) 1%Z []
  = (Normal ["- a"], []) /\
  fst (handler (pick (Legacy.tools (answers two_chats) key) "find_chats")
         one_chat_page [])
  = Normal (text_result (listing 2 "chats" ["- a"])) /\
  listing 2 "chats" ["- a"] = "Found 2 chats:" ++ nl ++ nl ++ "- a" /\
  length ["- a"] <> 2.
Proof.
  split; [reflexivity |]. split; [reflexivity |]. split; [reflexivity |]. discriminate.
Qed.

End Scenarios.

(** * Further properties of the code *)

(** ** The requests of the legacy client *)

Section Requests.
Context {host : Host}.

Abbreviation val := (value number).

Lemma prefix_append (s t : string) : String.prefix s (s ++ t) = true.
Proof.
  induction s as [| c s IH]; simpl.
  - now destruct t.
  - destruct (ascii_dec c c) as [_ | H]; [exact IH | congruence].
Qed.

(** With a key, [fetcher] issues its request and settles as the response
    decides. *)
Lemma fetcher_settled (net : Legacy.network) (apiKey : val) (url method : string)
    (params : Legacy.fetcher_params) :
  truthy apiKey = true ->
  forall log,
    Legacy.fetcher net apiKey url method params log =
    (response_outcome (net (fetcher_request apiKey url method params)),
     (log ++ [Fetch (fetcher_request apiKey url method params)])%list).
Proof.
  intros Hkey log. unfold Legacy.fetcher. rewrite Hkey. cbv zeta.
  fold (fetcher_request apiKey url method params).
  change (negb true) with false. cbv iota.
  unfold bind, emit, settle, response_outcome.
  destruct (net (fetcher_request apiKey url method params)) as [res | e];
    [| reflexivity].
  destruct (Legacy.ok res); simpl; [reflexivity |].
  destruct (Legacy.text res); reflexivity.
Qed.

(** The try blocks of the legacy variant again, with the kind of request
    each of them asks [fetcher] for: a GET or DELETE without body, or a POST
    with an object literal as body and no query. *)
Lemma legacy_attempt_kind (net : Legacy.network) (apiKey : val)
    (t : tool) (args : arguments) :
  In t (Legacy.tools net apiKey) ->
  exists operation a url method params (text : val -> M string),
    (forall r, silent (text r)) /\
    attempt t args =
      bind (bind (emit (Call operation a))
                 (fun _ => Legacy.fetcher net apiKey url method params)) text /\
    (((method = "GET" \/ method = "DELETE") /\ Legacy.body params = VUndefined) \/
     (method = "POST" /\ Legacy.query params = None /\
      exists props, Legacy.body params = VObj props)).
Proof.
  intro Hin. unfold Legacy.tools in Hin.
  repeat (destruct Hin as [<- | Hin];
          [ do 6 eexists; (split; [| split; [reflexivity |]]);
            [ unfold Legacy.chat_lines, Legacy.project_lines; silence
            | first
                [ left; split; [left; reflexivity | reflexivity]
                | left; split; [right; reflexivity | reflexivity]
                | right; split; [reflexivity | split; [reflexivity |]];
                  eexists; reflexivity ] ]
          |]).
  destruct Hin.
Qed.

(** A client method of the legacy variant followed by a silent
    continuation, when a key is configured. *)
Lemma client_settled {B} (net : Legacy.network) (apiKey : val)
    (operation : string) (a : list val) (url method : string)
    (params : Legacy.fetcher_params) (text : val -> M B) :
  truthy apiKey = true ->
  (forall r, silent (text r)) ->
  forall log,
    bind (bind (emit (Call operation a))
               (fun _ => Legacy.fetcher net apiKey url method params)) text log
    = (match response_outcome (net (fetcher_request apiKey url method params)) with
       | Normal r => fst (text r [])
       | Abrupt e => Abrupt e
       end,
       (log ++ [Call operation a; Fetch (fetcher_request apiKey url method params)])%list).
Proof.
  intros Hkey Htext log. unfold bind at 1 2, emit.
  rewrite (fetcher_settled net apiKey url method params Hkey).
  rewrite <- app_assoc. simpl.
  destruct (response_outcome _) as [r | e]; [| reflexivity].
  apply (Htext r).
Qed.

(** The run of a try block of the legacy variant when a key is configured. *)
Lemma legacy_attempt_settled (net : Legacy.network) (apiKey : val)
    (t : tool) (args : arguments) :
  truthy apiKey = true ->
  In t (Legacy.tools net apiKey) ->
  exists operation a url method params (text : val -> M string),
    (forall log,
       attempt t args log =
       (match response_outcome (net (fetcher_request apiKey url method params)) with
        | Normal r => fst (text r [])
        | Abrupt e => Abrupt e
        end,
        (log ++ [Call operation a; Fetch (fetcher_request apiKey url method params)])%list)) /\
    (((method = "GET" \/ method = "DELETE") /\ Legacy.body params = VUndefined) \/
     (method = "POST" /\ Legacy.query params = None /\
      exists props, Legacy.body params = VObj props)).
Proof.
  intros Hkey Hin.
  destruct (legacy_attempt_kind net apiKey t args Hin)
    as (operation & a & url & method & params & text & Htext & -> & Hkind).
  exists operation, a, url, method, params, text.
  split; [| exact Hkind].
  now apply client_settled.
Qed.

(** X1.  When the platform answers a request of a legacy tool with an error
    status, the tool, whichever of the ten it is, returns an envelope whose
    text is its error phrase followed by [HTTP], the status and the text of
    the response body; the body is not parsed and one request was made. *)
Theorem legacy_http_error_text (net : Legacy.network) (apiKey : val)
    (res : Legacy.http_response) (body : string)
    (t : tool) (args : arguments) (log : list event) :
  truthy apiKey = true ->
  (forall request, net request = Normal res) ->
  Legacy.ok res = false ->
  Legacy.text res = Normal body ->
  In t (Legacy.tools net apiKey) ->
  exists operation a request,
    handler t args log =
    (Normal
      {| content :=
           [ {| block_type := "text";
                block_text :=
                  error_phrase t ++ "HTTP "
                  ++ num_to_string (num_of_Z (Legacy.status res)) ++ ": " ++ body |} ] |},
     (log ++ [Call operation a; Fetch request])%list).
Proof.
  intros Hkey Hnet Hok Htext Hin.
  destruct (legacy_attempt_settled net apiKey t args Hkey Hin)
    as (operation & a & url & method & params & text & Hrun & _).
  exists operation, a, (fetcher_request apiKey url method params).
  rewrite handler_run, Hrun, Hnet. unfold response_outcome.
  rewrite Hok, Htext. reflexivity.
Qed.

(** X2.  A response whose body cannot be read turns into the tool's error
    envelope as well: with a success status when [res.json()] rejects (an
    empty or non-JSON body, also after a deletion that went through), and
    with an error status when [res.text()] rejects.  The text is the error
    phrase followed by the message of that rejection. *)
Theorem legacy_unreadable_body (net : Legacy.network) (apiKey : val)
    (res : Legacy.http_response) (error : thrown)
    (t : tool) (args : arguments) (log : list event) :
  truthy apiKey = true ->
  (forall request, net request = Normal res) ->
  (Legacy.ok res = true /\ Legacy.json res = Abrupt error) \/
  (Legacy.ok res = false /\ Legacy.text res = Abrupt error) ->
  In t (Legacy.tools net apiKey) ->
  exists operation a request,
    handler t args log =
    (Normal
      {| content :=
           [ {| block_type := "text";
                block_text := error_phrase t ++ error_text error |} ] |},
     (log ++ [Call operation a; Fetch request])%list).
Proof.
  intros Hkey Hnet Hbody Hin.
  destruct (legacy_attempt_settled net apiKey t args Hkey Hin)
    as (operation & a & url & method & params & text & Hrun & _).
  exists operation, a, (fetcher_request apiKey url method params).
  rewrite handler_run, Hrun, Hnet. unfold response_outcome.
  destruct Hbody as [[Hok Hjson] | [Hok Htext]].
  - rewrite Hok, Hjson. reflexivity.
  - rewrite Hok, Htext. reflexivity.
Qed.

(** X3.  With a key configured, every invocation of a legacy tool issues
    exactly one network request.  Its URL lies under the base URL of the
    platform and its first header is [Authorization: Bearer] with the key.
    A GET or DELETE request has no body and no other header; a POST request
    has a JSON object as body and the JSON content type as its second and
    last header. *)
Theorem legacy_request_shape (net : Legacy.network) (apiKey : val)
    (t : tool) (args : arguments) (log : list event) :
  truthy apiKey = true ->
  In t (Legacy.tools net apiKey) ->
  exists operation a request,
    snd (handler t args log) = (log ++ [Call operation a; Fetch request])%list /\
    String.prefix Legacy.BASE_URL (req_url request) = true /\
    (((req_method request = "GET" \/ req_method request = "DELETE") /\
      req_body request = None /\
      req_headers request = [authorization apiKey]) \/
     (req_method request = "POST" /\
      (exists members, req_body request = Some (VObj members)) /\
      req_headers request = [authorization apiKey; json_content_type])).
Proof.
  intros Hkey Hin.
  destruct (legacy_attempt_settled net apiKey t args Hkey Hin)
    as (operation & a & url & method & params & text & Hrun & Hkind).
  exists operation, a, (fetcher_request apiKey url method params).
  split; [rewrite handler_run, Hrun; reflexivity |].
  split; [apply prefix_append |].
  unfold fetcher_request. simpl.
  destruct Hkind as [[Hmethod Hbody] | (-> & Hquery & props & Hbody)].
  - left. rewrite Hbody. simpl. rewrite andb_false_r.
    split; [exact Hmethod | split; reflexivity].
  - right. rewrite Hbody. simpl.
    split; [reflexivity | split; [eexists; reflexivity | reflexivity]].
Qed.

End Requests.

(** ** What reaches the URL, the query and the body *)

(** Running a handler of the legacy variant up to the request it issues. *)
Ltac legacy_request Hkey :=
  rewrite handler_run; cbn [attempt];
  cbv beta zeta delta
    [Legacy.create_chat Legacy.get_chat Legacy.add_message Legacy.find_chats
     Legacy.create_project Legacy.find_projects Legacy.get_user_info
     Legacy.get_user_plan Legacy.check_rate_limits Legacy.delete_chat
     Legacy.chats_create Legacy.chats_getById Legacy.chats_createMessage
     Legacy.chats_find Legacy.chats_delete Legacy.projects_create
     Legacy.projects_find Legacy.user_get Legacy.user_getPlan
     Legacy.rateLimits_find];
  rewrite (client_settled _ _ _ _ _ _ _ _ Hkey)
    by (unfold Legacy.chat_lines, Legacy.project_lines; silence);
  reflexivity.

Section Wire.
Context {host : Host}.

Abbreviation val := (value number).

(** X4.  Of the arguments of a legacy tool only [chatId], [limit] and
    [offset] reach the URL of its request: two invocations of the same tool
    that agree on these three send the same method to the same URL with the
    same headers, whatever message, prompt, name or description they carry.
    Those travel in the body only. *)
Theorem legacy_url_ignores_content (net : Legacy.network) (apiKey : val)
    (t : tool) (args args' : arguments) (log log' : list event) :
  truthy apiKey = true ->
  In t (Legacy.tools net apiKey) ->
  agree_on ["chatId"; "limit"; "offset"] args args' ->
  exists operation a a' request request',
    snd (handler t args log) = (log ++ [Call operation a; Fetch request])%list /\
    snd (handler t args' log') = (log' ++ [Call operation a'; Fetch request'])%list /\
    req_url request = req_url request' /\
    req_method request = req_method request' /\
    req_headers request = req_headers request'.
Proof.
  intros Hkey Hin Hagree.
  assert (lookup "chatId" args = lookup "chatId" args') as Hchat
    by (apply Hagree; simpl; tauto).
  assert (lookup "limit" args = lookup "limit" args') as Hlimit
    by (apply Hagree; simpl; tauto).
  assert (lookup "offset" args = lookup "offset" args') as Hoffset
    by (apply Hagree; simpl; tauto).
  unfold Legacy.tools in Hin.
  repeat (destruct Hin as [<- | Hin];
          [ do 5 eexists;
            split; [legacy_request Hkey |];
            split; [legacy_request Hkey |];
            unfold fetcher_request; cbn [req_url req_method req_headers];
            rewrite ?Hchat, ?Hlimit, ?Hoffset;
            split; [reflexivity | split; reflexivity]
          |]).
  destruct Hin.
Qed.

(** The entries that survive the filter of [undefined] values, as they are
    handed to [URLSearchParams]. *)
Lemma defined_entries_In (o : list (string * val)) (k s : string) :
  In (k, s) (map (fun p => (fst p, to_string (snd p))) (Legacy.defined_entries o)) <->
  exists v, In (k, v) o /\ v <> VUndefined /\ s = to_string v.
Proof.
  unfold Legacy.defined_entries. rewrite in_map_iff. split.
  - intros ([k' v] & Heq & Hin). apply filter_In in Hin. destruct Hin as [Hin Hdef].
    simpl in *. injection Heq as <- <-.
    exists v. split; [exact Hin | split; [| reflexivity]].
    intros ->. discriminate Hdef.
  - intros (v & Hin & Hdef & ->). exists (k, v). split; [reflexivity |].
    apply filter_In. split; [exact Hin |].
    simpl. destruct v; try reflexivity. contradiction.
Qed.

(** The request of a client method that sends the entries [o] as its
    query: there is a query string exactly when an entry is left. *)
Lemma query_request (apiKey : val) (url : string) (o : list (string * val)) :
  let q := map (fun p => (fst p, to_string (snd p))) (Legacy.defined_entries o) in
  let request :=
    fetcher_request apiKey url "GET" (Legacy.query_params (Legacy.defined_entries o)) in
  req_method request = "GET" /\ req_body request = None /\
  req_url request =
  Legacy.BASE_URL ++ url ++
  match q with
  | [] => ""
  | _ => "?" ++ url_search_params q
  end.
Proof.
  intros q request. subst q request.
  unfold fetcher_request, Legacy.query_params.
  destruct (Legacy.defined_entries o) as [| p rest].
  - split; [reflexivity | split; reflexivity].
  - assert ((0 <? Z.of_nat (length (p :: rest)))%Z = true) as ->
      by (apply Z.ltb_lt; simpl; lia).
    split; [reflexivity | split; reflexivity].
Qed.

(** X5.  The client methods [chats.find] and [rateLimits.find] send as
    query exactly the parameters that are not [undefined]: [limit],
    [offset] and [isFavorite] for the first, [scope] for the second, each
    with its value converted to a string ([null] is sent as such).  When
    no parameter is left, or the method is called without parameters, the
    URL has no query string at all.  The request is a GET without body. *)
Theorem find_methods_query (net : Legacy.network) (apiKey : val) (log : list event) :
  truthy apiKey = true ->
  (forall p,
     exists c request q,
       Legacy.chats_find net apiKey p log =
       (c, (log ++ [Call "chats.find" (match p with Some o => [VObj o] | None => [] end);
                    Fetch request])%list) /\
       req_method request = "GET" /\ req_body request = None /\
       req_url request =
       "https://api.v0.dev/v1/chats" ++
       match q with [] => "" | _ => "?" ++ url_search_params q end /\
       (forall k s,
          In (k, s) q <->
          exists o, p = Some o /\ In k ["limit"; "offset"; "isFavorite"] /\
                    lookup k o <> VUndefined /\ s = to_string (lookup k o))) /\
  (forall p,
     exists c request q,
       Legacy.rateLimits_find net apiKey p log =
       (c, (log ++ [Call "rateLimits.find" (match p with Some o => [VObj o] | None => [] end);
                    Fetch request])%list) /\
       req_method request = "GET" /\ req_body request = None /\
       req_url request =
       "https://api.v0.dev/v1/rate-limits" ++
       match q with [] => "" | _ => "?" ++ url_search_params q end /\
       (forall k s,
          In (k, s) q <->
          exists o, p = Some o /\ k = "scope" /\
                    lookup k o <> VUndefined /\ s = to_string (lookup k o))).
Proof.
  intro Hkey. split; intro p.
  - unfold Legacy.chats_find.
    set (entries :=
           match p with
           | Some o => [("limit", lookup "limit" o); ("offset", lookup "offset" o);
                        ("isFavorite", lookup "isFavorite" o)]
           | None => []
           end).
    assert (match p with
            | Some o =>
                Legacy.defined_entries
                  [("limit", lookup "limit" o); ("offset", lookup "offset" o);
                   ("isFavorite", lookup "isFavorite" o)]
            | None => []
            end = Legacy.defined_entries entries) as -> by now destruct p.
    destruct (query_request apiKey "/chats" entries) as (Hmethod & Hbody & Hurl).
    eexists. eexists.
    exists (map (fun p => (fst p, to_string (snd p))) (Legacy.defined_entries entries)).
    split; [| split; [exact Hmethod | split; [exact Hbody | split; [exact Hurl |]]]].
    + unfold bind at 1, emit.
      rewrite (fetcher_settled net apiKey _ _ _ Hkey), <- app_assoc. reflexivity.
    + intros k s. rewrite defined_entries_In. subst entries. split.
      * intros (v & Hin & Hdef & ->). destruct p as [o |]; [| destruct Hin].
        exists o. split; [reflexivity |].
        simpl in Hin.
        destruct Hin as [Hin | [Hin | [Hin | []]]];
          injection Hin as <- <-; (split; [simpl; tauto | now split]).
      * intros (o & -> & Hk & Hdef & ->).
        exists (lookup k o). split; [| now split].
        simpl in Hk. destruct Hk as [<- | [<- | [<- | []]]]; simpl; tauto.
  - unfold Legacy.rateLimits_find.
    set (entries :=
           match p with
           | Some o => [("scope", lookup "scope" o)]
           | None => []
           end).
    assert (match p with
            | Some o => Legacy.defined_entries [("scope", lookup "scope" o)]
            | None => []
            end = Legacy.defined_entries entries) as -> by now destruct p.
    destruct (query_request apiKey "/rate-limits" entries) as (Hmethod & Hbody & Hurl).
    eexists. eexists.
    exists (map (fun p => (fst p, to_string (snd p))) (Legacy.defined_entries entries)).
    split; [| split; [exact Hmethod | split; [exact Hbody | split; [exact Hurl |]]]].
    + unfold bind at 1, emit.
      rewrite (fetcher_settled net apiKey _ _ _ Hkey), <- app_assoc. reflexivity.
    + intros k s. rewrite defined_entries_In. subst entries. split.
      * intros (v & Hin & Hdef & ->). destruct p as [o |]; [| destruct Hin].
        exists o. split; [reflexivity |].
        simpl in Hin. destruct Hin as [Hin | []].
        injection Hin as <- <-. now split.
      * intros (o & -> & -> & Hdef & ->).
        exists (lookup "scope" o). split; [| now split]. simpl. tauto.
Qed.

#[local] Arguments json_tree : simpl never.
#[local] Arguments json_members : simpl never.

(** X6.  The body a legacy tool posts holds a member for an argument only
    when the caller supplied it: [create_chat] writes [message], [system]
    and [chatPrivacy] when they are defined and [modelConfiguration] when a
    model id is given, [add_message] writes [message], [create_project]
    writes [name] and [description].  The members the client could also
    send ([attachments], [projectId], [icon], [environmentVariables],
    [instructions]) are never written, and nothing is written as [null] in
    place of an omitted argument. *)
Theorem legacy_post_bodies (net : Legacy.network) (apiKey : val)
    (args : arguments) (log : list event) :
  truthy apiKey = true ->
  let supplied k := defined (lookup k args) in
  (exists a request members,
     snd (Legacy.create_chat net apiKey args log) =
       (log ++ [Call "chats.create" a; Fetch request])%list /\
     req_body request = Some (VObj members) /\
     forall k,
       has_key k members =
       (String.eqb k "message" && supplied "message")
       || (String.eqb k "system" && supplied "system")
       || (String.eqb k "chatPrivacy" && supplied "chatPrivacy")
       || (String.eqb k "modelConfiguration" && truthy (lookup "modelId" args))) /\
  (exists a request members,
     snd (Legacy.add_message net apiKey args log) =
       (log ++ [Call "chats.createMessage" a; Fetch request])%list /\
     req_body request = Some (VObj members) /\
     forall k, has_key k members = String.eqb k "message" && supplied "message") /\
  (exists a request members,
     snd (Legacy.create_project net apiKey args log) =
       (log ++ [Call "projects.create" a; Fetch request])%list /\
     req_body request = Some (VObj members) /\
     forall k,
       has_key k members =
       (String.eqb k "name" && supplied "name")
       || (String.eqb k "description" && supplied "description")).
Proof.
  intros Hkey supplied. subst supplied.
  split; [| split].
  - unfold Legacy.create_chat, Legacy.chats_create. cbv zeta.
    do 3 eexists. split; [| split].
    + rewrite (client_settled _ _ _ _ _ _ _ _ Hkey) by silence. reflexivity.
    + apply post_request_body.
    + intro k. rewrite json_members_has_key. simpl.
      rewrite ?andb_false_r, ?orb_false_r, ?orb_false_l.
      destruct (truthy (lookup "modelId" args)); simpl;
        rewrite ?andb_false_r, ?andb_true_r, ?orb_false_r, ?orb_assoc; reflexivity.
  - unfold Legacy.add_message, Legacy.chats_createMessage. cbv zeta.
    do 3 eexists. split; [| split].
    + rewrite (client_settled _ _ _ _ _ _ _ _ Hkey) by silence. reflexivity.
    + apply post_request_body.
    + intro k. rewrite json_members_has_key. simpl.
      rewrite ?andb_false_r, ?orb_false_r, ?orb_false_l, ?orb_assoc. reflexivity.
  - unfold Legacy.create_project, Legacy.projects_create. cbv zeta.
    do 3 eexists. split; [| split].
    + rewrite (client_settled _ _ _ _ _ _ _ _ Hkey) by silence. reflexivity.
    + apply post_request_body.
    + intro k. rewrite json_members_has_key. simpl.
      rewrite ?andb_false_r, ?orb_false_r, ?orb_false_l, ?orb_assoc. reflexivity.
Qed.

End Wire.

(** ** The arguments a handler reads *)

Section Arguments.
Context {host : Host}.

Abbreviation val := (value number).

(** X7.  A handler reads of its argument object only the parameters its
    schema declares: two argument objects, each holding every key once, that
    agree on the declared parameters give the same envelope and the same
    upstream call, in every tool of both registries.  Fields the schema does
    not declare and the order of the fields make no difference. *)
Theorem handler_reads_declared_fields (registry : list tool) (t : tool)
    (args args' : arguments) (log : list event) :
  registered registry -> In t registry ->
  argument_object args -> argument_object args' ->
  agree_on (map fst (schema t)) args args' ->
  handler t args log = handler t args' log.
Proof.
  intros Hreg Hin _ _ Hagree.
  assert (attempt t args = attempt t args') as Hattempt.
  { unfold agree_on in Hagree.
    destruct Hreg as [(net & apiKey & ->) | (createClient & apiKey & ->)].
    - unfold Legacy.tools in Hin.
      repeat (destruct Hin as [<- | Hin];
              [ cbn [attempt schema map fst] in *;
                match goal with
                | |- ?f _ _ _ args = _ => unfold f
                end;
                cbv zeta;
                repeat match goal with
                       | |- context [lookup ?k args] =>
                           rewrite (Hagree k) by (simpl; tauto)
                       end;
                reflexivity
              |]).
      destruct Hin.
    - unfold V2.tools in Hin.
      repeat (destruct Hin as [<- | Hin];
              [ cbn [attempt schema map fst] in *;
                match goal with
                | |- ?f _ _ _ args = _ => unfold f
                end;
                cbv zeta;
                repeat match goal with
                       | |- context [lookup ?k args] =>
                           rewrite (Hagree k) by (simpl; tauto)
                       end;
                reflexivity
              |]).
      destruct Hin. }
  unfold handler. now rewrite Hattempt.
Qed.

End Arguments.

(** ** The listing tools on answers of every shape *)

Section ListingShapes.
Context {host : Host}.

Abbreviation val := (value number).

Lemma append_inj_l (s a b : string) : s ++ a = s ++ b -> a = b.
Proof.
  induction s as [| c s IH]; simpl; intro H; [exact H |].
  injection H as H. now apply IH.
Qed.

(** The text of a listing whose answer has no [data]. *)
Lemma listing_text_absent (noun empty : string) (lines : val -> M (list string))
    (props : list (string * val)) :
  truthy (lookup "data" props) = false ->
  forall log,
    listing_text noun empty lines (VObj props) log =
    (Normal (nothing_found noun empty), log).
Proof.
  intros H log. unfold listing_text, bind. simpl. rewrite H. reflexivity.
Qed.

(** The text of a listing whose answer has an array as [data], by the
    outcome of the tool's [map]. *)
Lemma listing_text_array (noun empty : string) (lines : val -> M (list string))
    (props : list (string * val)) (items : list val)
    (c : completion (list string)) :
  lookup "data" props = VArr items ->
  (forall log, lines (VArr items) log = (c, log)) ->
  forall log,
    listing_text noun empty lines (VObj props) log =
    (match c with
     | Normal ls => Normal (listing (length items) noun ls)
     | Abrupt e => Abrupt e
     end, log).
Proof.
  intros Hdata Hlines log. unfold listing_text, bind. simpl.
  rewrite Hdata. simpl. rewrite Hlines.
  destruct c as [ls | e]; reflexivity.
Qed.

(** The text of a listing whose [data] is truthy and has no working [map]. *)
Lemma listing_text_failure (noun empty : string) (lines : val -> M (list string))
    (props : list (string * val)) (e : thrown) :
  truthy (lookup "data" props) = true ->
  (forall log, lines (lookup "data" props) log = (Abrupt e, log)) ->
  forall log,
    listing_text noun empty lines (VObj props) log = (Abrupt e, log).
Proof.
  intros Htruthy Hlines log. unfold listing_text, bind. simpl.
  rewrite Htruthy, Hlines. reflexivity.
Qed.



(** The try block of a listing tool of the SDK variant: one client call,
    then the listing text over the tool's [data.map(...)]. *)
Lemma v2_listing_shape (createClient : val -> V2.sdk_client) (apiKey : val)
    (t : tool) (noun empty : string) (args : arguments) :
  In t (V2.tools createClient apiKey) ->
  In (name t, (noun, empty)) v2_listings ->
  exists operation a callee (f : val -> M string),
    attempt t args =
      bind (V2.v0 createClient apiKey operation a)
           (listing_text noun empty (fun data => js_map callee data f)) /\
    (forall x, silent (f x)) /\
    empty <> "" /\
    (existsb (String.eqb (name t)) plain_listings = true -> reads_properties f).
Proof.
  intros Hin Htable. unfold V2.tools in Hin.
  repeat
    (destruct Hin as [<- | Hin];
     [ simpl in Htable;
       repeat
         (destruct Htable as [Htable | Htable];
          [ apply pair_equal_spec in Htable; destruct Htable as [Hn Hwords];
            first
              [ discriminate Hn
              | apply pair_equal_spec in Hwords; destruct Hwords as [<- <-];
                do 4 eexists;
                (split; [reflexivity | split; [silence | split; [discriminate |]]]);
                first
                  [ intro Hplain; discriminate Hplain
                  | intros _; split; intros x Hx;
                    destruct x; try discriminate Hx;
                    eexists; intro log; reflexivity ] ]
          | ]);
       contradiction
     | ]).
  destruct Hin.
Qed.

(** The listing of an SDK tool on an object answer. *)
Lemma v2_listing_on_object (createClient : val -> V2.sdk_client) (apiKey : val)
    (props : list (string * val)) (t : tool) (noun empty : string)
    (args : arguments) :
  (forall operation a, createClient apiKey operation a = Normal (VObj props)) ->
  In t (V2.tools createClient apiKey) ->
  In (name t, (noun, empty)) v2_listings ->
  exists callee (f : val -> M string),
    (forall log,
       fst (handler t args log) =
       Normal (outcome_envelope t
                 (fst (listing_text noun empty (fun data => js_map callee data f)
                         (VObj props) [])))) /\
    empty <> "" /\
    (existsb (String.eqb (name t)) plain_listings = true -> reads_properties f).
Proof.
  intros Hcc Hin Htable.
  destruct (v2_listing_shape createClient apiKey t noun empty args Hin Htable)
    as (operation & a & callee & f & Hattempt & Hsilent & Hempty & Hplain).
  exists callee, f. split; [| split; [exact Hempty | exact Hplain]].
  intro log. rewrite handler_run, Hattempt.
  rewrite v0_bind_run
    by (intro r; apply silent_listing_text; intro data; now apply silent_js_map).
  now rewrite Hcc.
Qed.

(** The two listing tools of the legacy variant on an object answer. *)
Lemma legacy_find_chats_on_object (net : Legacy.network) (apiKey : val)
    (res : Legacy.http_response) (props : list (string * val)) (args : arguments) :
  truthy apiKey = true ->
  (forall request, net request = Normal res) ->
  Legacy.ok res = true ->
  Legacy.json res = Normal (VObj props) ->
  forall log,
    fst (Legacy.find_chats net apiKey args log) =
    fst (listing_text "chats" "No chats found"
           (fun data => Legacy.chat_lines data (number_or (lookup "limit" args) 10))
           (VObj props) []).
Proof.
  intros Hkey Hnet Hok Hjson log.
  unfold Legacy.find_chats, Legacy.chats_find. cbv zeta.
  rewrite (client_settled _ _ _ _ _ _ _ _ Hkey)
    by (intro r; apply silent_listing_text; intro data;
        unfold Legacy.chat_lines; silence).
  rewrite Hnet. unfold response_outcome. now rewrite Hok, Hjson.
Qed.

Lemma legacy_find_projects_on_object (net : Legacy.network) (apiKey : val)
    (res : Legacy.http_response) (props : list (string * val)) (args : arguments) :
  truthy apiKey = true ->
  (forall request, net request = Normal res) ->
  Legacy.ok res = true ->
  Legacy.json res = Normal (VObj props) ->
  forall log,
    fst (Legacy.find_projects net apiKey args log) =
    fst (listing_text "projects" "No projects found"
           (fun data =>
              Legacy.project_lines data (number_or (lookup "limit" args) 10)
                (number_or (lookup "offset" args) 0))
           (VObj props) []).
Proof.
  intros Hkey Hnet Hok Hjson log.
  unfold Legacy.find_projects, Legacy.projects_find. cbv zeta.
  rewrite (client_settled _ _ _ _ _ _ _ _ Hkey)
    by (intro r; apply silent_listing_text; intro data;
        unfold Legacy.project_lines; silence).
  rewrite Hnet. unfold response_outcome. now rewrite Hok, Hjson.
Qed.



Lemma different_texts (noun empty : string) :
  empty <> "" -> listing 0 noun [] <> nothing_found noun empty.
Proof.
  intros Hempty H. unfold listing, nothing_found in H.
  do 7 (apply append_inj_l in H).
  apply Hempty. symmetry. exact H.
Qed.

(** X8.  A listing tool tells an empty list from a missing one.  When the
    [data] of the answer is an empty array the text is the header
    [Found 0 ...:] with nothing under it; the sentence that nothing was
    found is shown only when [data] is falsy (absent, [null], ...), also
    under the header with count zero.  The two texts differ.  This holds for
    the seven listing tools of the SDK variant and the two of the legacy
    variant, whatever the pagination arguments are. *)
Theorem listing_of_nothing :
  (forall createClient apiKey props t noun empty args log,
     (forall operation a, createClient apiKey operation a = Normal (VObj props)) ->
     In t (V2.tools createClient apiKey) ->
     In (name t, (noun, empty)) v2_listings ->
     (lookup "data" props = VArr [] ->
      fst (handler t args log) = Normal
        {| content :=
             [ {| block_type := "text";
                  block_text := listing 0 noun [] |} ] |}) /\
     (truthy (lookup "data" props) = false ->
      fst (handler t args log) = Normal
        {| content :=
             [ {| block_type := "text";
                  block_text := nothing_found noun empty |} ] |}) /\
     listing 0 noun [] <> nothing_found noun empty) /\
  (forall net apiKey res props args log,
     truthy apiKey = true ->
     (forall request, net request = Normal res) ->
     Legacy.ok res = true ->
     Legacy.json res = Normal (VObj props) ->
     (lookup "data" props = VArr [] ->
      fst (Legacy.find_chats net apiKey args log) = Normal (listing 0 "chats" []) /\
      fst (Legacy.find_projects net apiKey args log) = Normal (listing 0 "projects" [])) /\
     (truthy (lookup "data" props) = false ->
      fst (Legacy.find_chats net apiKey args log) =
        Normal (nothing_found "chats" "No chats found") /\
      fst (Legacy.find_projects net apiKey args log) =
        Normal (nothing_found "projects" "No projects found"))).
Proof.
  split.
  - intros createClient apiKey props t noun empty args log Hcc Hin Htable.
    destruct (v2_listing_on_object createClient apiKey props t noun empty args
                Hcc Hin Htable) as (callee & f & Hrun & Hempty & _).
    split; [| split].
    + intro Hdata. rewrite Hrun.
      rewrite (listing_text_array noun empty _ props [] (Normal []) Hdata)
        by (intro l; reflexivity).
      reflexivity.
    + intro Hdata. rewrite Hrun.
      rewrite (listing_text_absent noun empty _ props Hdata). reflexivity.
    + now apply different_texts.
  - intros net apiKey res props args log Hkey Hnet Hok Hjson.
    rewrite (legacy_find_chats_on_object net apiKey res props args Hkey Hnet Hok Hjson).
    rewrite (legacy_find_projects_on_object net apiKey res props args Hkey Hnet Hok Hjson).
    split; intro Hdata.
    + split.
      * rewrite (listing_text_array _ _ _ props [] (Normal []) Hdata); [reflexivity |].
        intro l. unfold Legacy.chat_lines, bind, js_slice, ret, slice_list.
        now rewrite skipn_nil, firstn_nil.
      * rewrite (listing_text_array _ _ _ props [] (Normal []) Hdata); [reflexivity |].
        intro l. unfold Legacy.project_lines, bind, js_slice, ret, slice_list.
        now rewrite skipn_nil, firstn_nil.
    + split; now rewrite (listing_text_absent _ _ _ props Hdata).
Qed.


(** [data.slice(...).map(...)] on a truthy [data] that is not an array. *)
Lemma legacy_chat_lines_not_array (data : val) (limit : number) :
  truthy data = true ->
  (forall items, data <> VArr items) ->
  exists callee, forall log,
    Legacy.chat_lines data limit log =
    (Abrupt (ErrorObject (msg_not_a_function callee)), log).
Proof.
  intros Htruthy Harray.
  destruct data; try discriminate Htruthy; try (now destruct (Harray items));
    eexists; intro log; reflexivity.
Qed.

Lemma legacy_project_lines_not_array (data : val) (limit offset : number) :
  truthy data = true ->
  (forall items, data <> VArr items) ->
  exists callee, forall log,
    Legacy.project_lines data limit offset log =
    (Abrupt (ErrorObject (msg_not_a_function callee)), log).
Proof.
  intros Htruthy Harray.
  destruct data; try discriminate Htruthy; try (now destruct (Harray items));
    eexists; intro log; reflexivity.
Qed.

(** X10.  When the [data] of the answer is truthy but not an array (an
    object, a string, a number, [true]), every listing tool of both variants
    ends in its error envelope: the text is the error phrase followed by the
    message that the method it calls on [data] is not a function.  No line
    is rendered. *)
Theorem listing_data_not_an_array :
  (forall createClient apiKey props t noun empty args log,
     (forall operation a, createClient apiKey operation a = Normal (VObj props)) ->
     In t (V2.tools createClient apiKey) ->
     In (name t, (noun, empty)) v2_listings ->
     truthy (lookup "data" props) = true ->
     (forall items, lookup "data" props <> VArr items) ->
     exists callee,
       fst (handler t args log) =
       Normal
         {| content :=
              [ {| block_type := "text";
                   block_text := error_phrase t ++ msg_not_a_function callee |} ] |}) /\
  (forall net apiKey res props args log,
     truthy apiKey = true ->
     (forall request, net request = Normal res) ->
     Legacy.ok res = true ->
     Legacy.json res = Normal (VObj props) ->
     truthy (lookup "data" props) = true ->
     (forall items, lookup "data" props <> VArr items) ->
     (exists callee,
        fst (Legacy.find_chats net apiKey args log) =
        Abrupt (ErrorObject (msg_not_a_function callee))) /\
     (exists callee,
        fst (Legacy.find_projects net apiKey args log) =
        Abrupt (ErrorObject (msg_not_a_function callee)))).
Proof.
  split.
  - intros createClient apiKey props t noun empty args log
      Hcc Hin Htable Htruthy Harray.
    destruct (v2_listing_on_object createClient apiKey props t noun empty args
                Hcc Hin Htable) as (callee & f & Hrun & _ & _).
    exists callee. rewrite Hrun.
    rewrite (listing_text_failure noun empty _ props
               (ErrorObject (msg_not_a_function callee)) Htruthy); [reflexivity |].
    intro l. destruct (lookup "data" props) eqn:E; try discriminate Htruthy;
      try reflexivity.
    now destruct (Harray items).
  - intros net apiKey res props args log Hkey Hnet Hok Hjson Htruthy Harray.
    rewrite (legacy_find_chats_on_object net apiKey res props args Hkey Hnet Hok Hjson).
    rewrite (legacy_find_projects_on_object net apiKey res props args Hkey Hnet Hok Hjson).
    split.
    + destruct (legacy_chat_lines_not_array (lookup "data" props)
                  (number_or (lookup "limit" args) 10) Htruthy Harray) as [callee Hlines].
      exists callee.
      now rewrite (listing_text_failure _ _ _ props _ Htruthy Hlines).
    + destruct (legacy_project_lines_not_array (lookup "data" props)
                  (number_or (lookup "limit" args) 10)
                  (number_or (lookup "offset" args) 0) Htruthy Harray)
        as [callee Hlines].
      exists callee.
      now rewrite (listing_text_failure _ _ _ props _ Htruthy Hlines).
Qed.

End ListingShapes.

(** ** What a handler makes of the answer *)

Section Answers.
Context {host : Host}.

Abbreviation val := (value number).

(** X11.  The tools that only confirm an action never look at the upstream
    answer.  In the SDK variant, [favorite_chat], [delete_chat],
    [assign_project_to_chat], [delete_deployment] and [delete_hook] return
    the same envelope for the same arguments whatever two clients resolve
    their calls to, [undefined] and [null] included.  In the legacy variant
    [delete_chat] returns its confirmation, which quotes the [chatId] of the
    caller, for every parsed body of a response with a success status. *)
Theorem confirmation_ignores_answer :
  (forall createClient createClient' apiKey apiKey' t t' args log log',
     (forall operation a, exists r, createClient apiKey operation a = Normal r) ->
     (forall operation a, exists r, createClient' apiKey' operation a = Normal r) ->
     In t (V2.tools createClient apiKey) ->
     In t' (V2.tools createClient' apiKey') ->
     name t = name t' ->
     existsb (String.eqb (name t)) answer_ignoring = true ->
     fst (handler t args log) = fst (handler t' args log')) /\
  (forall net apiKey res r t args log,
     truthy apiKey = true ->
     (forall request, net request = Normal res) ->
     Legacy.ok res = true ->
     Legacy.json res = Normal r ->
     In t (Legacy.tools net apiKey) ->
     name t = "delete_chat" ->
     fst (handler t args log) =
     Normal
       {| content :=
            [ {| block_type := "text";
                 block_text :=
                   "Chat " ++ to_string (lookup "chatId" args)
                   ++ " deleted successfully!" |} ] |}).
Proof.
  split.
  - intros createClient createClient' apiKey apiKey' t t' args log log'
      Hcc Hcc' Hin Hin' Hname Hignoring.
    unfold V2.tools in Hin.
    repeat
      (destruct Hin as [<- | Hin];
       [ first
           [ discriminate Hignoring
           | clear Hignoring; unfold V2.tools in Hin';
             repeat
               (destruct Hin' as [<- | Hin'];
                [ first
                    [ discriminate Hname
                    | rewrite !handler_run; cbn [attempt];
                      match goal with
                      | |- context [?f _ _ _ args log] => unfold f
                      end;
                      cbv zeta;
                      rewrite !v0_bind_run by silence;
                      match goal with
                      | |- context [createClient apiKey ?op ?a] =>
                          destruct (Hcc op a) as [r ->]
                      end;
                      match goal with
                      | |- context [createClient' apiKey' ?op ?a] =>
                          destruct (Hcc' op a) as [r' ->]
                      end;
                      reflexivity ]
                | ]);
             destruct Hin' ]
       | ]).
    destruct Hin.
  - intros net apiKey res r t args log Hkey Hnet Hok Hjson Hin Hname.
    unfold Legacy.tools in Hin.
    repeat (destruct Hin as [<- | Hin]; [try discriminate Hname |]);
      [| destruct Hin].
    rewrite handler_run. cbn [attempt].
    unfold Legacy.delete_chat, Legacy.chats_delete. cbv zeta.
    rewrite (client_settled _ _ _ _ _ _ _ _ Hkey) by silence.
    rewrite Hnet. unfold response_outcome. rewrite Hok, Hjson. reflexivity.
Qed.



(** X19.  An answer that is [null] or [undefined] is fatal exactly for the
    tools that read a property of it: their envelope is the error phrase
    followed by the message of the failed read.  The tools that ignore the
    answer or only print it return their success text on such an answer
    too; among them [update_chat_version_files], which leaves the answer
    unbound and counts the [files] of its own argument, an array by its
    schema.  The three groups are all the tools. *)
Theorem nullish_answer :
  (forall createClient apiKey r t args log,
     (forall operation a, createClient apiKey operation a = Normal r) ->
     nullish r = true ->
     In t (V2.tools createClient apiKey) ->
     (existsb (String.eqb (name t)) ("update_chat_version_files" :: prints_or_ignores)
      = false ->
      exists b k,
        fst (handler t args log) =
        Normal
          {| content :=
               [ {| block_type := "text";
                    block_text := error_phrase t ++ msg_cannot_read b k |} ] |}) /\
     (existsb (String.eqb (name t)) prints_or_ignores = true ->
      exists text,
        fst (handler t args log) =
        Normal {| content := [ {| block_type := "text"; block_text := text |} ] |} /\
        fst (attempt t args log) = Normal text /\
        String.prefix "Error " text = false) /\
     (name t = "update_chat_version_files" ->
      forall items,
        lookup "files" args = VArr items ->
        fst (handler t args log) =
        Normal
          {| content :=
               [ {| block_type := "text";
                    block_text :=
                      "Version files updated successfully!" ++ nl ++ nl ++ "Updated "
                      ++ num_to_string (num_of_Z (Z.of_nat (length items)))
                      ++ " files." |} ] |}) /\
     (existsb (String.eqb (name t)) ("update_chat_version_files" :: prints_or_ignores)
      = false \/
      existsb (String.eqb (name t)) prints_or_ignores = true \/
      name t = "update_chat_version_files")) /\
  (forall net apiKey res r t args log,
     truthy apiKey = true ->
     (forall request, net request = Normal res) ->
     Legacy.ok res = true ->
     Legacy.json res = Normal r ->
     nullish r = true ->
     In t (Legacy.tools net apiKey) ->
     (existsb (String.eqb (name t)) legacy_prints_or_ignores = false ->
      exists b k,
        fst (handler t args log) =
        Normal
          {| content :=
               [ {| block_type := "text";
                    block_text := error_phrase t ++ msg_cannot_read b k |} ] |}) /\
     (existsb (String.eqb (name t)) legacy_prints_or_ignores = true ->
      exists text,
        fst (handler t args log) =
        Normal {| content := [ {| block_type := "text"; block_text := text |} ] |} /\
        fst (attempt t args log) = Normal text /\
        String.prefix "Error " text = false)).
Proof.
  split.
  - intros createClient apiKey r t args log Hcc Hr Hin.
    unfold V2.tools in Hin.
    repeat
      (destruct Hin as [<- | Hin];
       [ split; [| split; [| split]];
         [ intro Hlist
         | intro Hlist
         | intros Hlist items Hfiles
         | cbn [name]; vm_compute; tauto ];
         first
           [ discriminate Hlist
           | rewrite ?handler_run; cbn [attempt error_phrase];
             match goal with
             | |- context [?f _ _ _ args log] => unfold f
             end;
             cbv zeta;
             rewrite v0_bind_run by silence;
             rewrite Hcc;
             destruct r; try discriminate Hr;
             first [ rewrite Hfiles; reflexivity | repeat eexists ] ]
       | ]).
    destruct Hin.
  - intros net apiKey res r t args log Hkey Hnet Hok Hjson Hr Hin.
    unfold Legacy.tools in Hin.
    repeat
      (destruct Hin as [<- | Hin];
       [ split; intro Hlist;
         first
           [ discriminate Hlist
           | rewrite ?handler_run; cbn [attempt error_phrase];
             cbv beta zeta delta
               [Legacy.create_chat Legacy.get_chat Legacy.add_message Legacy.find_chats
                Legacy.create_project Legacy.find_projects Legacy.get_user_info
                Legacy.get_user_plan Legacy.check_rate_limits Legacy.delete_chat
                Legacy.chats_create Legacy.chats_getById Legacy.chats_createMessage
                Legacy.chats_find Legacy.chats_delete Legacy.projects_create
                Legacy.projects_find Legacy.user_get Legacy.user_getPlan
                Legacy.rateLimits_find];
             rewrite (client_settled _ _ _ _ _ _ _ _ Hkey)
               by (unfold Legacy.chat_lines, Legacy.project_lines; silence);
             rewrite Hnet; unfold response_outcome; rewrite Hok, Hjson;
             destruct r; try discriminate Hr;
             repeat eexists ]
       | ]).
    destruct Hin.
Qed.

End Answers.

(** ** Routing, registrations and pages *)

Section Routing.
Context {host : Host}.

Abbreviation val := (value number).

Lemma served_path_cases (p : string) :
  (String.eqb p "/sse" || String.eqb p "/sse/message" = true <->
   p = "/sse" \/ p = "/sse/message") /\
  (String.eqb p "/mcp" = true <-> p = "/mcp").
Proof.
  split.
  - rewrite orb_true_iff, !String.eqb_eq. tauto.
  - apply String.eqb_eq.
Qed.

(** X14.  [fetch] decides by the path alone where a request goes: [/sse] and
    [/sse/message] to the SSE transport mounted at [/sse], [/mcp] to the
    HTTP transport mounted at [/mcp], both with the key as [props.apiKey],
    and every other path to a 404 response with the body [Not found] that
    reaches no transport.  The legacy variant does so with the configured
    key, the SDK variant with the [key] parameter of a request that has
    one. *)
Theorem fetch_routes (request : request) :
  (forall key,
     (pathname request = "/sse" \/ pathname request = "/sse/message" ->
      Legacy.fetch request key = ServeSSE "/sse" key) /\
     (pathname request = "/mcp" -> Legacy.fetch request key = Serve "/mcp" key) /\
     (~ served_path (pathname request) <->
      Legacy.fetch request key = Respond 404 "Not found")) /\
  (forall k,
     key_param request = Some k -> k <> "" ->
     (pathname request = "/sse" \/ pathname request = "/sse/message" ->
      V2.fetch request = ServeSSE "/sse" (VStr k)) /\
     (pathname request = "/mcp" -> V2.fetch request = Serve "/mcp" (VStr k)) /\
     (~ served_path (pathname request) <->
      V2.fetch request = Respond 404 "Not found")).
Proof.
  destruct (served_path_cases (pathname request)) as [Hsse Hmcp].
  assert (forall (key : val),
            (pathname request = "/sse" \/ pathname request = "/sse/message" ->
             Legacy.fetch request key = ServeSSE "/sse" key) /\
            (pathname request = "/mcp" -> Legacy.fetch request key = Serve "/mcp" key) /\
            (~ served_path (pathname request) <->
             Legacy.fetch request key = Respond 404 "Not found")) as Hlegacy.
  { intro key. unfold Legacy.fetch, served_path.
    destruct (String.eqb (pathname request) "/sse"
              || String.eqb (pathname request) "/sse/message") eqn:E1.
    - pose proof (proj1 Hsse eq_refl) as H.
      split; [reflexivity | split].
      + intros Hp. rewrite Hp in H. destruct H as [H | H]; discriminate H.
      + split; [tauto | discriminate].
    - assert (~ (pathname request = "/sse" \/ pathname request = "/sse/message")) as H.
      { intro H. apply Hsse in H. discriminate H. }
      destruct (String.eqb (pathname request) "/mcp") eqn:E2.
      + pose proof (proj1 Hmcp eq_refl) as H2.
        split; [tauto | split; [reflexivity |]].
        split; [tauto | discriminate].
      + assert (pathname request <> "/mcp") as H2.
        { intro H2. apply Hmcp in H2. discriminate H2. }
        split; [tauto | split; [tauto |]].
        split; [reflexivity | tauto]. }
  split; [exact Hlegacy |].
  intros k Hkey Hne.
  assert (V2.fetch request = Legacy.fetch request (VStr k)) as ->.
  { unfold V2.fetch, Legacy.fetch. rewrite Hkey. simpl.
    destruct (String.eqb k "") eqn:E; [| reflexivity].
    apply String.eqb_eq in E. contradiction. }
  apply Hlegacy.
Qed.

(** X15.  Every registration of both registries is well formed: it has a
    description, its schema names no parameter twice, and its error phrase
    begins with [Error ] and ends with a colon and a space, so that an error
    text can be told from a success text by its first word.  No name is
    registered twice. *)
Theorem registrations_well_formed (registry : list tool) :
  registered registry ->
  NoDup (map name registry) /\
  forall t, In t registry -> well_formed t = true.
Proof.
  intro Hreg. split; [now apply registered_names_NoDup |].
  apply forallb_forall.
  destruct Hreg as [(net & apiKey & ->) | (createClient & apiKey & ->)];
    vm_compute; reflexivity.
Qed.

Lemma firstn_within {A} (n : nat) (l : list A) :
  firstn (Nat.min n (length l)) l = firstn n l.
Proof.
  destruct (Nat.le_ge_cases n (length l)) as [H | H].
  - now rewrite Nat.min_l.
  - rewrite Nat.min_r by exact H.
    now rewrite firstn_all, firstn_all2.
Qed.

(** [items.slice(o, o + l)] for integers [o, l >= 0]. *)
Lemma slice_list_window {A} (items : list A) (o l : Z) :
  (0 <= o)%Z -> (0 <= l)%Z ->
  slice_list items (Finite o) (Finite (o + l)) = window o l items.
Proof.
  intros Ho Hl. unfold slice_list, window, clamp_index.
  destruct (o <? 0)%Z eqn:E1; [apply Z.ltb_lt in E1; lia |].
  destruct (o + l <? 0)%Z eqn:E2; [apply Z.ltb_lt in E2; lia |].
  destruct (Z_le_gt_dec o (Z.of_nat (length items))) as [Hin | Hout].
  - rewrite (Z.min_l o) by exact Hin.
    rewrite <- (firstn_within (Z.to_nat l)).
    f_equal. rewrite length_skipn. lia.
  - rewrite (Z.min_r o) by lia. rewrite (Z.min_r (o + l)) by lia.
    rewrite Z.sub_diag. simpl.
    rewrite (skipn_all2 items) by lia.
    now rewrite firstn_nil.
Qed.

Lemma window_app {A} (o l l' : Z) (items : list A) :
  (0 <= o)%Z -> (0 <= l)%Z -> (0 <= l')%Z ->
  (window o l items ++ window (o + l) l' items)%list = window o (l + l') items.
Proof.
  intros Ho Hl Hl'. unfold window.
  rewrite !Z2Nat.inj_add by lia.
  rewrite (Nat.add_comm (Z.to_nat o)), <- skipn_skipn.
  generalize (skipn (Z.to_nat o) items) as ys.
  generalize (Z.to_nat l') as m. generalize (Z.to_nat l) as n.
  induction n as [| n IH]; intros m ys; [reflexivity |].
  destruct ys as [| y ys]; simpl.
  - now rewrite firstn_nil.
  - f_equal. apply IH.
Qed.

(** X16.  The pages of the legacy listings.  For integers [offset >= 0] and
    [limit >= 0], [find_projects] renders the items of the answer from
    position [offset] on, at most [limit] of them: none when [offset] is
    past the end or [limit] is zero, and the pages [(offset, limit)] and
    [(offset + limit, limit')] together are the page
    [(offset, limit + limit')].  [find_chats] renders the first [limit]
    items whatever [offset] is, and for a negative [limit] all items but
    the last [-limit]. *)
Theorem legacy_pages (items : list val) (limit offset : number) (o l : Z) :
  to_integer offset = Finite o ->
  to_integer limit = Finite l ->
  to_integer (num_add offset limit) = Finite (o + l) ->
  (0 <= o)%Z ->
  ((0 <= l)%Z ->
   (forall log,
      Legacy.project_lines (VArr items) limit offset log =
      map_m legacy_project_line (window o l items) log) /\
   (forall log,
      Legacy.chat_lines (VArr items) limit log =
      map_m legacy_chat_line (firstn (Z.to_nat l) items) log) /\
   ((Z.of_nat (length items) <= o)%Z \/ l = 0%Z -> window o l items = []) /\
   (forall l', (0 <= l')%Z ->
      (window o l items ++ window (o + l) l' items)%list = window o (l + l') items)) /\
  ((l < 0)%Z ->
   forall log,
     Legacy.chat_lines (VArr items) limit log =
     map_m legacy_chat_line
       (firstn (length items - Z.to_nat (- l)) items) log).
Proof.
  intros Hoffset Hlimit Hsum Ho. split.
  - intro Hl. split; [| split; [| split]].
    + intro log. unfold Legacy.project_lines, bind, js_slice, ret.
      rewrite Hoffset, Hsum, slice_list_window by assumption. reflexivity.
    + intro log. unfold Legacy.chat_lines, bind, js_slice, ret.
      rewrite Hlimit.
      change (Finite l) with (Finite (0 + l)).
      rewrite slice_list_window by lia. reflexivity.
    + unfold window. intros [Hpast | ->].
      * rewrite skipn_all2 by lia. apply firstn_nil.
      * reflexivity.
    + intros l' Hl'. now apply window_app.
  - intros Hneg log. unfold Legacy.chat_lines, bind, js_slice, ret.
    rewrite Hlimit. unfold slice_list, clamp_index.
    change (0 <? 0)%Z with false. cbv iota.
    assert ((l <? 0)%Z = true) as -> by (apply Z.ltb_lt; exact Hneg).
    rewrite Z.min_l by lia. simpl skipn.
    replace (Z.to_nat (Z.max (Z.of_nat (length items) + l) 0 - 0))
      with (length items - Z.to_nat (- l)) by lia.
    reflexivity.
Qed.

End Routing.

(** ** Arguments handed on, and success told from failure *)

Section Opening.
Context {host : Host}.

Abbreviation val := (value number).

Lemma opens_ret (c : ascii) (s : string) : opens_with c (ret (String c s)).
Proof. intros log text l H. injection H as <- _. now exists s. Qed.

Lemma opens_bind {A} (c : ascii) (m : M A) (k : A -> M string) :
  (forall a, opens_with c (k a)) -> opens_with c (bind m k).
Proof.
  intros Hk log text l H. unfold bind in H.
  destruct (m log) as [[a | e] l']; [| discriminate H].
  exact (Hk a _ _ _ H).
Qed.

Lemma prefix_extend (p s m : string) :
  String.prefix p s = true -> String.prefix p (s ++ m) = true.
Proof.
  revert s. induction p as [| c p IH]; intros s H; [now destruct (s ++ m) |].
  destruct s as [| d s]; [discriminate H |].
  simpl in *. destruct (ascii_dec c d); [now apply IH | discriminate H].
Qed.

Lemma prefix_first (c d : ascii) (p s : string) :
  c <> d -> String.prefix (String c p) (String d s) = false.
Proof.
  intro H. simpl. destruct (ascii_dec c d); [contradiction | reflexivity].
Qed.

End Opening.

(** Discharging [opens_with] goals over the text computations. *)
Ltac opening :=
  repeat first
    [ progress intros
    | apply opens_ret
    | apply opens_bind
    | match goal with
      | |- opens_with _ (let _ := _ in _) => cbv zeta
      end ].

Section Telling.
Context {host : Host}.

Abbreviation val := (value number).

(** The success text of every tool begins with a letter other than [E]. *)
Lemma attempt_opening (registry : list tool) (t : tool) (args : arguments) :
  registered registry -> In t registry ->
  exists c, c <> "E"%char /\ opens_with c (attempt t args).
Proof.
  intros [(net & apiKey & ->) | (createClient & apiKey & ->)] Hin.
  - unfold Legacy.tools in Hin.
    repeat (destruct Hin as [<- | Hin];
            [ eexists; split;
              [| cbn [attempt];
                 match goal with
                 | |- opens_with _ (?f _ _ _ args) => unfold f
                 end;
                 unfold listing_text; opening ];
              discriminate
            |]).
    destruct Hin.
  - unfold V2.tools in Hin.
    repeat (destruct Hin as [<- | Hin];
            [ eexists; split;
              [| cbn [attempt];
                 match goal with
                 | |- opens_with _ (?f _ _ _ args) => unfold f
                 end;
                 unfold listing_text; opening ];
              discriminate
            |]).
    destruct Hin.
Qed.

(** X17.  The envelopes carry no error flag; the text alone tells a failure
    from a success, and it does so reliably.  For every tool of both
    registries, every argument object and every behaviour of the upstream,
    the text of the returned envelope begins with [Error ] exactly when the
    try block of the handler failed. *)
Theorem error_prefix_tells_failure (registry : list tool) (t : tool)
    (args : arguments) (log : list event) :
  registered registry -> In t registry ->
  exists text l,
    handler t args log = (Normal
      {| content :=
           [ {| block_type := "text";
                block_text := text |} ] |}, l) /\
    (String.prefix "Error " text = true <->
     exists error, fst (attempt t args log) = Abrupt error).
Proof.
  intros Hreg Hin. rewrite handler_run.
  destruct (attempt_opening registry t args Hreg Hin) as (c & Hc & Hopens).
  destruct (attempt t args log) as [[text | error] l] eqn:E; simpl.
  - exists text, l. split; [reflexivity |].
    destruct (Hopens _ _ _ E) as [rest ->].
    split.
    + intro H. rewrite prefix_first in H by congruence. discriminate H.
    + intros [error H]. discriminate H.
  - exists (error_phrase t ++ error_text error), l. split; [reflexivity |].
    split; [intros _; now exists error |].
    intros _. apply prefix_extend.
    assert (forallb (fun t => String.prefix "Error " (error_phrase t)) registry = true)
      as Hall
      by (destruct Hreg as [(net & apiKey & ->) | (createClient & apiKey & ->)];
          vm_compute; reflexivity).
    rewrite forallb_forall in Hall. now apply Hall.
Qed.

(** X18.  A handler hands the decoded arguments on to its client method as
    they are: the call receives one object that holds every declared
    parameter under its own name, in the order of the schema, with the value
    the caller gave or [undefined] when the caller gave none, and no
    argument at all when the tool declares no parameter.  Nothing is
    renamed, defaulted or dropped.  The exceptions are the tools that
    compute a parameter: [create_chat] and [initialize_chat] in the SDK
    variant, [create_chat], [find_chats] and [find_projects] in the legacy
    variant. *)
Theorem arguments_forwarded :
  (forall createClient apiKey t args log,
     In t (V2.tools createClient apiKey) ->
     existsb (String.eqb (name t)) computes_parameters = false ->
     exists operation,
       snd (handler t args log) =
       (log ++ [Call operation (forwarded (schema t) args)])%list) /\
  (forall net apiKey t args log,
     In t (Legacy.tools net apiKey) ->
     existsb (String.eqb (name t)) legacy_computes_parameters = false ->
     exists operation fetched,
       snd (handler t args log) =
       (log ++ Call operation (forwarded (schema t) args) :: fetched)%list).
Proof.
  split.
  - intros createClient apiKey t args log Hin Hnot.
    unfold V2.tools in Hin.
    repeat
      (destruct Hin as [<- | Hin];
       [ first
           [ discriminate Hnot
           | rewrite handler_run; cbn [attempt schema];
             match goal with
             | |- context [?f _ _ _ args log] => unfold f
             end;
             cbv zeta;
             rewrite v0_bind_run by silence;
             eexists; reflexivity ]
       | ]).
    destruct Hin.
  - intros net apiKey t args log Hin Hnot.
    unfold Legacy.tools in Hin.
    repeat
      (destruct Hin as [<- | Hin];
       [ first
           [ discriminate Hnot
           | rewrite handler_run; cbn [attempt schema];
             cbv beta zeta delta
               [Legacy.get_chat Legacy.add_message Legacy.create_project
                Legacy.get_user_info Legacy.get_user_plan Legacy.check_rate_limits
                Legacy.delete_chat Legacy.chats_getById Legacy.chats_createMessage
                Legacy.chats_delete Legacy.projects_create Legacy.user_get
                Legacy.user_getPlan Legacy.rateLimits_find];
             match goal with
             | |- context [bind (bind (emit (Call ?op ?a))
                                  (fun _ => Legacy.fetcher _ _ ?u ?m ?p)) ?k] =>
                 destruct (client_bind_run net apiKey op a u m p k)
                   as (c & fetched & Hrun & _);
                 [ silence | rewrite Hrun; exists op, fetched; reflexivity ]
             end ]
       | ]).
    destruct Hin.
Qed.

End Telling.

(** * Further scenarios on the integer host *)

Module Instances.
Import IntegerHost.
Import Stubs.
Import Fixtures.

Lemma no_content_registry_registered : registered no_content_registry.
Proof. left. exists no_content, key. reflexivity. Qed.

Lemma sdk_registry_registered (v : value Z) : registered (sdk_registry v).
Proof. right. exists (sdk_answers v), key. reflexivity. Qed.

(** A deletion answered with 204 and no body is reported as a failure. *)
Example delete_chat_no_content :
  fst (handler (pick no_content_registry "delete_chat") plain_chat_id [])
  = Normal (text_result "Error deleting chat: Unexpected end of JSON input").
Proof. reflexivity. Qed.

(** An empty page has a header and nothing else. *)
Example find_hooks_empty :
  fst (handler (pick (sdk_registry (VObj no_items)) "find_hooks") [] [])
  = Normal (text_result ("Found 0 hooks:" ++ nl ++ nl)).
Proof. reflexivity. Qed.

Lemma legacy_http_error_text_witness :
  truthy key = true /\
  In (pick refusing_registry "delete_chat") refusing_registry /\
  exists operation a request,
    handler (pick refusing_registry "delete_chat") plain_chat_id [] =
    (Normal
      {| content :=
           [ {| block_type := "text";
                block_text := "Error deleting chat: HTTP 404: Chat not found" |} ] |},
     ([] ++ [Call operation a; Fetch request])%list).
Proof.
  split; [reflexivity |].
  split; [eapply Scenarios.pick_In; reflexivity |].
  apply (legacy_http_error_text (host := host) (refuses 404 "Chat not found") key
           not_found_response "Chat not found").
  - reflexivity.
  - intro request. reflexivity.
  - reflexivity.
  - reflexivity.
  - eapply Scenarios.pick_In; reflexivity.
Defined.

Lemma legacy_unreadable_body_witness :
  truthy key = true /\
  Legacy.ok no_content_response = true /\
  Legacy.json no_content_response =
    Abrupt (ErrorObject "Unexpected end of JSON input") /\
  exists operation a request,
    handler (pick no_content_registry "delete_chat") plain_chat_id [] =
    (Normal
      {| content :=
           [ {| block_type := "text";
                block_text := "Error deleting chat: Unexpected end of JSON input" |} ] |},
     ([] ++ [Call operation a; Fetch request])%list).
Proof.
  split; [reflexivity |]. split; [reflexivity |]. split; [reflexivity |].
  apply (legacy_unreadable_body (host := host) no_content key no_content_response
           (ErrorObject "Unexpected end of JSON input")).
  - reflexivity.
  - intro request. reflexivity.
  - left. split; reflexivity.
  - eapply Scenarios.pick_In; reflexivity.
Defined.

Lemma legacy_request_shape_witness :
  truthy key = true /\
  In (pick refusing_registry "add_message") refusing_registry /\
  exists operation a request,
    snd (handler (pick refusing_registry "add_message") first_message []) =
      ([] ++ [Call operation a; Fetch request])%list /\
    String.prefix Legacy.BASE_URL (req_url request) = true /\
    (((req_method request = "GET" \/ req_method request = "DELETE") /\
      req_body request = None /\
      req_headers request = [authorization key]) \/
     (req_method request = "POST" /\
      (exists members, req_body request = Some (VObj members)) /\
      req_headers request = [authorization key; json_content_type])).
Proof.
  split; [reflexivity |].
  split; [eapply Scenarios.pick_In; reflexivity |].
  apply (legacy_request_shape (host := host) (refuses 404 "Chat not found") key).
  - reflexivity.
  - eapply Scenarios.pick_In; reflexivity.
Defined.

Lemma first_and_other_agree :
  agree_on ["chatId"; "limit"; "offset"] first_message other_message.
Proof. intros k [<- | [<- | [<- | []]]]; reflexivity. Qed.

Lemma legacy_url_ignores_content_witness :
  truthy key = true /\
  agree_on ["chatId"; "limit"; "offset"] first_message other_message /\
  exists operation a a' request request',
    snd (handler (pick refusing_registry "add_message") first_message []) =
      ([] ++ [Call operation a; Fetch request])%list /\
    snd (handler (pick refusing_registry "add_message") other_message []) =
      ([] ++ [Call operation a'; Fetch request'])%list /\
    req_url request = req_url request' /\
    req_method request = req_method request' /\
    req_headers request = req_headers request'.
Proof.
  split; [reflexivity |].
  split; [exact first_and_other_agree |].
  apply (legacy_url_ignores_content (host := host) (refuses 404 "Chat not found") key).
  - reflexivity.
  - eapply Scenarios.pick_In; reflexivity.
  - exact first_and_other_agree.
Defined.

Lemma find_methods_query_witness :
  truthy key = true /\
  exists c request q,
    Legacy.chats_find (answers VNull) key (Some favorites_only) [] =
    (c, ([] ++ [Call "chats.find" [VObj favorites_only]; Fetch request])%list) /\
    req_method request = "GET" /\ req_body request = None /\
    req_url request =
    "https://api.v0.dev/v1/chats" ++
    match q with [] => "" | _ => "?" ++ url_search_params q end /\
    (forall k s,
       In (k, s) q <->
       exists o, Some favorites_only = Some o /\
                 In k ["limit"; "offset"; "isFavorite"] /\
                 lookup k o <> VUndefined /\ s = to_string (lookup k o)).
Proof.
  split; [reflexivity |].
  exact (proj1 (find_methods_query (host := host) (answers VNull) key [] eq_refl)
           (Some favorites_only)).
Defined.

Lemma legacy_post_bodies_witness :
  truthy key = true /\
  exists a request members,
    snd (Legacy.add_message (answers VNull) key first_message []) =
      ([] ++ [Call "chats.createMessage" a; Fetch request])%list /\
    req_body request = Some (VObj members) /\
    forall k,
      has_key k members =
      String.eqb k "message" && defined (lookup "message" first_message).
Proof.
  split; [reflexivity |].
  exact (proj1 (proj2 (legacy_post_bodies (host := host) (answers VNull) key
                         first_message [] eq_refl))).
Defined.

Lemma padded_and_plain_agree :
  agree_on (map fst (schema (pick refusing_registry "delete_chat")))
    padded_chat_id plain_chat_id.
Proof. intros k [<- | []]. reflexivity. Qed.

Lemma handler_reads_declared_fields_witness :
  registered refusing_registry /\
  In (pick refusing_registry "delete_chat") refusing_registry /\
  argument_object padded_chat_id /\
  argument_object plain_chat_id /\
  agree_on (map fst (schema (pick refusing_registry "delete_chat")))
    padded_chat_id plain_chat_id /\
  handler (pick refusing_registry "delete_chat") padded_chat_id [] =
  handler (pick refusing_registry "delete_chat") plain_chat_id [].
Proof.
  split; [exact Scenarios.refusing_registry_registered |].
  split; [eapply Scenarios.pick_In; reflexivity |].
  split; [apply distinct_NoDup; reflexivity |].
  split; [apply distinct_NoDup; reflexivity |].
  split; [exact padded_and_plain_agree |].
  apply (handler_reads_declared_fields (host := host) refusing_registry).
  - exact Scenarios.refusing_registry_registered.
  - eapply Scenarios.pick_In; reflexivity.
  - apply distinct_NoDup. reflexivity.
  - apply distinct_NoDup. reflexivity.
  - exact padded_and_plain_agree.
Defined.

Lemma find_hooks_registered :
  In (pick (sdk_registry (VObj no_items)) "find_hooks") (sdk_registry (VObj no_items)).
Proof. eapply Scenarios.pick_In; reflexivity. Qed.

Lemma listing_of_nothing_witness :
  In (name (pick (sdk_registry (VObj no_items)) "find_hooks"),
      ("hooks", "No hooks found")) v2_listings /\
  lookup "data" no_items = VArr [] /\
  fst (handler (pick (sdk_registry (VObj no_items)) "find_hooks") [] []) =
  Normal ({| content := [ {| block_type := "text"; block_text := listing 0 "hooks" [] |} ] |}).
Proof.
  split; [simpl; tauto |]. split; [reflexivity |].
  refine (proj1 (proj1 (listing_of_nothing (host := host))
                   (sdk_answers (VObj no_items)) key no_items
                   (pick (sdk_registry (VObj no_items)) "find_hooks")
                   "hooks" "No hooks found" [] [] _ find_hooks_registered _) eq_refl).
  - intros operation a. reflexivity.
  - simpl. tauto.
Defined.




Lemma find_projects_registered :
  In (pick (sdk_registry (VObj misshapen)) "find_projects")
     (sdk_registry (VObj misshapen)).
Proof. eapply Scenarios.pick_In; reflexivity. Qed.

Lemma misshapen_is_no_array (items : list (value Z)) :
  lookup "data" misshapen <> VArr items.
Proof. discriminate. Qed.

Lemma listing_data_not_an_array_witness :
  truthy (lookup "data" misshapen) = true /\
  exists callee,
    fst (handler (pick (sdk_registry (VObj misshapen)) "find_projects") [] []) =
    Normal
      {| content :=
           [ {| block_type := "text";
                block_text := "Error finding projects: " ++ msg_not_a_function callee |} ] |}.
Proof.
  split; [reflexivity |].
  refine (proj1 (listing_data_not_an_array (host := host))
            (sdk_answers (VObj misshapen)) key misshapen
            (pick (sdk_registry (VObj misshapen)) "find_projects")
            "projects" "No projects found" [] [] _ find_projects_registered _ eq_refl
            misshapen_is_no_array).
  - intros operation a. reflexivity.
  - simpl. tauto.
Defined.

Lemma delete_hook_registered (v : value Z) :
  In (pick (sdk_registry v) "delete_hook") (sdk_registry v).
Proof. eapply Scenarios.pick_In; reflexivity. Qed.

Lemma confirmation_ignores_answer_witness :
  name (pick (sdk_registry VNull) "delete_hook") =
  name (pick (sdk_registry (VObj bare_user)) "delete_hook") /\
  existsb (String.eqb (name (pick (sdk_registry VNull) "delete_hook"))) answer_ignoring
  = true /\
  fst (handler (pick (sdk_registry VNull) "delete_hook") [("hookId", VStr "h1")] []) =
  fst (handler (pick (sdk_registry (VObj bare_user)) "delete_hook")
         [("hookId", VStr "h1")] []).
Proof.
  split; [reflexivity |]. split; [reflexivity |].
  refine (proj1 (confirmation_ignores_answer (host := host))
            (sdk_answers VNull) (sdk_answers (VObj bare_user)) key key
            _ _ [("hookId", VStr "h1")] [] [] _ _
            (delete_hook_registered VNull) (delete_hook_registered (VObj bare_user))
            eq_refl eq_refl).
  - intros operation a. eexists. reflexivity.
  - intros operation a. eexists. reflexivity.
Defined.





Lemma key_is_not_empty : "key123" <> "".
Proof. discriminate. Qed.

Lemma fetch_routes_witness :
  key_param sse_request = Some "key123" /\
  pathname sse_request = "/sse/message" /\
  V2.fetch sse_request = ServeSSE "/sse" (VStr "key123").
Proof.
  split; [reflexivity |]. split; [reflexivity |].
  exact (proj1 (proj2 (fetch_routes (host := host) sse_request) "key123" eq_refl
                  key_is_not_empty)
           (or_intror eq_refl)).
Defined.

Lemma registrations_well_formed_witness :
  registered refusing_registry /\
  NoDup (map name refusing_registry) /\
  forall t, In t refusing_registry -> well_formed t = true.
Proof.
  split; [exact Scenarios.refusing_registry_registered |].
  exact (registrations_well_formed (host := host) refusing_registry
           Scenarios.refusing_registry_registered).
Defined.

Lemma legacy_pages_witness :
  (0 <= 1)%Z /\
  forall log,
    Legacy.project_lines (VArr holed_items) 1%Z 1%Z log =
    map_m legacy_project_line (window 1 1 holed_items) log.
Proof.
  split; [discriminate |].
  refine (proj1 (proj1 (legacy_pages (host := host) holed_items 1%Z 1%Z 1 1
                          eq_refl eq_refl eq_refl _) _)); discriminate.
Defined.

Lemma error_prefix_tells_failure_witness :
  registered refusing_registry /\
  In (pick refusing_registry "delete_chat") refusing_registry /\
  exists text l,
    handler (pick refusing_registry "delete_chat") plain_chat_id [] =
      (Normal ({| content := [ {| block_type := "text"; block_text := text |} ] |}), l) /\
    (String.prefix "Error " text = true <->
     exists error,
       fst (attempt (pick refusing_registry "delete_chat") plain_chat_id []) =
       Abrupt error).
Proof.
  split; [exact Scenarios.refusing_registry_registered |].
  split; [eapply Scenarios.pick_In; reflexivity |].
  apply (error_prefix_tells_failure (host := host) refusing_registry).
  - exact Scenarios.refusing_registry_registered.
  - eapply Scenarios.pick_In; reflexivity.
Defined.

Lemma update_hook_registered :
  In (pick (sdk_registry VNull) "update_hook") (sdk_registry VNull).
Proof. eapply Scenarios.pick_In; reflexivity. Qed.

Lemma arguments_forwarded_witness :
  existsb (String.eqb (name (pick (sdk_registry VNull) "update_hook")))
    computes_parameters = false /\
  exists operation,
    snd (handler (pick (sdk_registry VNull) "update_hook") [("hookId", VStr "h1")] []) =
    ([] ++ [Call operation
              [VObj [("hookId", VStr "h1"); ("name", VUndefined);
                     ("url", VUndefined); ("events", VUndefined)]]])%list.
Proof.
  split; [reflexivity |].
  exact (proj1 (arguments_forwarded (host := host)) (sdk_answers VNull) key _
           [("hookId", VStr "h1")] [] update_hook_registered eq_refl).
Defined.

Lemma get_chat_of_null_registered :
  In (pick (sdk_registry VNull) "get_chat") (sdk_registry VNull).
Proof. eapply Scenarios.pick_In; reflexivity. Qed.

Lemma nullish_answer_witness :
  nullish (VNull : value Z) = true /\
  exists b k,
    fst (handler (pick (sdk_registry VNull) "get_chat") plain_chat_id []) =
    Normal
      {| content :=
           [ {| block_type := "text";
                block_text := "Error retrieving chat: " ++ msg_cannot_read b k |} ] |}.
Proof.
  split; [reflexivity |].
  refine (proj1 (proj1 (nullish_answer (host := host)) (sdk_answers VNull) key VNull
                   _ plain_chat_id [] _ eq_refl get_chat_of_null_registered) eq_refl).
  intros operation a. reflexivity.
Defined.

End Instances.
